(** * zucc-fb: the framebuffer terminal's parser, grid and key mapper

    A shallow embedding of [fb_term.c] (UTF-8 decoder, escape-sequence
    parser, cell grid operations, device reports, the pixel routines of the
    framebuffer surface and the grid size chosen by [main]) and of
    [fb_map.c] (the key mapper, for key events and for legacy byte input),
    followed by the properties established about them.

    Conventions of the embedding.
    - A C [int] is a [Z]; an [int] addition, subtraction or multiplication
      that can leave the range of [int] is wrapped with [wrap_int] (two's
      complement, 32 bits).
    - An [unsigned char] is a [Z] in [0, 256).
    - [struct terminal] is the record [terminal].  The two-dimensional array
      [cells[MAX_TERM_ROWS][MAX_TERM_COLS]] is one contiguous block, so
      [cells[y][x]] is the cell at offset [y * MAX_TERM_COLS + x]; the field
      [cells] maps such an offset to its cell.  An offset outside
      [0, MAX_TERM_ROWS * MAX_TERM_COLS) is storage outside the array: the
      model keeps it in the same map under its own offset and lets it alias
      nothing else.  In the C struct the offsets right after the array are
      the fields [cursor_x] to [utf8_buf_len], so model and program agree
      only while every cell access is inside the array.  Statements about
      states reached through cell operations say so in their hypotheses
      (the cursor on the grid, [step_in_bounds], [run_in_bounds]), and
      [outside_kept] states that nothing outside the array was written.
    - [write(term->master_fd, ...)] appends to the field [pty_out].
    - A [for] loop is [for_up], [for_down] or [for_down_ge] over its index. *)

From Stdlib Require Import ZArith List Lia Bool.
Import ListNotations.
Local Open Scope Z_scope.

(** ** Integers and loops *)

Definition wrap_int (z : Z) : Z := (z + 2 ^ 31) mod 2 ^ 32 - 2 ^ 31.

Definition is_byte (b : Z) : Prop := 0 <= b < 256.

Fixpoint for_count {A : Type} (n : nat) (i step : Z) (body : Z -> A -> A) (s : A) : A :=
  match n with
  | O => s
  | S n' => for_count n' (i + step) step body (body i s)
  end.

(** [for (i = lo; i < hi; i++) body] *)
Definition for_up {A : Type} (lo hi : Z) (body : Z -> A -> A) (s : A) : A :=
  for_count (Z.to_nat (hi - lo)) lo 1 body s.

(** [for (i = hi; i > lo; i--) body] *)
Definition for_down {A : Type} (hi lo : Z) (body : Z -> A -> A) (s : A) : A :=
  for_count (Z.to_nat (hi - lo)) hi (-1) body s.

(** [for (i = hi; i >= lo; i--) body] *)
Definition for_down_ge {A : Type} (hi lo : Z) (body : Z -> A -> A) (s : A) : A :=
  for_count (Z.to_nat (hi - lo + 1)) hi (-1) body s.

(** The indices a [for_up] loop visits, in order. *)
Definition up_indices (lo hi : Z) : list Z :=
  map (fun k => lo + Z.of_nat k) (seq 0 (Z.to_nat (hi - lo))).

(** Writing [a[i] = v] in a C array held as a list; the index is a C int.
    An index outside the list leaves the list as it is. *)
Fixpoint set_nth (n : nat) (v : Z) (l : list Z) : list Z :=
  match l, n with
  | [], _ => []
  | _ :: r, O => v :: r
  | x :: r, S n' => x :: set_nth n' v r
  end.

Definition list_set (l : list Z) (i : Z) (v : Z) : list Z :=
  if 0 <=? i then set_nth (Z.to_nat i) v l else l.

(** Reading [a[i]]; outside the list the model reads 0. *)
Definition list_get (l : list Z) (i : Z) : Z :=
  if 0 <=? i then nth (Z.to_nat i) l 0 else 0.

(** ** Constants of fb_term.c *)

Definition MAX_ESCAPE_PARAMS : Z := 16.
Definition MAX_TERM_COLS : Z := 500.
Definition MAX_TERM_ROWS : Z := 200.

(** ** Data model *)

Module cell.
Record t : Type := mk {
  codepoint : Z;
  fg_color : Z;
  bg_color : Z;
  bold : Z
}.
Definition zero : t := mk 0 0 0 0.
End cell.

Inductive parser_state : Type :=
| STATE_NORMAL
| STATE_ESC
| STATE_CSI
| STATE_OSC.

Record terminal : Type := mkterm {
  cells : Z -> cell.t;
  cursor_x : Z;
  cursor_y : Z;
  cursor_visible : Z;
  fg_color : Z;
  bg_color : Z;
  bold : Z;
  scroll_top : Z;
  scroll_bottom : Z;
  master_fd : Z;
  state : parser_state;
  escape_params : list Z;
  num_escape_params : Z;
  private_mode : Z;
  escape_buf_len : Z;
  utf8_buf : list Z;
  utf8_buf_len : Z;
  pty_out : list Z
}.

Definition set_cells (v : Z -> cell.t) (t : terminal) : terminal :=
  mkterm v (cursor_x t) (cursor_y t) (cursor_visible t) (fg_color t) (bg_color t)
    (bold t) (scroll_top t) (scroll_bottom t) (master_fd t) (state t)
    (escape_params t) (num_escape_params t) (private_mode t) (escape_buf_len t)
    (utf8_buf t) (utf8_buf_len t) (pty_out t).

Definition set_cursor_x (v : Z) (t : terminal) : terminal :=
  mkterm (cells t) v (cursor_y t) (cursor_visible t) (fg_color t) (bg_color t)
    (bold t) (scroll_top t) (scroll_bottom t) (master_fd t) (state t)
    (escape_params t) (num_escape_params t) (private_mode t) (escape_buf_len t)
    (utf8_buf t) (utf8_buf_len t) (pty_out t).

Definition set_cursor_y (v : Z) (t : terminal) : terminal :=
  mkterm (cells t) (cursor_x t) v (cursor_visible t) (fg_color t) (bg_color t)
    (bold t) (scroll_top t) (scroll_bottom t) (master_fd t) (state t)
    (escape_params t) (num_escape_params t) (private_mode t) (escape_buf_len t)
    (utf8_buf t) (utf8_buf_len t) (pty_out t).

Definition set_cursor_visible (v : Z) (t : terminal) : terminal :=
  mkterm (cells t) (cursor_x t) (cursor_y t) v (fg_color t) (bg_color t)
    (bold t) (scroll_top t) (scroll_bottom t) (master_fd t) (state t)
    (escape_params t) (num_escape_params t) (private_mode t) (escape_buf_len t)
    (utf8_buf t) (utf8_buf_len t) (pty_out t).

Definition set_fg_color (v : Z) (t : terminal) : terminal :=
  mkterm (cells t) (cursor_x t) (cursor_y t) (cursor_visible t) v (bg_color t)
    (bold t) (scroll_top t) (scroll_bottom t) (master_fd t) (state t)
    (escape_params t) (num_escape_params t) (private_mode t) (escape_buf_len t)
    (utf8_buf t) (utf8_buf_len t) (pty_out t).

Definition set_bg_color (v : Z) (t : terminal) : terminal :=
  mkterm (cells t) (cursor_x t) (cursor_y t) (cursor_visible t) (fg_color t) v
    (bold t) (scroll_top t) (scroll_bottom t) (master_fd t) (state t)
    (escape_params t) (num_escape_params t) (private_mode t) (escape_buf_len t)
    (utf8_buf t) (utf8_buf_len t) (pty_out t).

Definition set_bold (v : Z) (t : terminal) : terminal :=
  mkterm (cells t) (cursor_x t) (cursor_y t) (cursor_visible t) (fg_color t) (bg_color t)
    v (scroll_top t) (scroll_bottom t) (master_fd t) (state t)
    (escape_params t) (num_escape_params t) (private_mode t) (escape_buf_len t)
    (utf8_buf t) (utf8_buf_len t) (pty_out t).

Definition set_scroll_top (v : Z) (t : terminal) : terminal :=
  mkterm (cells t) (cursor_x t) (cursor_y t) (cursor_visible t) (fg_color t) (bg_color t)
    (bold t) v (scroll_bottom t) (master_fd t) (state t)
    (escape_params t) (num_escape_params t) (private_mode t) (escape_buf_len t)
    (utf8_buf t) (utf8_buf_len t) (pty_out t).

Definition set_scroll_bottom (v : Z) (t : terminal) : terminal :=
  mkterm (cells t) (cursor_x t) (cursor_y t) (cursor_visible t) (fg_color t) (bg_color t)
    (bold t) (scroll_top t) v (master_fd t) (state t)
    (escape_params t) (num_escape_params t) (private_mode t) (escape_buf_len t)
    (utf8_buf t) (utf8_buf_len t) (pty_out t).

Definition set_master_fd (v : Z) (t : terminal) : terminal :=
  mkterm (cells t) (cursor_x t) (cursor_y t) (cursor_visible t) (fg_color t) (bg_color t)
    (bold t) (scroll_top t) (scroll_bottom t) v (state t)
    (escape_params t) (num_escape_params t) (private_mode t) (escape_buf_len t)
    (utf8_buf t) (utf8_buf_len t) (pty_out t).

Definition set_state (v : parser_state) (t : terminal) : terminal :=
  mkterm (cells t) (cursor_x t) (cursor_y t) (cursor_visible t) (fg_color t) (bg_color t)
    (bold t) (scroll_top t) (scroll_bottom t) (master_fd t) v
    (escape_params t) (num_escape_params t) (private_mode t) (escape_buf_len t)
    (utf8_buf t) (utf8_buf_len t) (pty_out t).

Definition set_escape_params (v : list Z) (t : terminal) : terminal :=
  mkterm (cells t) (cursor_x t) (cursor_y t) (cursor_visible t) (fg_color t) (bg_color t)
    (bold t) (scroll_top t) (scroll_bottom t) (master_fd t) (state t)
    v (num_escape_params t) (private_mode t) (escape_buf_len t)
    (utf8_buf t) (utf8_buf_len t) (pty_out t).

Definition set_num_escape_params (v : Z) (t : terminal) : terminal :=
  mkterm (cells t) (cursor_x t) (cursor_y t) (cursor_visible t) (fg_color t) (bg_color t)
    (bold t) (scroll_top t) (scroll_bottom t) (master_fd t) (state t)
    (escape_params t) v (private_mode t) (escape_buf_len t)
    (utf8_buf t) (utf8_buf_len t) (pty_out t).

Definition set_private_mode (v : Z) (t : terminal) : terminal :=
  mkterm (cells t) (cursor_x t) (cursor_y t) (cursor_visible t) (fg_color t) (bg_color t)
    (bold t) (scroll_top t) (scroll_bottom t) (master_fd t) (state t)
    (escape_params t) (num_escape_params t) v (escape_buf_len t)
    (utf8_buf t) (utf8_buf_len t) (pty_out t).

Definition set_escape_buf_len (v : Z) (t : terminal) : terminal :=
  mkterm (cells t) (cursor_x t) (cursor_y t) (cursor_visible t) (fg_color t) (bg_color t)
    (bold t) (scroll_top t) (scroll_bottom t) (master_fd t) (state t)
    (escape_params t) (num_escape_params t) (private_mode t) v
    (utf8_buf t) (utf8_buf_len t) (pty_out t).

Definition set_utf8_buf (v : list Z) (t : terminal) : terminal :=
  mkterm (cells t) (cursor_x t) (cursor_y t) (cursor_visible t) (fg_color t) (bg_color t)
    (bold t) (scroll_top t) (scroll_bottom t) (master_fd t) (state t)
    (escape_params t) (num_escape_params t) (private_mode t) (escape_buf_len t)
    v (utf8_buf_len t) (pty_out t).

Definition set_utf8_buf_len (v : Z) (t : terminal) : terminal :=
  mkterm (cells t) (cursor_x t) (cursor_y t) (cursor_visible t) (fg_color t) (bg_color t)
    (bold t) (scroll_top t) (scroll_bottom t) (master_fd t) (state t)
    (escape_params t) (num_escape_params t) (private_mode t) (escape_buf_len t)
    (utf8_buf t) v (pty_out t).

(** [if (term->master_fd >= 0) write(term->master_fd, bytes, len)] *)
Definition pty_write (bytes : list Z) (t : terminal) : terminal :=
  if master_fd t >=? 0 then
    mkterm (cells t) (cursor_x t) (cursor_y t) (cursor_visible t) (fg_color t) (bg_color t)
      (bold t) (scroll_top t) (scroll_bottom t) (master_fd t) (state t)
      (escape_params t) (num_escape_params t) (private_mode t) (escape_buf_len t)
      (utf8_buf t) (utf8_buf_len t) (pty_out t ++ bytes)
  else t.

(** ** Colour palette: [init_color_palette] *)

Definition color_palette (i : Z) : Z :=
  if i =? 0 then 0x00000000
  else if i =? 1 then 0x00CD0000
  else if i =? 2 then 0x0000CD00
  else if i =? 3 then 0x00CDCD00
  else if i =? 4 then 0x000000EE
  else if i =? 5 then 0x00CD00CD
  else if i =? 6 then 0x0000CDCD
  else if i =? 7 then 0x00E5E5E5
  else if i =? 8 then 0x007F7F7F
  else if i =? 9 then 0x00FF0000
  else if i =? 10 then 0x0000FF00
  else if i =? 11 then 0x00FFFF00
  else if i =? 12 then 0x005C5CFF
  else if i =? 13 then 0x00FF00FF
  else if i =? 14 then 0x0000FFFF
  else if i =? 15 then 0x00FFFFFF
  else if (16 <=? i) && (i <? 232) then
    let k := i - 16 in
    let r := (k / 36) * 51 in
    let g := ((k / 6) mod 6) * 51 in
    let b := (k mod 6) * 51 in
    Z.lor (Z.lor (Z.shiftl r 16) (Z.shiftl g 8)) b
  else if (232 <=? i) && (i <? 256) then
    let gray := 8 + (i - 232) * 10 in
    Z.lor (Z.lor (Z.shiftl gray 16) (Z.shiftl gray 8)) gray
  else 0.

(** ** UTF-8 decoder: [utf8_decode]

    The argument is the buffer [*p] points into; the result is the decoded
    code point and the number of bytes [*p] was advanced by. *)

Definition is_continuation (b : Z) : bool :=
  negb (b =? 0) && (Z.land b 0xC0 =? 0x80).

Definition utf8_decode (buf : list Z) : Z * Z :=
  let c := list_get buf 0 in
  if c =? 0 then (0, 0)
  else if Z.land c 0x80 =? 0 then (c, 1)
  else if Z.land c 0xE0 =? 0xC0 then
    let cp := Z.shiftl (Z.land c 0x1F) 6 in
    if is_continuation (list_get buf 1)
    then (Z.lor cp (Z.land (list_get buf 1) 0x3F), 2)
    else (cp, 1)
  else if Z.land c 0xF0 =? 0xE0 then
    let cp := Z.shiftl (Z.land c 0x0F) 12 in
    if is_continuation (list_get buf 1) then
      let cp1 := Z.lor cp (Z.shiftl (Z.land (list_get buf 1) 0x3F) 6) in
      if is_continuation (list_get buf 2)
      then (Z.lor cp1 (Z.land (list_get buf 2) 0x3F), 3)
      else (cp1, 2)
    else (cp, 1)
  else if Z.land c 0xF8 =? 0xF0 then
    let cp := Z.shiftl (Z.land c 0x07) 18 in
    if is_continuation (list_get buf 1) then
      let cp1 := Z.lor cp (Z.shiftl (Z.land (list_get buf 1) 0x3F) 12) in
      if is_continuation (list_get buf 2) then
        let cp2 := Z.lor cp1 (Z.shiftl (Z.land (list_get buf 2) 0x3F) 6) in
        if is_continuation (list_get buf 3)
        then (Z.lor cp2 (Z.land (list_get buf 3) 0x3F), 4)
        else (cp2, 3)
      else (cp1, 2)
    else (cp, 1)
  else (0xFFFD, 1).

(** [snprintf("%d", n)]: the decimal digits of [n], most significant first,
    as character codes, with a leading '-' for a negative [n]. *)

Fixpoint rev_digits (fuel : nat) (n : Z) : list Z :=
  match fuel with
  | O => []
  | S fuel' => (n mod 10) :: (if n <? 10 then [] else rev_digits fuel' (n / 10))
  end.

Definition dec_digits (n : Z) : list Z := rev (rev_digits 10 n).

Definition fmt_d (n : Z) : list Z :=
  if n <? 0 then 45 :: map (fun d => 48 + d) (dec_digits (- n))
  else map (fun d => 48 + d) (dec_digits n).

(** ** Key mapper: fb_map.c

    The key codes are those of <linux/input-event-codes.h>, which fb_map.c
    includes through <linux/input.h>; the header belongs to the kernel, not
    to the repository, and its values are fixed by the kernel ABI. *)

Module input_event_codes.
Definition KEY_ESC : Z := 1.
Definition KEY_1 : Z := 2.
Definition KEY_9 : Z := 10.
Definition KEY_0 : Z := 11.
Definition KEY_MINUS : Z := 12.
Definition KEY_EQUAL : Z := 13.
Definition KEY_BACKSPACE : Z := 14.
Definition KEY_TAB : Z := 15.
Definition KEY_Q : Z := 16.
Definition KEY_W : Z := 17.
Definition KEY_E : Z := 18.
Definition KEY_R : Z := 19.
Definition KEY_T : Z := 20.
Definition KEY_Y : Z := 21.
Definition KEY_U : Z := 22.
Definition KEY_I : Z := 23.
Definition KEY_O : Z := 24.
Definition KEY_P : Z := 25.
Definition KEY_LEFTBRACE : Z := 26.
Definition KEY_RIGHTBRACE : Z := 27.
Definition KEY_ENTER : Z := 28.
Definition KEY_LEFTCTRL : Z := 29.
Definition KEY_A : Z := 30.
Definition KEY_S : Z := 31.
Definition KEY_D : Z := 32.
Definition KEY_F : Z := 33.
Definition KEY_G : Z := 34.
Definition KEY_H : Z := 35.
Definition KEY_J : Z := 36.
Definition KEY_K : Z := 37.
Definition KEY_L : Z := 38.
Definition KEY_SEMICOLON : Z := 39.
Definition KEY_APOSTROPHE : Z := 40.
Definition KEY_GRAVE : Z := 41.
Definition KEY_LEFTSHIFT : Z := 42.
Definition KEY_BACKSLASH : Z := 43.
Definition KEY_Z : Z := 44.
Definition KEY_X : Z := 45.
Definition KEY_C : Z := 46.
Definition KEY_V : Z := 47.
Definition KEY_B : Z := 48.
Definition KEY_N : Z := 49.
Definition KEY_M : Z := 50.
Definition KEY_COMMA : Z := 51.
Definition KEY_DOT : Z := 52.
Definition KEY_SLASH : Z := 53.
Definition KEY_RIGHTSHIFT : Z := 54.
Definition KEY_LEFTALT : Z := 56.
Definition KEY_SPACE : Z := 57.
Definition KEY_RIGHTCTRL : Z := 97.
Definition KEY_RIGHTALT : Z := 100.
Definition KEY_HOME : Z := 102.
Definition KEY_UP : Z := 103.
Definition KEY_PAGEUP : Z := 104.
Definition KEY_LEFT : Z := 105.
Definition KEY_RIGHT : Z := 106.
Definition KEY_END : Z := 107.
Definition KEY_DOWN : Z := 108.
Definition KEY_PAGEDOWN : Z := 109.
Definition KEY_INSERT : Z := 110.
Definition KEY_DELETE : Z := 111.
End input_event_codes.

Module kb.
Import input_event_codes.

Inductive KeyAction : Type :=
| ACTION_NONE
| ACTION_COPY
| ACTION_PASTE
| ACTION_SCROLL_UP
| ACTION_SCROLL_DOWN
| ACTION_CLEAR_SCREEN
| ACTION_QUIT
| ACTION_INCREASE_FONT
| ACTION_DECREASE_FONT.

(** The file-scope variables of fb_map.c that the key-event path uses. *)
Record modifiers : Type := mk {
  ctrl_pressed : bool;
  alt_pressed : bool;
  shift_pressed : bool
}.

Definition kb_init : modifiers := mk false false false.

Definition kb_handle_release (keycode : Z) (m : modifiers) : modifiers :=
  let m1 := if (keycode =? KEY_LEFTCTRL) || (keycode =? KEY_RIGHTCTRL)
            then mk false (alt_pressed m) (shift_pressed m) else m in
  let m2 := if (keycode =? KEY_LEFTSHIFT) || (keycode =? KEY_RIGHTSHIFT)
            then mk (ctrl_pressed m1) (alt_pressed m1) false else m1 in
  if (keycode =? KEY_LEFTALT) || (keycode =? KEY_RIGHTALT)
  then mk (ctrl_pressed m2) false (shift_pressed m2) else m2.

Definition kb_map_key (keycode : Z) (m : modifiers) : KeyAction :=
  if (keycode =? KEY_LEFTCTRL) || (keycode =? KEY_RIGHTCTRL) then ACTION_NONE
  else if (keycode =? KEY_LEFTSHIFT) || (keycode =? KEY_RIGHTSHIFT) then ACTION_NONE
  else if (keycode =? KEY_LEFTALT) || (keycode =? KEY_RIGHTALT) then ACTION_NONE
  else if (keycode =? KEY_Q) && ctrl_pressed m then ACTION_QUIT
  else ACTION_NONE.

(** [seq[0] = shift_pressed ? hi : lo; seq[1] = 0; return seq;] *)
Definition one_char (m : modifiers) (hi lo : Z) : list Z :=
  [if shift_pressed m then hi else lo].

(** The string literal "!@#$%^&*(" indexed by [keycode - KEY_1]. *)
Definition shifted_digits : list Z := [33; 64; 35; 36; 37; 94; 38; 42; 40].

(** The returned C string, as the list of its bytes, and the modifier
    variables after the call. *)
Definition kb_get_sequence (keycode : Z) (m : modifiers) : list Z * modifiers :=
  if (keycode =? KEY_LEFTCTRL) || (keycode =? KEY_RIGHTCTRL)
  then ([], mk true (alt_pressed m) (shift_pressed m))
  else if (keycode =? KEY_LEFTSHIFT) || (keycode =? KEY_RIGHTSHIFT)
  then ([], mk (ctrl_pressed m) (alt_pressed m) true)
  else if (keycode =? KEY_LEFTALT) || (keycode =? KEY_RIGHTALT)
  then ([], mk (ctrl_pressed m) true (shift_pressed m))
  else
    (if keycode =? KEY_UP then [27; 91; 65]
     else if keycode =? KEY_DOWN then [27; 91; 66]
     else if keycode =? KEY_RIGHT then [27; 91; 67]
     else if keycode =? KEY_LEFT then [27; 91; 68]
     else if keycode =? KEY_HOME then [27; 91; 72]
     else if keycode =? KEY_END then [27; 91; 70]
     else if keycode =? KEY_PAGEUP then [27; 91; 53; 126]
     else if keycode =? KEY_PAGEDOWN then [27; 91; 54; 126]
     else if keycode =? KEY_INSERT then [27; 91; 50; 126]
     else if keycode =? KEY_DELETE then [27; 91; 51; 126]
     else if keycode =? KEY_ENTER then [13]
     else if keycode =? KEY_TAB then [9]
     else if keycode =? KEY_BACKSPACE then [127]
     else if keycode =? KEY_ESC then [27]
     else if keycode =? KEY_SPACE then [32]
     else if ctrl_pressed m && (keycode =? KEY_C) then [3]
     else if ctrl_pressed m && (keycode =? KEY_D) then [4]
     else if ctrl_pressed m && (keycode =? KEY_Z) then [26]
     else if ctrl_pressed m && (keycode =? KEY_L) then [12]
     else if ctrl_pressed m && (keycode =? KEY_A) then [1]
     else if ctrl_pressed m && (keycode =? KEY_E) then [5]
     else if ctrl_pressed m && (keycode =? KEY_K) then [11]
     else if ctrl_pressed m && (keycode =? KEY_U) then [21]
     else if ctrl_pressed m && (keycode =? KEY_W) then [23]
     else if ctrl_pressed m && (keycode =? KEY_R) then [18]
     else if (keycode >=? KEY_A) && (keycode <=? KEY_Z) then
       one_char m (65 + (keycode - KEY_A)) (97 + (keycode - KEY_A))
     else if (keycode >=? KEY_1) && (keycode <=? KEY_9) then
       one_char m (list_get shifted_digits (keycode - KEY_1)) (49 + (keycode - KEY_1))
     else if keycode =? KEY_0 then one_char m 41 48
     else if keycode =? KEY_MINUS then one_char m 95 45
     else if keycode =? KEY_EQUAL then one_char m 43 61
     else if keycode =? KEY_LEFTBRACE then one_char m 123 91
     else if keycode =? KEY_RIGHTBRACE then one_char m 125 93
     else if keycode =? KEY_SEMICOLON then one_char m 58 59
     else if keycode =? KEY_APOSTROPHE then one_char m 34 39
     else if keycode =? KEY_GRAVE then one_char m 126 96
     else if keycode =? KEY_BACKSLASH then one_char m 124 92
     else if keycode =? KEY_COMMA then one_char m 60 44
     else if keycode =? KEY_DOT then one_char m 62 46
     else if keycode =? KEY_SLASH then one_char m 63 47
     else [],
     m).

(** The 26 letter keys, in alphabetical order, with the C0 control byte
    that Ctrl and that letter stand for. *)
Definition letter_keys : list (Z * Z) :=
  [(KEY_A, 1); (KEY_B, 2); (KEY_C, 3); (KEY_D, 4); (KEY_E, 5); (KEY_F, 6);
   (KEY_G, 7); (KEY_H, 8); (KEY_I, 9); (KEY_J, 10); (KEY_K, 11); (KEY_L, 12);
   (KEY_M, 13); (KEY_N, 14); (KEY_O, 15); (KEY_P, 16); (KEY_Q, 17); (KEY_R, 18);
   (KEY_S, 19); (KEY_T, 20); (KEY_U, 21); (KEY_V, 22); (KEY_W, 23); (KEY_X, 24);
   (KEY_Y, 25); (KEY_Z, 26)].

(** The letters that [kb_get_sequence] lists under [if (ctrl_pressed)]. *)
Definition ctrl_handled : list (Z * Z) :=
  [(KEY_C, 3); (KEY_D, 4); (KEY_Z, 26); (KEY_L, 12); (KEY_A, 1); (KEY_E, 5);
   (KEY_K, 11); (KEY_U, 21); (KEY_W, 23); (KEY_R, 18)].
End kb.

(** ** Legacy byte input: [kb_process_input] of fb_map.c

    The function reads and writes the file-scope variables of fb_map.c,
    held in [kbin.state]; its results are the returned action, the value
    stored in [*modifiers], and the first [*output_len] bytes of [output]. *)

Module kbin.
Import kb.

Record state : Type := mk {
  mods : modifiers;
  escape_state : Z;
  escape_buf : list Z;
  escape_buf_len : Z;
  last_char : Z
}.

(** The variables as the program starts and after [kb_init]: statics are
    zero, and [kb_init] clears the modifiers and the escape state. *)
Definition init : state := mk kb_init 0 (repeat 0 16) 0 0.

Record result : Type := mkres {
  action : KeyAction;
  modifiers_out : Z;
  output : list Z;
  next : state
}.

Definition MOD_CTRL : Z := 1.
Definition MOD_ALT : Z := 2.
Definition MOD_SHIFT : Z := 4.

(** [*modifiers], built from the flags found on entry. *)
Definition modifier_bits (m : modifiers) : Z :=
  Z.lor (Z.lor (if ctrl_pressed m then MOD_CTRL else 0)
               (if alt_pressed m then MOD_ALT else 0))
        (if shift_pressed m then MOD_SHIFT else 0).

(** An [unsigned char] stored into a [char]. *)
Definition to_char (ch : Z) : Z := if ch <? 128 then ch else ch - 256.

Definition set_ctrl (b : bool) (m : modifiers) : modifiers :=
  kb.mk b (alt_pressed m) (shift_pressed m).

(** [switch (ch)] of the control-byte block: the action and whether the
    byte is copied to [output]. *)
Definition control_action (ch : Z) : KeyAction * bool :=
  if ch =? 0x0C then (ACTION_CLEAR_SCREEN, true)
  else if ch =? 0x11 then (ACTION_QUIT, false)
  else if ch =? 0x19 then (ACTION_PASTE, true)
  else if ch =? 0x1F then (ACTION_DECREASE_FONT, false)
  else (ACTION_NONE, true).

(** [switch (code)] of the '~' block, with [ctrl_pressed] as found. *)
Definition tilde_key (code : Z) (ctrl : bool) : KeyAction * list Z :=
  if code =? 1 then (ACTION_NONE, [27; 91; 72])
  else if code =? 2 then (ACTION_NONE, [27; 91; 50; 126])
  else if code =? 3 then (ACTION_NONE, [27; 91; 51; 126])
  else if code =? 4 then (ACTION_NONE, [27; 91; 70])
  else if code =? 5 then
    if ctrl then (ACTION_SCROLL_UP, []) else (ACTION_NONE, [27; 91; 53; 126])
  else if code =? 6 then
    if ctrl then (ACTION_SCROLL_DOWN, []) else (ACTION_NONE, [27; 91; 54; 126])
  else (ACTION_NONE, []).

Definition kb_process_input (ch : Z) (s : state) : result :=
  let mbits := modifier_bits (mods s) in
  if escape_state s >? 0 then
    let buf := list_set (escape_buf s) (escape_buf_len s) (to_char ch) in
    let len := wrap_int (escape_buf_len s + 1) in
    if (escape_state s =? 2) && (ch >=? 65) && (ch <=? 68) then
      mkres ACTION_NONE mbits [27; 91; ch] (mk (mods s) 0 buf 0 (last_char s))
    else if (escape_state s =? 2) && (ch =? 126) then
      let code :=
        if len >=? 2 then
          let c1 := list_get buf 1 - 48 in
          if len =? 3 then wrap_int (c1 * 10 + (list_get buf 2 - 48)) else c1
        else 0 in
      let r := tilde_key code (ctrl_pressed (mods s)) in
      mkres (fst r) mbits (snd r) (mk (mods s) 0 buf 0 (last_char s))
    else if len <? 15 then
      mkres ACTION_NONE mbits [] (mk (mods s) (escape_state s) buf len (last_char s))
    else
      mkres ACTION_NONE mbits [] (mk (mods s) 0 buf 0 (last_char s))
  else if ch =? 0x1B then
    mkres ACTION_NONE mbits []
      (mk (mods s) 1 (list_set (escape_buf s) 0 (to_char ch)) 1 (last_char s))
  else if (escape_state s =? 1) && (ch =? 91) then
    mkres ACTION_NONE mbits []
      (mk (mods s) 2 (escape_buf s) (escape_buf_len s) (last_char s))
  else if ch <? 32 then
    let r := control_action ch in
    mkres (fst r) mbits (if snd r then [ch] else [])
      (mk (set_ctrl true (mods s)) (escape_state s) (escape_buf s)
          (escape_buf_len s) ch)
  else if (ch =? 61) && (last_char s <? 32) && negb (last_char s =? 0) then
    mkres ACTION_INCREASE_FONT mbits []
      (mk (mods s) (escape_state s) (escape_buf s) (escape_buf_len s) 0)
  else if (ch =? 45) && (last_char s <? 32) && negb (last_char s =? 0) then
    mkres ACTION_DECREASE_FONT mbits []
      (mk (mods s) (escape_state s) (escape_buf s) (escape_buf_len s) 0)
  else
    mkres ACTION_NONE mbits [ch]
      (mk (if ctrl_pressed (mods s) && (ch >=? 32)
           then set_ctrl false (mods s) else mods s)
          (escape_state s) (escape_buf s) (escape_buf_len s) ch).

(** Bytes handed to [kb_process_input] one after the other: the actions
    and outputs in order, and the variables at the end. *)
Fixpoint run (bytes : list Z) (s : state) : list (KeyAction * list Z) * state :=
  match bytes with
  | [] => ([], s)
  | ch :: rest =>
      let r := kb_process_input ch s in
      let rr := run rest (next r) in
      ((action r, output r) :: fst rr, snd rr)
  end.

(** The escape buffer is indexed inside its 16 bytes and the escape state
    is 0 or 1. *)
Definition escape_ok (s : state) : Prop :=
  (escape_state s = 0 /\ escape_buf_len s = 0 \/
   escape_state s = 1 /\ 1 <= escape_buf_len s <= 14) /\
  length (escape_buf s) = 16%nat.

End kbin.

(** The six key codes that [kb_get_sequence] and [kb_handle_release] treat
    as modifiers. *)
Definition modifier_keys : list Z :=
  [input_event_codes.KEY_LEFTCTRL; input_event_codes.KEY_RIGHTCTRL;
   input_event_codes.KEY_LEFTSHIFT; input_event_codes.KEY_RIGHTSHIFT;
   input_event_codes.KEY_LEFTALT; input_event_codes.KEY_RIGHTALT].

(** ** Framebuffer surface: [fb_put_pixel], [fb_clear], [fb_draw_bitmap]

    The mapping [fb->mem] is a map from byte offsets to bytes.  Storing a
    [uint32_t] at an offset writes the four bytes from that offset on; the
    model lays them out least significant first, as the little-endian
    machines the program runs on do.  A [size_t] has 64 bits. *)

Module fb.

Record framebuffer : Type := mk {
  mem : Z -> Z;
  mem_size : Z;
  width : Z;
  height : Z;
  bpp : Z;
  line_length : Z
}.

Definition to_size_t (z : Z) : Z := z mod 2 ^ 64.

(** The store [*pixel = v] through a [uint32_t] pointer to [mem + off]. *)
Definition store32 (m : Z -> Z) (off v : Z) : Z -> Z :=
  fun i => if (off <=? i) && (i <? off + 4)
           then Z.land (Z.shiftr v (8 * (i - off))) 0xFF
           else m i.

(** Reading the four bytes back as a [uint32_t]. *)
Definition load32 (m : Z -> Z) (off : Z) : Z :=
  Z.lor (Z.lor (Z.lor (m off) (Z.shiftl (m (off + 1)) 8))
               (Z.shiftl (m (off + 2)) 16))
        (Z.shiftl (m (off + 3)) 24).

Definition set_mem (m : Z -> Z) (f : framebuffer) : framebuffer :=
  mk m (mem_size f) (width f) (height f) (bpp f) (line_length f).

(** [y * fb->line_length + x * (fb->bpp / 8)], computed on ints and
    converted to [size_t]. *)
Definition pixel_offset (x y : Z) (f : framebuffer) : Z :=
  to_size_t (wrap_int (wrap_int (y * line_length f)
                       + wrap_int (x * Z.quot (bpp f) 8))).

Definition fb_put_pixel (x y color : Z) (f : framebuffer) : framebuffer :=
  if (x <? 0) || (x >=? width f) || (y <? 0) || (y >=? height f) then f
  else
    let offset := pixel_offset x y f in
    if to_size_t (offset + to_size_t (Z.quot (bpp f) 8)) >? mem_size f then f
    else set_mem (store32 (mem f) offset color) f.

Definition fb_clear (color : Z) (f : framebuffer) : framebuffer :=
  for_up 0 (height f)
    (fun y => for_up 0 (width f) (fun x => fb_put_pixel x y color)) f.

(** One colour channel of the blend:
    [(fg * alpha + bg * (255 - alpha)) / 255] stored in a [uint8_t]. *)
Definition blend_channel (fg bg alpha : Z) : Z :=
  ((fg * alpha + bg * (255 - alpha)) / 255) mod 256.

Definition channel (color shift : Z) : Z := Z.land (Z.shiftr color shift) 0xFF.

Definition blend (fg_color bg_color alpha : Z) : Z :=
  let r := blend_channel (channel fg_color 16) (channel bg_color 16) alpha in
  let g := blend_channel (channel fg_color 8) (channel bg_color 8) alpha in
  let b := blend_channel (channel fg_color 0) (channel bg_color 0) alpha in
  Z.lor (Z.lor (Z.shiftl r 16) (Z.shiftl g 8)) b.

(** The body of the two loops of [fb_draw_bitmap] for one coverage byte. *)
Definition draw_coverage (x y alpha fg_color bg_color : Z) (f : framebuffer)
  : framebuffer :=
  if alpha =? 0 then f
  else if alpha =? 255 then fb_put_pixel x y fg_color f
  else fb_put_pixel x y (blend fg_color bg_color alpha) f.

Definition fb_draw_bitmap (x y : Z) (bitmap : Z -> Z) (w h fg_color bg_color : Z)
           (f : framebuffer) : framebuffer :=
  for_up 0 h
    (fun j => for_up 0 w
       (fun i => draw_coverage (wrap_int (x + i)) (wrap_int (y + j))
                   (bitmap (wrap_int (wrap_int (j * w) + i))) fg_color bg_color)) f.

(** Every byte that differs between the two mappings lies inside the
    mapping. *)
Definition writes_inside (f f' : framebuffer) : Prop :=
  mem_size f' = mem_size f /\ width f' = width f /\ height f' = height f /\
  bpp f' = bpp f /\ line_length f' = line_length f /\
  forall i, mem f' i <> mem f i -> 0 <= i < mem_size f.

(** A 32-bpp surface whose pixel offsets fit in an [int]. *)
Definition surface_ok (f : framebuffer) : Prop :=
  bpp f = 32 /\ 0 <= line_length f /\ 0 <= width f /\ 0 <= height f /\
  height f * line_length f + width f * 4 < 2 ^ 31 /\
  0 <= mem_size f < 2 ^ 64.

End fb.

(** ** Grid size chosen by [main]

    [TERM_COLS = (fb.width - 4) / char_width], likewise the rows, then the
    four clamps.  [fb.width], [fb.height], [char_width] and [char_height]
    are [int]s: the subtraction and the division are [int] operations, and
    C's integer division truncates toward zero. *)

Definition clamp_dim (v lo hi : Z) : Z :=
  let v1 := if v <? lo then lo else v in
  if v1 >? hi then hi else v1.

Definition main_term_cols (fb_width char_width : Z) : Z :=
  clamp_dim (wrap_int (Z.quot (wrap_int (fb_width - 4)) char_width)) 40 MAX_TERM_COLS.

Definition main_term_rows (fb_height char_height : Z) : Z :=
  clamp_dim (wrap_int (Z.quot (wrap_int (fb_height - 4)) char_height)) 10 MAX_TERM_ROWS.

(** ** Terminal operations

    [TERM_COLS] and [TERM_ROWS] are the two file-scope variables of
    fb_term.c, fixed before [term_init] runs. *)

Section Terminal.

Variable TERM_COLS : Z.
Variable TERM_ROWS : Z.

Definition cell_index (y x : Z) : Z := y * MAX_TERM_COLS + x.

Definition cell_at (t : terminal) (y x : Z) : cell.t := cells t (cell_index y x).

(** [term->cells[y][x] = c] *)
Definition store_cell (y x : Z) (c : cell.t) (t : terminal) : terminal :=
  set_cells (fun i => if i =? cell_index y x then c else cells t i) t.

(** The three assignments [codepoint = ' '], [fg_color = term->fg_color],
    [bg_color = term->bg_color] on [term->cells[y][x]]; [bold] is not
    assigned. *)
Definition blank_cell (y x : Z) (t : terminal) : terminal :=
  store_cell y x
    (cell.mk 32 (fg_color t) (bg_color t) (cell.bold (cell_at t y x))) t.

(** [for (x = lo; x < hi; x++)] blank [cells[y][x]] *)
Definition blank_span (y lo hi : Z) (t : terminal) : terminal :=
  for_up lo hi (blank_cell y) t.

(** [for (y = lo; y < hi; y++) for (x = 0; x < TERM_COLS; x++)] blank *)
Definition blank_rows (lo hi : Z) (t : terminal) : terminal :=
  for_up lo hi (fun y => blank_span y 0 TERM_COLS) t.

(** [memcpy(term->cells[dst], term->cells[src], sizeof(struct cell) * TERM_COLS)] *)
Definition copy_row (dst src : Z) (t : terminal) : terminal :=
  set_cells
    (fun i =>
       if (cell_index dst 0 <=? i) && (i <? cell_index dst 0 + TERM_COLS)
       then cells t (i - cell_index dst 0 + cell_index src 0)
       else cells t i) t.

(** [cells[y][dst] = cells[y][src]] *)
Definition copy_cell (y dst src : Z) (t : terminal) : terminal :=
  store_cell y dst (cell_at t y src) t.

Definition term_init : terminal :=
  let t0 :=
    mkterm (fun _ => cell.zero) 0 0 1 0x00FFFFFF 0x00000000 0 0 (TERM_ROWS - 1) (-1)
      STATE_NORMAL (repeat 0 16) 0 0 0 (repeat 0 4) 0 [] in
  blank_rows 0 TERM_ROWS t0.

Definition term_scroll_up (t : terminal) : terminal :=
  let t1 := for_up (scroll_top t) (scroll_bottom t)
              (fun y => copy_row y (y + 1)) t in
  blank_span (scroll_bottom t1) 0 TERM_COLS t1.

Definition term_scroll_down (t : terminal) : terminal :=
  let t1 := for_down (scroll_bottom t) (scroll_top t)
              (fun y => copy_row y (y - 1)) t in
  blank_span (scroll_top t1) 0 TERM_COLS t1.

Definition term_newline (t : terminal) : terminal :=
  let t1 := set_cursor_y (wrap_int (cursor_y t + 1)) t in
  if cursor_y t1 >? scroll_bottom t1
  then term_scroll_up (set_cursor_y (scroll_bottom t1) t1)
  else t1.

Definition term_carriage_return (t : terminal) : terminal :=
  set_cursor_x 0 t.

Definition term_putchar (cp : Z) (t : terminal) : terminal :=
  let t1 := if cursor_x t >=? TERM_COLS
            then term_newline (term_carriage_return t) else t in
  let t2 := if cursor_y t1 >=? TERM_ROWS
            then set_cursor_y (TERM_ROWS - 1) t1 else t1 in
  let t3 := store_cell (cursor_y t2) (cursor_x t2)
              (cell.mk cp (fg_color t2) (bg_color t2) (bold t2)) t2 in
  set_cursor_x (wrap_int (cursor_x t3 + 1)) t3.

(** ** CSI dispatch: [term_handle_csi] *)

(** [(n > 0 && p[0] > 0) ? p[0] : 1] *)
Definition csi_count (t : terminal) : Z :=
  if (num_escape_params t >? 0) && (list_get (escape_params t) 0 >? 0)
  then list_get (escape_params t) 0 else 1.

(** [(n > i && p[i] > 0) ? p[i] - 1 : dflt]; the subtraction is guarded by
    [p[i] > 0] and cannot overflow. *)
Definition csi_pos (i dflt : Z) (t : terminal) : Z :=
  if (num_escape_params t >? i) && (list_get (escape_params t) i >? 0)
  then list_get (escape_params t) i - 1 else dflt.

Definition sgr_reset (t : terminal) : terminal :=
  set_bold 0 (set_bg_color 0x00000000 (set_fg_color 0x00FFFFFF t)).

Definition sgr_param (v : Z) (t : terminal) : terminal :=
  if v =? 0 then sgr_reset t
  else if v =? 1 then set_bold 1 t
  else if v =? 22 then set_bold 0 t
  else if (v >=? 30) && (v <=? 37) then set_fg_color (color_palette (v - 30)) t
  else if v =? 39 then set_fg_color 0x00FFFFFF t
  else if (v >=? 40) && (v <=? 47) then set_bg_color (color_palette (v - 40)) t
  else if v =? 49 then set_bg_color 0x00000000 t
  else if (v >=? 90) && (v <=? 97) then set_fg_color (color_palette (v - 90 + 8)) t
  else if (v >=? 100) && (v <=? 107) then set_bg_color (color_palette (v - 100 + 8)) t
  else t.

Definition csi_sgr (t : terminal) : terminal :=
  let n := num_escape_params t in
  let t1 := if n =? 0 then sgr_reset t else t in
  for_up 0 n (fun i t' => sgr_param (list_get (escape_params t') i) t') t1.

Definition csi_set_mode (t : terminal) : terminal :=
  if private_mode t =? 0 then t
  else for_up 0 (num_escape_params t)
         (fun i t' => if list_get (escape_params t') i =? 25
                      then set_cursor_visible 1 t' else t') t.

Definition csi_reset_mode (t : terminal) : terminal :=
  if private_mode t =? 0 then t
  else for_up 0 (num_escape_params t)
         (fun i t' => if list_get (escape_params t') i =? 25
                      then set_cursor_visible 0 t' else t') t.

Definition csi_cursor_position (t : terminal) : terminal :=
  let t1 := set_cursor_y (csi_pos 0 0 t) t in
  let t2 := set_cursor_x (csi_pos 1 0 t1) t1 in
  let t3 := if cursor_y t2 >=? TERM_ROWS then set_cursor_y (TERM_ROWS - 1) t2 else t2 in
  if cursor_x t3 >=? TERM_COLS then set_cursor_x (TERM_COLS - 1) t3 else t3.

Definition csi_cursor_up (t : terminal) : terminal :=
  let t1 := set_cursor_y (wrap_int (cursor_y t - csi_count t)) t in
  if cursor_y t1 <? 0 then set_cursor_y 0 t1 else t1.

Definition csi_cursor_down (t : terminal) : terminal :=
  let t1 := set_cursor_y (wrap_int (cursor_y t + csi_count t)) t in
  if cursor_y t1 >=? TERM_ROWS then set_cursor_y (TERM_ROWS - 1) t1 else t1.

Definition csi_cursor_forward (t : terminal) : terminal :=
  let t1 := set_cursor_x (wrap_int (cursor_x t + csi_count t)) t in
  if cursor_x t1 >=? TERM_COLS then set_cursor_x (TERM_COLS - 1) t1 else t1.

Definition csi_cursor_backward (t : terminal) : terminal :=
  let t1 := set_cursor_x (wrap_int (cursor_x t - csi_count t)) t in
  if cursor_x t1 <? 0 then set_cursor_x 0 t1 else t1.

Definition csi_erase_display (t : terminal) : terminal :=
  let p0 := list_get (escape_params t) 0 in
  if (num_escape_params t =? 0) || (p0 =? 0) then
    blank_rows (wrap_int (cursor_y t + 1)) TERM_ROWS
      (blank_span (cursor_y t) (cursor_x t) TERM_COLS t)
  else if p0 =? 1 then
    blank_span (cursor_y t) 0 (cursor_x t + 1) (blank_rows 0 (cursor_y t) t)
  else if (p0 =? 2) || (p0 =? 3) then
    blank_rows 0 TERM_ROWS t
  else t.

Definition csi_erase_line (t : terminal) : terminal :=
  let p0 := list_get (escape_params t) 0 in
  if (num_escape_params t =? 0) || (p0 =? 0) then
    blank_span (cursor_y t) (cursor_x t) TERM_COLS t
  else if p0 =? 1 then
    blank_span (cursor_y t) 0 (cursor_x t + 1) t
  else if p0 =? 2 then
    blank_span (cursor_y t) 0 TERM_COLS t
  else t.

Definition csi_set_scroll_region (t : terminal) : terminal :=
  let t1 := set_scroll_top (csi_pos 0 0 t) t in
  let t2 := set_scroll_bottom (csi_pos 1 (TERM_ROWS - 1) t1) t1 in
  let t3 := if scroll_top t2 >=? TERM_ROWS then set_scroll_top 0 t2 else t2 in
  if scroll_bottom t3 >=? TERM_ROWS then set_scroll_bottom (TERM_ROWS - 1) t3 else t3.

Definition csi_line_absolute (t : terminal) : terminal :=
  let t1 := set_cursor_y (csi_pos 0 0 t) t in
  if cursor_y t1 >=? TERM_ROWS then set_cursor_y (TERM_ROWS - 1) t1 else t1.

Definition csi_column_absolute (t : terminal) : terminal :=
  let t1 := set_cursor_x (csi_pos 0 0 t) t in
  if cursor_x t1 >=? TERM_COLS then set_cursor_x (TERM_COLS - 1) t1 else t1.

Definition csi_scroll_up (t : terminal) : terminal :=
  for_up 0 (csi_count t) (fun _ => term_scroll_up) t.

Definition csi_scroll_down (t : terminal) : terminal :=
  for_up 0 (csi_count t) (fun _ => term_scroll_down) t.

Definition csi_insert_line (t : terminal) : terminal :=
  for_up 0 (csi_count t)
    (fun _ t' =>
       blank_span (cursor_y t') 0 TERM_COLS
         (for_down (scroll_bottom t') (cursor_y t')
            (fun y => copy_row y (y - 1)) t')) t.

Definition csi_delete_line (t : terminal) : terminal :=
  for_up 0 (csi_count t)
    (fun _ t' =>
       blank_span (scroll_bottom t') 0 TERM_COLS
         (for_up (cursor_y t') (scroll_bottom t')
            (fun y => copy_row y (y + 1)) t')) t.

(** [for (i = 0; i < count && term->cursor_x + i < TERM_COLS; i++)] *)
Definition csi_erase_chars (t : terminal) : terminal :=
  let count := csi_count t in
  for_up 0 (Z.min count (TERM_COLS - cursor_x t))
    (fun i t' => blank_cell (cursor_y t') (cursor_x t' + i) t') t.

Definition csi_delete_chars (t : terminal) : terminal :=
  let count := csi_count t in
  let t1 := for_up (cursor_x t) (TERM_COLS - count)
              (fun x t' => copy_cell (cursor_y t') x (wrap_int (x + count)) t') t in
  for_up (TERM_COLS - count) TERM_COLS
    (fun x t' => blank_cell (cursor_y t') x t') t1.

Definition csi_insert_chars (t : terminal) : terminal :=
  let count := csi_count t in
  let t1 := for_down_ge (TERM_COLS - 1) (wrap_int (cursor_x t + count))
              (fun x t' => copy_cell (cursor_y t') x (wrap_int (x - count)) t') t in
  for_up (cursor_x t1) (Z.min (wrap_int (cursor_x t1 + count)) TERM_COLS)
    (fun x t' => blank_cell (cursor_y t') x t') t1.

Definition csi_device_status (t : terminal) : terminal :=
  let n := num_escape_params t in
  let p0 := list_get (escape_params t) 0 in
  if (n >? 0) && (p0 =? 6) then
    pty_write ([27; 91] ++ fmt_d (wrap_int (cursor_y t + 1)) ++ [59]
                 ++ fmt_d (wrap_int (cursor_x t + 1)) ++ [82]) t
  else if (n >? 0) && (p0 =? 5) then
    pty_write [27; 91; 48; 110] t
  else t.

Definition csi_device_attrs (t : terminal) : terminal :=
  pty_write [27; 91; 63; 49; 59; 50; 99] t.

Definition term_handle_csi (final : Z) (t : terminal) : terminal :=
  if (final =? 72) || (final =? 102) then csi_cursor_position t    (* 'H' 'f' *)
  else if final =? 65 then csi_cursor_up t                         (* 'A' *)
  else if final =? 66 then csi_cursor_down t                       (* 'B' *)
  else if final =? 67 then csi_cursor_forward t                    (* 'C' *)
  else if final =? 68 then csi_cursor_backward t                   (* 'D' *)
  else if final =? 74 then csi_erase_display t                     (* 'J' *)
  else if final =? 75 then csi_erase_line t                        (* 'K' *)
  else if final =? 109 then csi_sgr t                              (* 'm' *)
  else if final =? 104 then csi_set_mode t                         (* 'h' *)
  else if final =? 108 then csi_reset_mode t                       (* 'l' *)
  else if final =? 114 then csi_set_scroll_region t                (* 'r' *)
  else if final =? 100 then csi_line_absolute t                    (* 'd' *)
  else if final =? 71 then csi_column_absolute t                   (* 'G' *)
  else if final =? 83 then csi_scroll_up t                         (* 'S' *)
  else if final =? 84 then csi_scroll_down t                       (* 'T' *)
  else if final =? 76 then csi_insert_line t                       (* 'L' *)
  else if final =? 77 then csi_delete_line t                       (* 'M' *)
  else if final =? 88 then csi_erase_chars t                       (* 'X' *)
  else if final =? 80 then csi_delete_chars t                      (* 'P' *)
  else if final =? 64 then csi_insert_chars t                      (* '@' *)
  else if final =? 110 then csi_device_status t                    (* 'n' *)
  else if final =? 99 then csi_device_attrs t                      (* 'c' *)
  else t.

(** ** The per-byte state machine: [term_process_char] *)

Definition expected_len (b0 : Z) : Z :=
  if Z.land b0 0x80 =? 0 then 1
  else if Z.land b0 0xE0 =? 0xC0 then 2
  else if Z.land b0 0xF0 =? 0xE0 then 3
  else if Z.land b0 0xF8 =? 0xF0 then 4
  else 1.

Definition normal_printable (ch : Z) (t : terminal) : terminal :=
  let t1 := set_utf8_buf (list_set (utf8_buf t) (utf8_buf_len t) ch) t in
  let t2 := set_utf8_buf_len (wrap_int (utf8_buf_len t1 + 1)) t1 in
  if utf8_buf_len t2 >=? expected_len (list_get (utf8_buf t2) 0) then
    set_utf8_buf_len 0 (term_putchar (fst (utf8_decode (utf8_buf t2))) t2)
  else t2.

Definition process_normal (ch : Z) (t : terminal) : terminal :=
  if ch =? 27 then
    set_utf8_buf_len 0 (set_escape_buf_len 0 (set_state STATE_ESC t))
  else if ch =? 10 then
    set_utf8_buf_len 0 (term_newline t)
  else if ch =? 13 then
    set_utf8_buf_len 0 (term_carriage_return t)
  else if ch =? 8 then
    set_utf8_buf_len 0
      (if cursor_x t >? 0 then set_cursor_x (wrap_int (cursor_x t - 1)) t else t)
  else if ch =? 9 then
    let t1 := set_cursor_x (Z.land (wrap_int (cursor_x t + 8)) (Z.lnot 7)) t in
    set_utf8_buf_len 0
      (if cursor_x t1 >=? TERM_COLS then term_newline (set_cursor_x 0 t1) else t1)
  else if ch >=? 32 then normal_printable ch t
  else t.

Definition process_esc (ch : Z) (t : terminal) : terminal :=
  if ch =? 91 then                                                   (* '[' *)
    set_escape_buf_len 0
      (set_escape_params (repeat 0 16)
         (set_private_mode 0 (set_num_escape_params 0 (set_state STATE_CSI t))))
  else if ch =? 93 then                                              (* ']' *)
    set_escape_buf_len 0 (set_state STATE_OSC t)
  else if ch =? 40 then                                              (* '(' *)
    set_state STATE_NORMAL t
  else
    set_state STATE_NORMAL t.

Definition process_csi (ch : Z) (t : terminal) : terminal :=
  if (ch >=? 48) && (ch <=? 57) then
    let t1 := if num_escape_params t =? 0 then set_num_escape_params 1 t else t in
    let i := num_escape_params t1 - 1 in
    set_escape_params
      (list_set (escape_params t1) i
         (wrap_int (list_get (escape_params t1) i * 10 + (ch - 48)))) t1
  else if ch =? 59 then                                              (* ';' *)
    if num_escape_params t <? MAX_ESCAPE_PARAMS
    then set_num_escape_params (num_escape_params t + 1) t else t
  else if ch =? 63 then                                              (* '?' *)
    set_private_mode 1 t
  else if (ch >=? 64) && (ch <=? 126) then
    set_private_mode 0 (set_state STATE_NORMAL (term_handle_csi ch t))
  else if (ch >=? 32) && (ch <=? 47) then t
  else set_private_mode 0 (set_state STATE_NORMAL t).

Definition process_osc (ch : Z) (t : terminal) : terminal :=
  if (ch =? 7) || (ch =? 27) then set_state STATE_NORMAL t else t.

Definition term_process_char (t : terminal) (ch : Z) : terminal :=
  match state t with
  | STATE_NORMAL => process_normal ch t
  | STATE_ESC => process_esc ch t
  | STATE_CSI => process_csi ch t
  | STATE_OSC => process_osc ch t
  end.

(** The loop of [main] that hands every byte read from the PTY master to
    [term_process_char], in arrival order. *)
Definition term_feed (t : terminal) (bytes : list Z) : terminal :=
  fold_left term_process_char bytes t.

(** ** Predicates used by the statements *)

(** A Unicode scalar value: a code point that is not a surrogate. *)
Definition is_scalar_value (c : Z) : Prop :=
  0 <= c <= 0x10FFFF /\ ~ (0xD800 <= c <= 0xDFFF).

(** What the decoder can produce: any value of at most 21 bits. *)
Definition cp_ok (c : cell.t) : Prop := 0 <= cell.codepoint c <= 0x1FFFFF.

(** Each bound of the scroll region lies in the grid. *)
Definition region_in_grid (t : terminal) : Prop :=
  (0 <= scroll_top t < TERM_ROWS) /\ (0 <= scroll_bottom t < TERM_ROWS).

Definition cells_cp_ok (t : terminal) : Prop := forall i, cp_ok (cells t i).

(** The decoder's buffer holds bytes. *)
Definition utf8_state_ok (t : terminal) : Prop := Forall is_byte (utf8_buf t).

(** The two arrays of the parser have their declared sizes and are
    indexed inside them: [utf8_buf[utf8_buf_len]] with fewer than four
    pending bytes, [escape_params[num_escape_params - 1]] with at most
    sixteen parameters. *)
Definition index_ok (t : terminal) : Prop :=
  (0 <= num_escape_params t <= MAX_ESCAPE_PARAMS) /\
  length (escape_params t) = 16%nat /\
  (0 <= utf8_buf_len t <= 3) /\ length (utf8_buf t) = 4%nat.

Definition term_inv (t : terminal) : Prop :=
  region_in_grid t /\ cells_cp_ok t /\ utf8_state_ok t /\ index_ok t.

(** [t'] is [t] with other cells. *)
Definition same_but_cells (t t' : terminal) : Prop := t' = set_cells (cells t') t.

(** The C arrays of [struct terminal] have their declared sizes. *)
Definition arrays_ok (t : terminal) : Prop :=
  length (utf8_buf t) = 4%nat /\ length (escape_params t) = 16%nat.

(** The cursor is on the grid or at the pending-wrap frontier, and the
    bottom of the scroll region is on the grid. *)
Definition cursor_ok (t : terminal) : Prop :=
  (0 <= cursor_x t <= TERM_COLS) /\ (0 <= cursor_y t < TERM_ROWS) /\
  (0 <= scroll_bottom t < TERM_ROWS).

(** The decoder is idle in Normal state. *)
Definition normal_idle (t : terminal) : Prop :=
  state t = STATE_NORMAL /\ utf8_buf_len t = 0.

(** The decoder's two fields, set together. *)
Definition with_utf8 (buf : list Z) (len : Z) (t : terminal) : terminal :=
  set_utf8_buf_len len (set_utf8_buf buf t).

(** The canonical UTF-8 encoding of a code point (RFC 3629).  The
    repository only decodes; this is the input the round-trip statement
    ranges over. *)
Definition utf8_encode (c : Z) : list Z :=
  if c <? 0x80 then [c]
  else if c <? 0x800 then
    [Z.lor 0xC0 (Z.shiftr c 6); Z.lor 0x80 (Z.land c 0x3F)]
  else if c <? 0x10000 then
    [Z.lor 0xE0 (Z.shiftr c 12);
     Z.lor 0x80 (Z.land (Z.shiftr c 6) 0x3F);
     Z.lor 0x80 (Z.land c 0x3F)]
  else
    [Z.lor 0xF0 (Z.shiftr c 18);
     Z.lor 0x80 (Z.land (Z.shiftr c 12) 0x3F);
     Z.lor 0x80 (Z.land (Z.shiftr c 6) 0x3F);
     Z.lor 0x80 (Z.land c 0x3F)].

(** The state right after ESC [ has been read in Normal state. *)
Definition csi_entered (t : terminal) : terminal :=
  set_escape_buf_len 0
    (set_escape_params (repeat 0 16)
       (set_private_mode 0
          (set_num_escape_params 0
             (set_state STATE_CSI
                (set_utf8_buf_len 0 (set_escape_buf_len 0 (set_state STATE_ESC t))))))).

(** A blank cell in the colours of the current SGR state, as the blanking
    loops leave it. *)
Definition blank_in_sgr (t : terminal) (c : cell.t) : Prop :=
  cell.codepoint c = 32 /\ cell.fg_color c = fg_color t /\
  cell.bg_color c = bg_color t.

(** The scroll region is a non-empty range of rows of the grid. *)
Definition region_ok (t : terminal) : Prop :=
  0 <= scroll_top t /\ scroll_top t <= scroll_bottom t /\ scroll_bottom t < TERM_ROWS.

(** The colours and the scroll region of [t'] are those of [t]. *)
Definition same_sgr_region (t t' : terminal) : Prop :=
  fg_color t' = fg_color t /\ bg_color t' = bg_color t /\
  scroll_top t' = scroll_top t /\ scroll_bottom t' = scroll_bottom t.

Definition cell_eqb (a b : cell.t) : bool :=
  (cell.codepoint a =? cell.codepoint b) && (cell.fg_color a =? cell.fg_color b)
  && (cell.bg_color a =? cell.bg_color b) && (cell.bold a =? cell.bold b).

(** ** Further predicates and abbreviations *)

(** SGR state, cursor visibility, scroll region and PTY output of [t'] are
    those of [t]. *)
Definition same_settings (t t' : terminal) : Prop :=
  fg_color t' = fg_color t /\ bg_color t' = bg_color t /\ bold t' = bold t /\
  cursor_visible t' = cursor_visible t /\
  scroll_top t' = scroll_top t /\ scroll_bottom t' = scroll_bottom t /\
  master_fd t' = master_fd t /\ pty_out t' = pty_out t.

(** Nothing a user can see differs: cells, cursor and settings. *)
Definition display_same (t t' : terminal) : Prop :=
  cells t' = cells t /\ cursor_x t' = cursor_x t /\ cursor_y t' = cursor_y t /\
  same_settings t t'.

(** The CSI final bytes that change settings or write to the PTY:
    m, h, l, r, n, c. *)
Definition settings_finals : list Z := [109; 104; 108; 114; 110; 99].

(** The CSI final bytes [term_handle_csi] has a case for. *)
Definition handled_finals : list Z :=
  [72; 102; 65; 66; 67; 68; 74; 75; 109; 104; 108; 114; 100; 71; 83; 84; 76; 77;
   88; 80; 64; 110; 99].

(** What the blanking loops make of a cell. *)
Definition blanked (t : terminal) (c : cell.t) : cell.t :=
  cell.mk 32 (fg_color t) (bg_color t) (cell.bold c).

(** The state CSI dispatch sees after ESC [ and one or two decimal
    parameters. *)
Definition csi_param1 (v : Z) (t : terminal) : terminal :=
  set_escape_params (v :: repeat 0 15) (set_num_escape_params 1 (csi_entered t)).

Definition csi_param2 (v w : Z) (t : terminal) : terminal :=
  set_escape_params (v :: w :: repeat 0 14)
    (set_num_escape_params 2 (csi_param1 v t)).

(** The parser is back in Normal state after a final byte. *)
Definition csi_done (t : terminal) : terminal :=
  set_private_mode 0 (set_state STATE_NORMAL t).

(** A parameter byte of a control sequence: digit, ';', '?' or an
    intermediate 0x20..0x2F. *)
Definition is_param_byte (ch : Z) : Prop :=
  48 <= ch <= 57 \/ ch = 59 \/ ch = 63 \/ 32 <= ch <= 47.

Definition in_grid (y x : Z) : Prop :=
  (0 <= y < TERM_ROWS) /\ (0 <= x < TERM_COLS).

(** The SGR state holds 24-bit RGB colours and a bold flag. *)
Definition sgr_ok (t : terminal) : Prop :=
  (bold t = 0 \/ bold t = 1) /\
  (0 <= fg_color t < 2 ^ 24) /\ (0 <= bg_color t < 2 ^ 24).

(** ESC [ n final, with [n] in decimal. *)
Definition csi_seq1 (n final : Z) : list Z := [27; 91] ++ fmt_d n ++ [final].

(** ESC [ n ; m final. *)
Definition csi_seq2 (n m final : Z) : list Z :=
  [27; 91] ++ fmt_d n ++ [59] ++ fmt_d m ++ [final].

(** The grid and the cursor of [t'] are those of [t]. *)
Definition grid_kept (t t' : terminal) : Prop :=
  cells t' = cells t /\ cursor_x t' = cursor_x t /\ cursor_y t' = cursor_y t.

(** The columns of the cursor's row that CSI K with parameter [mode]
    blanks, the cursor being at column [cx]. *)
Definition line_erased (mode cx x : Z) : bool :=
  if mode =? 0 then (cx <=? x) && (x <? TERM_COLS)
  else if mode =? 1 then (0 <=? x) && (x <=? cx)
  else if mode =? 2 then (0 <=? x) && (x <? TERM_COLS)
  else false.

(** The cells that CSI J with parameter [mode] blanks, the cursor being at
    row [cy], column [cx]. *)
Definition display_erased (mode cy cx y x : Z) : bool :=
  if mode =? 0 then
    ((y =? cy) && (cx <=? x) && (x <? TERM_COLS))
    || ((cy <? y) && (y <? TERM_ROWS) && (0 <=? x) && (x <? TERM_COLS))
  else if mode =? 1 then
    ((0 <=? y) && (y <? cy) && (0 <=? x) && (x <? TERM_COLS))
    || ((y =? cy) && (0 <=? x) && (x <=? cx))
  else if (mode =? 2) || (mode =? 3) then
    (0 <=? y) && (y <? TERM_ROWS) && (0 <=? x) && (x <? TERM_COLS)
  else false.

(** The mode parameter of CSI J and K as the code reads it: 0 without
    parameters, otherwise the first parameter. *)
Definition csi_mode (t : terminal) : Z :=
  if num_escape_params t =? 0 then 0 else list_get (escape_params t) 0.

(** The state in which an OSC string ends: Normal, decoder idle. *)
Definition osc_done (t : terminal) : terminal :=
  set_state STATE_NORMAL
    (set_escape_buf_len 0
       (set_state STATE_OSC
          (set_utf8_buf_len 0 (set_escape_buf_len 0 (set_state STATE_ESC t))))).

(** ** Accesses inside [cells[MAX_TERM_ROWS][MAX_TERM_COLS]]

    [cells] is the first field of [struct terminal]; the offsets outside
    the array are the storage of the fields that follow it ([cursor_x],
    [cursor_y], ... [utf8_buf_len]) or of what surrounds the struct.  The
    definitions below name the states and the steps in which every cell
    the program reads or writes is a cell of the array and the cursor
    arithmetic stays an [int]. *)

(** The offsets of the array. *)
Definition in_array (i : Z) : bool :=
  (0 <=? i) && (i <? MAX_TERM_ROWS * MAX_TERM_COLS).

(** The cursor is on a row of the grid, and on one of its columns or on
    the pending-wrap column right of the last one. *)
Definition cursor_on_grid (t : terminal) : Prop :=
  (0 <= cursor_y t < TERM_ROWS) /\ (0 <= cursor_x t <= TERM_COLS).

(** What the final byte [final] of a control sequence needs, the cursor
    being on the grid: a cursor movement A, B, C, D whose sum or difference
    is an [int]; an erase from the start, J or K with parameter 1, whose
    last cell [cells[cursor_y][cursor_x]] is in the array; a delete P whose
    first blanked cell [cells[cursor_y][TERM_COLS - count]] is not before
    the array; an insert [@] whose [cursor_x + count] is an [int].  Every
    other final byte is in bounds. *)
Definition csi_in_bounds (t : terminal) (final : Z) : bool :=
  let count := csi_count t in
  if final =? 65 then - 2 ^ 31 <=? cursor_y t - count
  else if final =? 66 then cursor_y t + count <? 2 ^ 31
  else if final =? 67 then cursor_x t + count <? 2 ^ 31
  else if final =? 68 then - 2 ^ 31 <=? cursor_x t - count
  else if (final =? 74) || (final =? 75) then
    if csi_mode t =? 1 then in_array (cell_index (cursor_y t) (cursor_x t))
    else true
  else if final =? 80 then count <=? cell_index (cursor_y t) TERM_COLS
  else if final =? 64 then cursor_x t + count <? 2 ^ 31
  else true.

(** What byte [ch] needs in state [t]: only the bytes of a control
    sequence have a condition. *)
Definition step_in_bounds (t : terminal) (ch : Z) : bool :=
  match state t with
  | STATE_CSI => csi_in_bounds t ch
  | _ => true
  end.

(** Every byte of the stream is in bounds in the state it arrives in. *)
Fixpoint run_in_bounds (t : terminal) (bytes : list Z) : bool :=
  match bytes with
  | [] => true
  | ch :: rest => step_in_bounds t ch && run_in_bounds (term_process_char t ch) rest
  end.

(** No offset outside the array holds another cell in [t'] than in [t]. *)
Definition outside_kept (t t' : terminal) : Prop :=
  forall i, in_array i = false -> cells t' i = cells t i.

(** [t'] is [t] with other cells of the array. *)
Definition array_only (t t' : terminal) : Prop :=
  same_but_cells t t' /\ outside_kept t t'.

(** No offset outside the array has been written since the struct was
    zeroed. *)
Definition outside_untouched (t : terminal) : Prop :=
  forall i, in_array i = false -> cells t i = cell.zero.

(** [t'] has its cursor on the grid and the storage outside the array as
    [t] has it. *)
Definition stays_in_bounds (t t' : terminal) : Prop :=
  cursor_on_grid t' /\ outside_kept t t'.

(** * Properties *)

(** ** Integers, loops and lists *)

Lemma wrap_int_small (z : Z) : - 2 ^ 31 <= z < 2 ^ 31 -> wrap_int z = z.
Proof.
  intros H. unfold wrap_int. rewrite Z.mod_small; lia.
Qed.

Lemma wrap_int_range (z : Z) : - 2 ^ 31 <= wrap_int z < 2 ^ 31.
Proof.
  unfold wrap_int.
  pose proof (Z.mod_pos_bound (z + 2 ^ 31) (2 ^ 32) ltac:(lia)). lia.
Qed.

Lemma for_count_preserves {A : Type} (P : A -> Prop) (body : Z -> A -> A) (step : Z) :
  (forall i s, P s -> P (body i s)) ->
  forall n i s, P s -> P (for_count n i step body s).
Proof.
  intros Hbody n. induction n as [|n IH]; intros i s Hs; simpl.
  - exact Hs.
  - apply IH. apply Hbody. exact Hs.
Qed.

(** A loop invariant indexed by the loop variable. *)
Lemma for_count_invariant {A : Type} (Q : Z -> A -> Prop) (body : Z -> A -> A)
      (step : Z) (n : nat) :
  forall i s,
    Q i s ->
    (forall k s', (k < n)%nat -> Q (i + Z.of_nat k * step) s' ->
                  Q (i + Z.of_nat (S k) * step) (body (i + Z.of_nat k * step) s')) ->
    Q (i + Z.of_nat n * step) (for_count n i step body s).
Proof.
  induction n as [|n IH]; intros i s Hs Hbody.
  - replace (i + Z.of_nat 0 * step) with i by (cbn; lia). exact Hs.
  - cbn [for_count].
    replace (i + Z.of_nat (S n) * step) with ((i + step) + Z.of_nat n * step) by lia.
    apply IH.
    + specialize (Hbody O s ltac:(lia)).
      replace (i + Z.of_nat 0 * step) with i in Hbody by lia.
      replace (i + Z.of_nat 1 * step) with (i + step) in Hbody by lia.
      apply Hbody. exact Hs.
    + intros k s' Hk Hq.
      specialize (Hbody (S k) s' ltac:(lia)).
      replace (i + Z.of_nat (S k) * step) with (i + step + Z.of_nat k * step) in Hbody by lia.
      replace (i + Z.of_nat (S (S k)) * step)
        with (i + step + Z.of_nat (S k) * step) in Hbody by lia.
      apply Hbody. exact Hq.
Qed.

(** A [for_up] loop runs its body at the indices [up_indices] lists, in
    that order. *)
Lemma for_count_as_fold {A : Type} (body : Z -> A -> A) (n : nat) :
  forall i s,
    for_count n i 1 body s =
    fold_left (fun s' x => body x s') (map (fun k => i + Z.of_nat k) (seq 0 n)) s.
Proof.
  induction n as [|n IH]; intros i s; [reflexivity|].
  cbn [for_count seq map fold_left]. rewrite IH.
  replace (i + Z.of_nat 0) with i by lia.
  rewrite <- seq_shift, map_map. f_equal.
  apply map_ext. intros k. lia.
Qed.

Lemma for_up_as_fold {A : Type} (body : Z -> A -> A) (lo hi : Z) (s : A) :
  for_up lo hi body s = fold_left (fun s' x => body x s') (up_indices lo hi) s.
Proof. apply for_count_as_fold. Qed.

Lemma set_nth_length (n : nat) (v : Z) (l : list Z) :
  length (set_nth n v l) = length l.
Proof.
  revert n. induction l as [|x r IH]; intros [|n]; simpl; auto.
Qed.

Lemma set_nth_Forall (P : Z -> Prop) (n : nat) (v : Z) (l : list Z) :
  P v -> Forall P l -> Forall P (set_nth n v l).
Proof.
  intros Hv. revert n. induction l as [|x r IH]; intros [|n] Hl; simpl; auto;
    inversion Hl; subst; constructor; auto.
Qed.

Lemma nth_set_nth_same (n : nat) (v d : Z) (l : list Z) :
  (n < length l)%nat -> nth n (set_nth n v l) d = v.
Proof.
  revert n. induction l as [|x r IH]; intros [|n] H; simpl in *; try lia; auto.
  apply IH. lia.
Qed.

Lemma nth_set_nth_other (n m : nat) (v d : Z) (l : list Z) :
  n <> m -> nth m (set_nth n v l) d = nth m l d.
Proof.
  revert n m. induction l as [|x r IH]; intros [|n] [|m] H; simpl; auto; try congruence.
Qed.

Lemma list_set_length (l : list Z) (i v : Z) : length (list_set l i v) = length l.
Proof.
  unfold list_set. destruct (0 <=? i); [apply set_nth_length|reflexivity].
Qed.

Lemma list_set_Forall (P : Z -> Prop) (l : list Z) (i v : Z) :
  P v -> Forall P l -> Forall P (list_set l i v).
Proof.
  intros Hv Hl. unfold list_set.
  destruct (0 <=? i); [apply set_nth_Forall; assumption|exact Hl].
Qed.

Lemma list_get_set_same (l : list Z) (i v : Z) :
  0 <= i < Z.of_nat (length l) -> list_get (list_set l i v) i = v.
Proof.
  intros H. unfold list_get, list_set.
  destruct (Z.leb_spec 0 i); [|lia].
  apply nth_set_nth_same. lia.
Qed.

Lemma list_get_set_other (l : list Z) (i j v : Z) :
  0 <= i -> 0 <= j -> i <> j -> list_get (list_set l i v) j = list_get l j.
Proof.
  intros Hi Hj Hij. unfold list_get, list_set.
  destruct (Z.leb_spec 0 i); [|lia]. destruct (Z.leb_spec 0 j); [|lia].
  apply nth_set_nth_other. lia.
Qed.

Lemma list_get_Forall (P : Z -> Prop) (l : list Z) (i : Z) :
  P 0 -> Forall P l -> P (list_get l i).
Proof.
  intros H0 Hl. unfold list_get.
  destruct (0 <=? i); [|exact H0].
  destruct (Nat.lt_ge_cases (Z.to_nat i) (length l)) as [Hlt|Hge].
  - rewrite Forall_forall in Hl. apply Hl. apply nth_In. exact Hlt.
  - rewrite nth_overflow by exact Hge. exact H0.
Qed.

(** ** Bounds on masks, shifts and unions of bit fields *)

Lemma land_ones_range (a k : Z) : 0 <= k -> 0 <= Z.land a (Z.ones k) < 2 ^ k.
Proof.
  intros Hk. rewrite Z.land_ones by exact Hk.
  apply Z.mod_pos_bound. apply Z.pow_pos_nonneg; lia.
Qed.

Lemma shiftl_range (a n k : Z) :
  0 <= n -> 0 <= k -> 0 <= a < 2 ^ n -> 0 <= Z.shiftl a k < 2 ^ (n + k).
Proof.
  intros Hn Hk Ha. rewrite Z.shiftl_mul_pow2 by exact Hk.
  rewrite Z.pow_add_r by assumption.
  assert (0 < 2 ^ k) by (apply Z.pow_pos_nonneg; lia). nia.
Qed.

Lemma lor_range (a b n : Z) :
  0 <= n -> 0 <= a < 2 ^ n -> 0 <= b < 2 ^ n -> 0 <= Z.lor a b < 2 ^ n.
Proof.
  intros Hn Ha Hb.
  assert (Hnn : 0 <= Z.lor a b) by (apply Z.lor_nonneg; lia).
  split; [exact Hnn|].
  destruct (Z.eq_dec (Z.lor a b) 0) as [E|E].
  - rewrite E. apply Z.pow_pos_nonneg; lia.
  - apply Z.log2_lt_pow2; [lia|].
    rewrite Z.log2_lor by lia.
    destruct (Z.eq_dec a 0) as [Ea|Ea]; destruct (Z.eq_dec b 0) as [Eb|Eb]; subst.
    + exfalso. apply E. reflexivity.
    + rewrite Z.max_r by (cbn; apply Z.log2_nonneg). apply Z.log2_lt_pow2; lia.
    + rewrite Z.max_l by (cbn; apply Z.log2_nonneg). apply Z.log2_lt_pow2; lia.
    + apply Z.max_lub_lt; apply Z.log2_lt_pow2; lia.
Qed.

Lemma lor_widen (a b n m : Z) :
  0 <= n <= m -> 0 <= a < 2 ^ m -> 0 <= b < 2 ^ n -> 0 <= Z.lor a b < 2 ^ m.
Proof.
  intros Hn Ha Hb. apply lor_range; [lia|exact Ha|].
  assert (2 ^ n <= 2 ^ m) by (apply Z.pow_le_mono_r; lia). lia.
Qed.

(** ** What the decoder can return *)

Lemma utf8_decode_bound (buf : list Z) :
  Forall is_byte buf -> 0 <= fst (utf8_decode buf) <= 0x1FFFFF.
Proof.
  intros Hbuf.
  assert (Hb : forall i, 0 <= list_get buf i < 256).
  { intros i. apply (list_get_Forall is_byte); [unfold is_byte; lia|exact Hbuf]. }
  pose proof (Hb 0) as H0.
  assert (P6 : forall a, 0 <= Z.land a 0x3F < 2 ^ 6)
    by (intros a; change 0x3F with (Z.ones 6); apply land_ones_range; lia).
  assert (P5 : forall a, 0 <= Z.land a 0x1F < 2 ^ 5)
    by (intros a; change 0x1F with (Z.ones 5); apply land_ones_range; lia).
  assert (P4 : forall a, 0 <= Z.land a 0x0F < 2 ^ 4)
    by (intros a; change 0x0F with (Z.ones 4); apply land_ones_range; lia).
  assert (P3 : forall a, 0 <= Z.land a 0x07 < 2 ^ 3)
    by (intros a; change 0x07 with (Z.ones 3); apply land_ones_range; lia).
  assert (S2 : forall a, 0 <= Z.shiftl (Z.land a 0x1F) 6 < 2 ^ 11)
    by (intros a; apply (shiftl_range _ 5 6); [lia|lia|apply P5]).
  assert (S3 : forall a, 0 <= Z.shiftl (Z.land a 0x0F) 12 < 2 ^ 16)
    by (intros a; apply (shiftl_range _ 4 12); [lia|lia|apply P4]).
  assert (S4 : forall a, 0 <= Z.shiftl (Z.land a 0x07) 18 < 2 ^ 21)
    by (intros a; apply (shiftl_range _ 3 18); [lia|lia|apply P3]).
  assert (M6 : forall a, 0 <= Z.shiftl (Z.land a 0x3F) 6 < 2 ^ 12)
    by (intros a; apply (shiftl_range _ 6 6); [lia|lia|apply P6]).
  assert (M12 : forall a, 0 <= Z.shiftl (Z.land a 0x3F) 12 < 2 ^ 18)
    by (intros a; apply (shiftl_range _ 6 12); [lia|lia|apply P6]).
  assert (G : forall v, 0 <= v < 2 ^ 21 -> 0 <= v <= 0x1FFFFF) by (intros v; lia).
  unfold utf8_decode.
  repeat match goal with
         | |- context [if ?c then _ else _] => destruct c
         end; cbn [fst]; try lia; apply G.
  - apply (lor_widen _ _ 6 21); [lia| |apply P6].
    specialize (S2 (list_get buf 0)). lia.
  - specialize (S2 (list_get buf 0)). lia.
  - apply (lor_widen _ _ 6 21); [lia| |apply P6].
    apply (lor_widen _ _ 12 21); [lia| |apply M6].
    specialize (S3 (list_get buf 0)). lia.
  - apply (lor_widen _ _ 12 21); [lia| |apply M6].
    specialize (S3 (list_get buf 0)). lia.
  - specialize (S3 (list_get buf 0)). lia.
  - apply (lor_widen _ _ 6 21); [lia| |apply P6].
    apply (lor_widen _ _ 12 21); [lia| |apply M6].
    apply (lor_widen _ _ 18 21); [lia|apply S4|apply M12].
  - apply (lor_widen _ _ 12 21); [lia| |apply M6].
    apply (lor_widen _ _ 18 21); [lia|apply S4|apply M12].
  - apply (lor_widen _ _ 18 21); [lia|apply S4|apply M12].
  - apply S4.
Qed.

(** ** Operations that only touch the cells *)

Lemma same_but_cells_refl t : same_but_cells t t.
Proof. destruct t; reflexivity. Qed.

Lemma same_but_cells_set t m : same_but_cells t (set_cells m t).
Proof. reflexivity. Qed.

Lemma same_but_cells_trans t u v :
  same_but_cells t u -> same_but_cells u v -> same_but_cells t v.
Proof. unfold same_but_cells. intros H1 H2. rewrite H2, H1. reflexivity. Qed.

Lemma same_but_cells_for_count (t : terminal) (body : Z -> terminal -> terminal) :
  (forall i s, same_but_cells s (body i s)) ->
  forall n i step, same_but_cells t (for_count n i step body t).
Proof.
  intros Hb n i step.
  apply (for_count_preserves (same_but_cells t)).
  - intros k s Hs. eapply same_but_cells_trans; [exact Hs|apply Hb].
  - apply same_but_cells_refl.
Qed.

Lemma same_but_cells_store y x c t : same_but_cells t (store_cell y x c t).
Proof. reflexivity. Qed.

Lemma same_but_cells_blank_cell y x t : same_but_cells t (blank_cell y x t).
Proof. reflexivity. Qed.

Lemma same_but_cells_copy_row d s t : same_but_cells t (copy_row d s t).
Proof. reflexivity. Qed.

Lemma same_but_cells_blank_span y lo hi t : same_but_cells t (blank_span y lo hi t).
Proof. apply same_but_cells_for_count. intros; apply same_but_cells_blank_cell. Qed.

Lemma same_but_cells_scroll_up t : same_but_cells t (term_scroll_up t).
Proof.
  unfold term_scroll_up. cbv zeta.
  eapply same_but_cells_trans; [|apply same_but_cells_blank_span].
  apply same_but_cells_for_count. intros; apply same_but_cells_copy_row.
Qed.

Lemma same_but_cells_scroll_down t : same_but_cells t (term_scroll_down t).
Proof.
  unfold term_scroll_down. cbv zeta.
  eapply same_but_cells_trans; [|apply same_but_cells_blank_span].
  apply same_but_cells_for_count. intros; apply same_but_cells_copy_row.
Qed.

(** Every field but [cells] can be read off the earlier state. *)
Ltac frame_fields H :=
  let E := fresh "E" in
  pose proof H as E; unfold same_but_cells in E; rewrite E; reflexivity.

Lemma scroll_up_fields t :
  let t' := term_scroll_up t in
  cursor_x t' = cursor_x t /\ cursor_y t' = cursor_y t /\
  fg_color t' = fg_color t /\ bg_color t' = bg_color t /\ bold t' = bold t /\
  scroll_top t' = scroll_top t /\ scroll_bottom t' = scroll_bottom t.
Proof.
  cbv zeta. pose proof (same_but_cells_scroll_up t) as H.
  repeat split; frame_fields H.
Qed.

Lemma scroll_down_fields t :
  let t' := term_scroll_down t in
  cursor_x t' = cursor_x t /\ cursor_y t' = cursor_y t /\
  fg_color t' = fg_color t /\ bg_color t' = bg_color t /\ bold t' = bold t /\
  scroll_top t' = scroll_top t /\ scroll_bottom t' = scroll_bottom t.
Proof.
  cbv zeta. pose proof (same_but_cells_scroll_down t) as H.
  repeat split; frame_fields H.
Qed.

Lemma newline_fields t :
  let t' := term_newline t in
  cursor_x t' = cursor_x t /\
  fg_color t' = fg_color t /\ bg_color t' = bg_color t /\ bold t' = bold t /\
  scroll_top t' = scroll_top t /\ scroll_bottom t' = scroll_bottom t /\
  cursor_y t' =
    (if wrap_int (cursor_y t + 1) >? scroll_bottom t
     then scroll_bottom t else wrap_int (cursor_y t + 1)).
Proof.
  cbv zeta. unfold term_newline. cbv zeta.
  cbn [cursor_y scroll_bottom set_cursor_y].
  destruct (wrap_int (cursor_y t + 1) >? scroll_bottom t).
  - set (u := set_cursor_y (scroll_bottom t) (set_cursor_y (wrap_int (cursor_y t + 1)) t)).
    destruct (scroll_up_fields u) as (E1 & E2 & E3 & E4 & E5 & E6 & E7).
    rewrite E1, E2, E3, E4, E5, E6, E7. repeat split.
  - repeat split.
Qed.

Lemma newline_state t : state (term_newline t) = state t.
Proof.
  unfold term_newline. cbv zeta. destruct (_ >? _); [|reflexivity].
  match goal with
  | |- state (term_scroll_up ?u) = _ =>
      pose proof (same_but_cells_scroll_up u) as H
  end.
  unfold same_but_cells in H. rewrite H. reflexivity.
Qed.

Lemma putchar_state cp t : state (term_putchar cp t) = state t.
Proof.
  unfold term_putchar. cbv zeta. cbn [state set_cursor_x store_cell set_cells].
  assert (H : state (if cursor_x t >=? TERM_COLS
                     then term_newline (term_carriage_return t) else t) = state t).
  { destruct (_ >=? _); [rewrite newline_state|]; reflexivity. }
  destruct (cursor_y _ >=? TERM_ROWS); exact H.
Qed.

(** The grid operations do not look at the decoder. *)

Lemma for_count_commute {A : Type} (g : A -> A) (body : Z -> A -> A) :
  (forall i s, body i (g s) = g (body i s)) ->
  forall n i step s, for_count n i step body (g s) = g (for_count n i step body s).
Proof.
  intros Hc n. induction n as [|n IH]; intros i step s; cbn.
  - reflexivity.
  - rewrite Hc. apply IH.
Qed.

Lemma blank_span_with_utf8 b l y lo hi t :
  blank_span y lo hi (with_utf8 b l t) = with_utf8 b l (blank_span y lo hi t).
Proof.
  unfold blank_span, for_up. apply for_count_commute. reflexivity.
Qed.

Lemma copy_rows_up_with_utf8 b l lo hi t :
  for_up lo hi (fun y => copy_row y (y + 1)) (with_utf8 b l t) =
  with_utf8 b l (for_up lo hi (fun y => copy_row y (y + 1)) t).
Proof. unfold for_up. apply for_count_commute. reflexivity. Qed.

Lemma scroll_up_with_utf8 b l t :
  term_scroll_up (with_utf8 b l t) = with_utf8 b l (term_scroll_up t).
Proof.
  unfold term_scroll_up. cbv zeta.
  change (scroll_top (with_utf8 b l t)) with (scroll_top t).
  change (scroll_bottom (with_utf8 b l t)) with (scroll_bottom t).
  rewrite !copy_rows_up_with_utf8.
  set (t1 := for_up _ _ _ t).
  change (scroll_bottom (with_utf8 b l t1)) with (scroll_bottom t1).
  apply blank_span_with_utf8.
Qed.

Lemma newline_with_utf8 b l t :
  term_newline (with_utf8 b l t) = with_utf8 b l (term_newline t).
Proof.
  unfold term_newline. cbv zeta.
  change (cursor_y (with_utf8 b l t)) with (cursor_y t).
  cbn [cursor_y scroll_bottom set_cursor_y with_utf8 set_utf8_buf set_utf8_buf_len].
  destruct (wrap_int (cursor_y t + 1) >? scroll_bottom t); [|reflexivity].
  apply (scroll_up_with_utf8 b l
           (set_cursor_y (scroll_bottom t) (set_cursor_y (wrap_int (cursor_y t + 1)) t))).
Qed.

Lemma putchar_with_utf8 b l cp t :
  term_putchar cp (with_utf8 b l t) = with_utf8 b l (term_putchar cp t).
Proof.
  unfold term_putchar. cbv zeta.
  change (cursor_x (with_utf8 b l t)) with (cursor_x t).
  change (term_carriage_return (with_utf8 b l t))
    with (with_utf8 b l (term_carriage_return t)).
  rewrite newline_with_utf8.
  destruct (cursor_x t >=? TERM_COLS).
  - set (u := term_newline (term_carriage_return t)).
    change (cursor_y (with_utf8 b l u)) with (cursor_y u).
    destruct (cursor_y u >=? TERM_ROWS); reflexivity.
  - change (cursor_y (with_utf8 b l t)) with (cursor_y t).
    destruct (cursor_y t >=? TERM_ROWS); reflexivity.
Qed.

(** ** Writing one character: [term_putchar] *)

Lemma store_cell_same y x c t : cell_at (store_cell y x c t) y x = c.
Proof. unfold cell_at, store_cell. cbn. rewrite Z.eqb_refl. reflexivity. Qed.

Lemma store_cell_other y x c t i :
  i <> cell_index y x -> cells (store_cell y x c t) i = cells t i.
Proof.
  intros H. unfold store_cell. cbn.
  destruct (Z.eqb_spec i (cell_index y x)); [contradiction|reflexivity].
Qed.

(** Away from the right margin the character goes to the cursor cell. *)
Lemma putchar_in_row cp t :
  cursor_x t < TERM_COLS -> cursor_y t < TERM_ROWS ->
  term_putchar cp t =
    set_cursor_x (wrap_int (cursor_x t + 1))
      (store_cell (cursor_y t) (cursor_x t)
         (cell.mk cp (fg_color t) (bg_color t) (bold t)) t).
Proof.
  intros Hx Hy. unfold term_putchar. cbv zeta.
  destruct (Z.geb_spec (cursor_x t) TERM_COLS); [lia|].
  destruct (Z.geb_spec (cursor_y t) TERM_ROWS); [lia|]. reflexivity.
Qed.

(** At the pending-wrap frontier carriage return and newline run first. *)
Lemma putchar_at_frontier cp t :
  TERM_COLS <= cursor_x t -> scroll_bottom t < TERM_ROWS ->
  - 2 ^ 31 <= cursor_y t < TERM_ROWS -> TERM_ROWS < 2 ^ 31 ->
  let tn := term_newline (term_carriage_return t) in
  term_putchar cp t =
    set_cursor_x 1
      (store_cell (cursor_y tn) 0
         (cell.mk cp (fg_color t) (bg_color t) (bold t)) tn) /\
  cursor_x tn = 0 /\
  cursor_y tn = (if cursor_y t + 1 >? scroll_bottom t
                 then scroll_bottom t else cursor_y t + 1).
Proof.
  intros Hx Hb Hy HR. cbv zeta.
  destruct (newline_fields (term_carriage_return t))
    as (E1 & E2 & E3 & E4 & E5 & E6 & E7).
  cbn [cursor_x cursor_y fg_color bg_color bold scroll_top scroll_bottom
       term_carriage_return set_cursor_x] in E1, E2, E3, E4, E5, E6, E7.
  rewrite wrap_int_small in E7 by lia.
  split; [|split; assumption].
  unfold term_putchar. cbv zeta.
  destruct (Z.geb_spec (cursor_x t) TERM_COLS); [|lia].
  set (tn := term_newline (term_carriage_return t)) in *.
  assert (Hyn : cursor_y tn < TERM_ROWS).
  { rewrite E7. destruct (cursor_y t + 1 >? scroll_bottom t) eqn:G; [lia|].
    rewrite Z.gtb_ltb in G. apply Z.ltb_ge in G. lia. }
  destruct (Z.geb_spec (cursor_y tn) TERM_ROWS); [lia|].
  cbn [cursor_x store_cell set_cells]. rewrite E1, E2, E3, E4.
  change (wrap_int (0 + 1)) with 1. reflexivity.
Qed.

(** ** The invariant is kept by every operation *)

Section Invariant.

Hypothesis rows_range : 10 <= TERM_ROWS <= MAX_TERM_ROWS.


Lemma inv_set_cells (m : Z -> cell.t) (t : terminal) :
  (forall i, cp_ok (m i)) -> term_inv t -> term_inv (set_cells m t).
Proof.
  intros Hm (Hr & _ & Hu). split; [exact Hr|]. split; [exact Hm|exact Hu].
Qed.

Lemma inv_set_cursor_x v t : term_inv t -> term_inv (set_cursor_x v t).
Proof. intros H; exact H. Qed.
Lemma inv_set_cursor_y v t : term_inv t -> term_inv (set_cursor_y v t).
Proof. intros H; exact H. Qed.
Lemma inv_set_cursor_visible v t : term_inv t -> term_inv (set_cursor_visible v t).
Proof. intros H; exact H. Qed.
Lemma inv_set_fg_color v t : term_inv t -> term_inv (set_fg_color v t).
Proof. intros H; exact H. Qed.
Lemma inv_set_bg_color v t : term_inv t -> term_inv (set_bg_color v t).
Proof. intros H; exact H. Qed.
Lemma inv_set_bold v t : term_inv t -> term_inv (set_bold v t).
Proof. intros H; exact H. Qed.
Lemma inv_set_state v t : term_inv t -> term_inv (set_state v t).
Proof. intros H; exact H. Qed.
Lemma inv_set_private_mode v t : term_inv t -> term_inv (set_private_mode v t).
Proof. intros H; exact H. Qed.
Lemma inv_set_escape_buf_len v t : term_inv t -> term_inv (set_escape_buf_len v t).
Proof. intros H; exact H. Qed.

Lemma inv_pty_write bytes t : term_inv t -> term_inv (pty_write bytes t).
Proof. intros H. unfold pty_write. destruct (master_fd t >=? 0); exact H. Qed.

Lemma inv_set_utf8_buf_len_0 t : term_inv t -> term_inv (set_utf8_buf_len 0 t).
Proof.
  intros (Hr & Hc & Hu & (I1 & I2 & I3 & I4)).
  split; [exact Hr|]. split; [exact Hc|]. split; [exact Hu|].
  split; [exact I1|]. split; [exact I2|]. split; [cbn; lia|exact I4].
Qed.

Lemma inv_store_cell y x c t : cp_ok c -> term_inv t -> term_inv (store_cell y x c t).
Proof.
  intros Hc H. unfold store_cell. apply inv_set_cells; [|exact H].
  intros i. destruct (i =? cell_index y x); [exact Hc|]. apply H.
Qed.

Lemma inv_blank_cell y x t : term_inv t -> term_inv (blank_cell y x t).
Proof.
  intros H. unfold blank_cell. apply inv_store_cell; [|exact H].
  unfold cp_ok. cbn. lia.
Qed.

Lemma inv_copy_cell y d s t : term_inv t -> term_inv (copy_cell y d s t).
Proof.
  intros H. unfold copy_cell. apply inv_store_cell; [|exact H]. apply H.
Qed.

Lemma inv_copy_row d s t : term_inv t -> term_inv (copy_row d s t).
Proof.
  intros H. unfold copy_row. apply inv_set_cells; [|exact H].
  intros i. destruct (_ && _); apply H.
Qed.

Lemma inv_for_count n i step (body : Z -> terminal -> terminal) t :
  (forall k s, term_inv s -> term_inv (body k s)) -> term_inv t -> term_inv (for_count n i step body t).
Proof. intros Hb Ht. apply for_count_preserves; assumption. Qed.

Lemma inv_for_up lo hi (body : Z -> terminal -> terminal) t :
  (forall k s, term_inv s -> term_inv (body k s)) -> term_inv t -> term_inv (for_up lo hi body t).
Proof. apply inv_for_count. Qed.

Lemma inv_for_down hi lo (body : Z -> terminal -> terminal) t :
  (forall k s, term_inv s -> term_inv (body k s)) -> term_inv t -> term_inv (for_down hi lo body t).
Proof. apply inv_for_count. Qed.

Lemma inv_for_down_ge hi lo (body : Z -> terminal -> terminal) t :
  (forall k s, term_inv s -> term_inv (body k s)) -> term_inv t -> term_inv (for_down_ge hi lo body t).
Proof. apply inv_for_count. Qed.

Lemma inv_blank_span y lo hi t : term_inv t -> term_inv (blank_span y lo hi t).
Proof. intros H. apply inv_for_up; [|exact H]. intros; now apply inv_blank_cell. Qed.

Lemma inv_blank_rows lo hi t : term_inv t -> term_inv (blank_rows lo hi t).
Proof. intros H. apply inv_for_up; [|exact H]. intros; now apply inv_blank_span. Qed.

Lemma inv_term_scroll_up t : term_inv t -> term_inv (term_scroll_up t).
Proof.
  intros H. unfold term_scroll_up. cbv zeta. apply inv_blank_span.
  apply inv_for_up; [|exact H]. intros; now apply inv_copy_row.
Qed.

Lemma inv_term_scroll_down t : term_inv t -> term_inv (term_scroll_down t).
Proof.
  intros H. unfold term_scroll_down. cbv zeta. apply inv_blank_span.
  apply inv_for_down; [|exact H]. intros; now apply inv_copy_row.
Qed.

Lemma inv_term_newline t : term_inv t -> term_inv (term_newline t).
Proof.
  intros H. unfold term_newline. cbv zeta.
  destruct (_ >? _); [apply inv_term_scroll_up|]; exact H.
Qed.

Lemma inv_term_putchar cp t :
  0 <= cp <= 0x1FFFFF -> term_inv t -> term_inv (term_putchar cp t).
Proof.
  intros Hcp H. unfold term_putchar. cbv zeta.
  apply inv_set_cursor_x. apply inv_store_cell; [exact Hcp|].
  assert (H1 : term_inv (if cursor_x t >=? TERM_COLS
                    then term_newline (term_carriage_return t) else t)).
  { destruct (_ >=? _); [apply inv_term_newline|]; exact H. }
  destruct (cursor_y _ >=? TERM_ROWS); [apply inv_set_cursor_y|]; exact H1.
Qed.

(** Split the conditionals of an operation and close every branch with the
    lemmas above. *)
Ltac inv_prim :=
  first
    [ apply inv_set_cursor_x | apply inv_set_cursor_y | apply inv_set_cursor_visible
    | apply inv_set_fg_color | apply inv_set_bg_color | apply inv_set_bold
    | apply inv_set_state | apply inv_set_private_mode
    | apply inv_set_escape_buf_len | apply inv_set_utf8_buf_len_0
    | apply inv_pty_write | apply inv_blank_cell | apply inv_copy_cell
    | apply inv_copy_row | apply inv_blank_span | apply inv_blank_rows
    | apply inv_term_scroll_up | apply inv_term_scroll_down
    | apply inv_term_newline ].

Ltac inv_branches :=
  cbv zeta;
  repeat first
    [ match goal with
      | H : term_inv ?t |- term_inv ?t => exact H
      | |- term_inv (if ?c then _ else _) => destruct c
      | |- term_inv (for_up _ _ _ _) => apply inv_for_up; [intros|]
      | |- term_inv (for_down _ _ _ _) => apply inv_for_down; [intros|]
      | |- term_inv (for_down_ge _ _ _ _) => apply inv_for_down_ge; [intros|]
      end
    | inv_prim
    | progress cbv beta ].

Lemma inv_sgr_param v t : term_inv t -> term_inv (sgr_param v t).
Proof. intros H. unfold sgr_param, sgr_reset. inv_branches. Qed.

Lemma csi_set_scroll_region_in_grid t : region_in_grid (csi_set_scroll_region t).
Proof.
  unfold region_in_grid, csi_set_scroll_region, csi_pos. cbv zeta. cbn.
  pose proof rows_range as HR. unfold MAX_TERM_ROWS in HR.
  repeat match goal with
         | |- context [if ?c then _ else _] => destruct c eqn:?; cbn
         end;
    repeat match goal with
           | H : (_ && _) = true |- _ => apply andb_prop in H; destruct H
           | H : (_ >? _) = true |- _ => apply Z.gtb_lt in H
           | H : (_ >=? _) = true |- _ => apply Z.geb_le in H
           | H : (_ >=? _) = false |- _ => rewrite Z.geb_leb in H; apply Z.leb_gt in H
           end.
  all: cbn in *; lia.
Qed.

Lemma csi_set_scroll_region_frame t :
  cells (csi_set_scroll_region t) = cells t /\
  utf8_buf (csi_set_scroll_region t) = utf8_buf t /\
  utf8_buf_len (csi_set_scroll_region t) = utf8_buf_len t /\
  escape_params (csi_set_scroll_region t) = escape_params t /\
  num_escape_params (csi_set_scroll_region t) = num_escape_params t.
Proof.
  unfold csi_set_scroll_region. cbv zeta.
  repeat match goal with
         | |- context [if ?c then _ else _] => destruct c
         end; repeat split.
Qed.

Lemma inv_csi_set_scroll_region t : term_inv t -> term_inv (csi_set_scroll_region t).
Proof.
  intros (_ & Hc & Hu & Hi).
  destruct (csi_set_scroll_region_frame t) as (E1 & E2 & E3 & E4 & E5).
  split; [apply csi_set_scroll_region_in_grid|]. split; [|split].
  - unfold cells_cp_ok. rewrite E1. exact Hc.
  - unfold utf8_state_ok. rewrite E2. exact Hu.
  - unfold index_ok. rewrite E2, E3, E4, E5. exact Hi.
Qed.

Lemma inv_term_handle_csi final t : term_inv t -> term_inv (term_handle_csi final t).
Proof.
  intros H. unfold term_handle_csi.
  repeat match goal with
         | |- term_inv (if ?c then _ else _) => destruct c
         end; try exact H.
  - unfold csi_cursor_position. inv_branches.
  - unfold csi_cursor_up. inv_branches.
  - unfold csi_cursor_down. inv_branches.
  - unfold csi_cursor_forward. inv_branches.
  - unfold csi_cursor_backward. inv_branches.
  - unfold csi_erase_display. inv_branches.
  - unfold csi_erase_line. inv_branches.
  - unfold csi_sgr, sgr_reset. inv_branches; apply inv_sgr_param; assumption.
  - unfold csi_set_mode. inv_branches.
  - unfold csi_reset_mode. inv_branches.
  - apply inv_csi_set_scroll_region. exact H.
  - unfold csi_line_absolute. inv_branches.
  - unfold csi_column_absolute. inv_branches.
  - unfold csi_scroll_up. inv_branches.
  - unfold csi_scroll_down. inv_branches.
  - unfold csi_insert_line. inv_branches.
  - unfold csi_delete_line. inv_branches.
  - unfold csi_erase_chars. inv_branches.
  - unfold csi_delete_chars. inv_branches.
  - unfold csi_insert_chars. inv_branches.
  - unfold csi_device_status. inv_branches.
  - unfold csi_device_attrs. inv_branches.
Qed.

Lemma inv_normal_printable ch t :
  is_byte ch -> term_inv t -> term_inv (normal_printable ch t).
Proof.
  intros Hch H. pose proof H as (Hr & Hc & Hb & (I1 & I2 & I3 & I4)).
  unfold normal_printable. cbv zeta.
  cbn [utf8_buf_len utf8_buf set_utf8_buf set_utf8_buf_len].
  rewrite (wrap_int_small (utf8_buf_len t + 1)) by lia.
  set (buf := list_set (utf8_buf t) (utf8_buf_len t) ch).
  assert (Hbuf : Forall is_byte buf) by (apply list_set_Forall; assumption).
  assert (Hlen : length buf = 4%nat) by (unfold buf; rewrite list_set_length; exact I4).
  fold (with_utf8 buf (utf8_buf_len t + 1) t).
  assert (Hexp : expected_len (list_get buf 0) <= 4)
    by (unfold expected_len;
        repeat match goal with |- context [if ?c then _ else _] => destruct c end; lia).
  destruct (Z.geb_spec (utf8_buf_len t + 1) (expected_len (list_get buf 0))) as [Hge|Hlt].
  - (* complete: the character is written and the decoder is idle again *)
    rewrite putchar_with_utf8.
    change (set_utf8_buf_len 0 (with_utf8 buf (utf8_buf_len t + 1) ?u))
      with (with_utf8 buf 0 u).
    pose proof (inv_term_putchar (fst (utf8_decode buf)) t
                  (utf8_decode_bound buf Hbuf) H) as (Pr & Pc & _ & (P1 & P2 & _ & _)).
    split; [exact Pr|]. split; [exact Pc|]. split; [exact Hbuf|].
    split; [exact P1|]. split; [exact P2|]. split; [cbn; lia|exact Hlen].
  - (* pending: one more byte is held *)
    split; [exact Hr|]. split; [exact Hc|]. split; [exact Hbuf|].
    split; [exact I1|]. split; [exact I2|]. split; [cbn; lia|exact Hlen].
Qed.

Lemma inv_process_normal ch t :
  is_byte ch -> term_inv t -> term_inv (process_normal ch t).
Proof.
  intros Hch H. unfold process_normal.
  destruct (ch =? 27); [inv_branches|].
  destruct (ch =? 10); [inv_branches|].
  destruct (ch =? 13); [unfold term_carriage_return; inv_branches|].
  destruct (ch =? 8); [inv_branches|].
  destruct (ch =? 9); [inv_branches|].
  destruct (ch >=? 32); [apply inv_normal_printable; assumption|exact H].
Qed.

Lemma inv_process_esc ch t : term_inv t -> term_inv (process_esc ch t).
Proof.
  intros H. unfold process_esc.
  destruct (ch =? 91); [|inv_branches].
  destruct H as (Hr & Hc & Hu & (I1 & I2 & I3 & I4)).
  split; [exact Hr|]. split; [exact Hc|]. split; [exact Hu|].
  split; [cbn; unfold MAX_ESCAPE_PARAMS; lia|].
  split; [reflexivity|]. split; [cbn; lia|exact I4].
Qed.

Lemma inv_process_csi ch t : term_inv t -> term_inv (process_csi ch t).
Proof.
  intros H. pose proof (inv_term_handle_csi ch t H) as Hh.
  pose proof H as (Hr & Hc & Hu & (I1 & I2 & I3 & I4)).
  unfold MAX_ESCAPE_PARAMS in *.
  unfold process_csi.
  destruct ((ch >=? 48) && (ch <=? 57)).
  - cbv zeta.
    split; [destruct (num_escape_params t =? 0); exact Hr|].
    split; [destruct (num_escape_params t =? 0); exact Hc|].
    split; [destruct (num_escape_params t =? 0); exact Hu|].
    unfold index_ok, MAX_ESCAPE_PARAMS.
    destruct (Z.eqb_spec (num_escape_params t) 0) as [E|E];
      cbn [num_escape_params escape_params utf8_buf utf8_buf_len
           set_escape_params set_num_escape_params];
      (split; [lia|]); (split; [rewrite list_set_length; exact I2|]);
      split; assumption.
  - destruct (ch =? 59).
    + unfold MAX_ESCAPE_PARAMS.
      destruct (Z.ltb_spec (num_escape_params t) 16); [|exact H].
      split; [exact Hr|]. split; [exact Hc|]. split; [exact Hu|].
      unfold index_ok, MAX_ESCAPE_PARAMS.
      split; [cbn; lia|]. split; [exact I2|]. split; assumption.
    + inv_branches.
Qed.

Lemma inv_process_osc ch t : term_inv t -> term_inv (process_osc ch t).
Proof. intros H. unfold process_osc. inv_branches. Qed.

Lemma inv_term_process_char t ch :
  is_byte ch -> term_inv t -> term_inv (term_process_char t ch).
Proof.
  intros Hch H. unfold term_process_char. destruct (state t).
  - apply inv_process_normal; assumption.
  - apply inv_process_esc; assumption.
  - apply inv_process_csi; assumption.
  - apply inv_process_osc; assumption.
Qed.

Lemma inv_term_feed bytes :
  Forall is_byte bytes -> forall t, term_inv t -> term_inv (term_feed t bytes).
Proof.
  induction 1 as [|b bs Hb Hbs IH]; intros t H; cbn.
  - exact H.
  - apply IH. apply inv_term_process_char; assumption.
Qed.

Lemma inv_term_init : term_inv term_init.
Proof.
  unfold term_init. cbv zeta. apply inv_blank_rows.
  pose proof rows_range as HR. unfold MAX_TERM_ROWS in HR.
  split; [|split; [|split]].
  - unfold region_in_grid. cbn. lia.
  - intros i. unfold cp_ok. cbn. lia.
  - unfold utf8_state_ok. cbn. repeat constructor; unfold is_byte; lia.
  - unfold index_ok, MAX_ESCAPE_PARAMS. cbn. repeat split; lia.
Qed.

End Invariant.

(** ** Printable bytes in Normal state *)

Lemma land_0x80_small (c : Z) : 0 <= c < 128 -> Z.land c 0x80 = 0.
Proof.
  intros H. rewrite <- (Z.mod_small c (2 ^ 7)) by lia.
  rewrite <- Z.land_ones by lia. rewrite <- Z.land_assoc. apply Z.land_0_r.
Qed.

Lemma length4 (l : list Z) :
  length l = 4%nat -> exists a b c d, l = [a; b; c; d].
Proof.
  destruct l as [|a [|b [|c [|d [|e l]]]]]; cbn; try discriminate.
  intros _. eauto.
Qed.

(** A byte of 0x20 and above is handed to the decoder. *)
Lemma process_char_printable t ch :
  state t = STATE_NORMAL -> 32 <= ch ->
  term_process_char t ch = normal_printable ch t.
Proof.
  intros Hs Hch. unfold term_process_char. rewrite Hs. unfold process_normal.
  repeat match goal with
         | |- context [?a =? ?b] => destruct (Z.eqb_spec a b); [lia|]
         end.
  destruct (Z.geb_spec ch 32); [reflexivity|lia].
Qed.

(** An ASCII byte is a complete sequence: it is decoded to itself and
    written at once. *)
Lemma process_char_ascii t ch :
  normal_idle t -> arrays_ok t -> 32 <= ch < 128 ->
  term_process_char t ch =
    set_utf8_buf_len 0
      (term_putchar ch (with_utf8 (list_set (utf8_buf t) 0 ch) 1 t)).
Proof.
  intros [Hs Hl] [Hb _] Hch.
  rewrite process_char_printable by (assumption || lia).
  unfold normal_printable. cbv zeta.
  cbn [utf8_buf_len utf8_buf set_utf8_buf set_utf8_buf_len].
  rewrite Hl. change (wrap_int (0 + 1)) with 1.
  destruct (length4 _ Hb) as (a & b & c & d & E). rewrite E.
  change (list_set [a; b; c; d] 0 ch) with [ch; b; c; d].
  change (list_get [ch; b; c; d] 0) with ch.
  unfold expected_len. rewrite land_0x80_small by lia. cbn [Z.eqb Z.geb Z.compare].
  unfold utf8_decode. change (list_get [ch; b; c; d] 0) with ch.
  destruct (Z.eqb_spec ch 0); [lia|].
  rewrite land_0x80_small by lia. reflexivity.
Qed.

Section AutoWrap.

Hypothesis cols_range : 40 <= TERM_COLS <= MAX_TERM_COLS.
Hypothesis rows_range : 10 <= TERM_ROWS <= MAX_TERM_ROWS.

(** C3.  A printable byte written at [cursor_x = cols - 1] is stored in
    that cell with the current SGR attributes and leaves [cursor_x = cols];
    the next printable byte first performs carriage return and newline, then
    writes its cell at column 0 of the row the newline reached, and leaves
    [cursor_x = 1].  Apart from that cell the grid is the one the newline
    left. *)
Theorem write_at_last_column_defers_wrap :
  forall t ch ch2,
    normal_idle t -> arrays_ok t -> cursor_ok t ->
    cursor_x t = TERM_COLS - 1 ->
    32 <= ch < 128 -> 32 <= ch2 < 128 ->
    let t1 := term_process_char t ch in
    let t2 := term_process_char t1 ch2 in
    let tn := term_newline (term_carriage_return t1) in
    (cell_at t1 (cursor_y t) (TERM_COLS - 1)
       = cell.mk ch (fg_color t) (bg_color t) (bold t) /\
     cursor_x t1 = TERM_COLS /\ cursor_y t1 = cursor_y t) /\
    (cursor_x tn = 0 /\
     cursor_y tn = (if cursor_y t + 1 >? scroll_bottom t
                    then scroll_bottom t else cursor_y t + 1) /\
     cell_at t2 (cursor_y tn) 0
       = cell.mk ch2 (fg_color t) (bg_color t) (bold t) /\
     (forall i, i <> cell_index (cursor_y tn) 0 -> cells t2 i = cells tn i) /\
     cursor_y t2 = cursor_y tn /\ cursor_x t2 = 1).
Proof.
  intros t ch ch2 Hn Ha (Hcx & Hcy & Hsb) Hx Hch Hch2.
  pose proof cols_range as HC. pose proof rows_range as HR.
  unfold MAX_TERM_COLS in HC. unfold MAX_TERM_ROWS in HR.
  cbv zeta.
  rewrite (process_char_ascii t ch Hn Ha Hch).
  set (u := with_utf8 (list_set (utf8_buf t) 0 ch) 1 t).
  rewrite (putchar_in_row ch u) by (unfold u; cbn; lia).
  change (cursor_x u) with (cursor_x t). change (cursor_y u) with (cursor_y t).
  change (fg_color u) with (fg_color t). change (bg_color u) with (bg_color t).
  change (bold u) with (bold t).
  rewrite Hx. rewrite wrap_int_small by lia.
  replace (TERM_COLS - 1 + 1) with TERM_COLS by lia.
  set (t1 := set_utf8_buf_len 0 _).
  assert (Hn1 : normal_idle t1) by (destruct Hn; split; [assumption|reflexivity]).
  assert (Ha1 : arrays_ok t1).
  { destruct Ha as [Ha1 Ha2]. split; [|exact Ha2].
    change (utf8_buf t1) with (list_set (utf8_buf t) 0 ch).
    rewrite list_set_length. exact Ha1. }
  split.
  - split; [|split; reflexivity].
    unfold t1. unfold cell_at. cbn. rewrite Z.eqb_refl. reflexivity.
  - rewrite (process_char_ascii t1 ch2 Hn1 Ha1 Hch2).
    set (b2 := list_set (utf8_buf t1) 0 ch2).
    destruct (putchar_at_frontier ch2 (with_utf8 b2 1 t1)) as (E & Ex & Ey);
      try (unfold t1, u; cbn; lia).
    rewrite E. clear E.
    change (term_carriage_return (with_utf8 b2 1 t1))
      with (with_utf8 b2 1 (term_carriage_return t1)) in *.
    rewrite newline_with_utf8 in *.
    set (tn := term_newline (term_carriage_return t1)) in *.
    change (cursor_x (with_utf8 b2 1 tn)) with (cursor_x tn) in Ex.
    change (cursor_y (with_utf8 b2 1 tn)) with (cursor_y tn) in *.
    change (cursor_y (with_utf8 b2 1 t1)) with (cursor_y t) in Ey.
    change (scroll_bottom (with_utf8 b2 1 t1)) with (scroll_bottom t) in Ey.
    split; [exact Ex|]. split; [exact Ey|].
    split; [|split; [|split; reflexivity]].
    + unfold cell_at. cbn. rewrite Z.eqb_refl. reflexivity.
    + intros i Hi. cbn.
      destruct (Z.eqb_spec i (cell_index (cursor_y tn) 0)); [contradiction|reflexivity].
Qed.

End AutoWrap.

(** ** Bytes of a UTF-8 sequence *)

Lemma forall_below (f : Z -> bool) (n : nat) :
  forallb f (map Z.of_nat (seq 0 n)) = true ->
  forall z, 0 <= z < Z.of_nat n -> f z = true.
Proof.
  intros H z Hz. rewrite forallb_forall in H. apply H.
  apply in_map_iff. exists (Z.to_nat z). split; [lia|]. apply in_seq. lia.
Qed.

Lemma continuation_byte (p : Z) :
  0 <= p < 64 ->
  is_continuation (Z.lor 0x80 p) = true /\ Z.land (Z.lor 0x80 p) 0x3F = p /\
  128 <= Z.lor 0x80 p < 192.
Proof.
  intros H.
  pose proof (forall_below
    (fun p => is_continuation (Z.lor 0x80 p) && (Z.land (Z.lor 0x80 p) 0x3F =? p)
              && (128 <=? Z.lor 0x80 p) && (Z.lor 0x80 p <? 192))
    64 eq_refl p H) as F.
  cbv beta in F. do 3 (apply andb_prop in F; destruct F as [F ?]).
  repeat split; try assumption; try (apply Z.eqb_eq; assumption);
    try (apply Z.leb_le; assumption); try (apply Z.ltb_lt; assumption).
Qed.

Lemma lead2_byte (h : Z) :
  0 <= h < 32 ->
  expected_len (Z.lor 0xC0 h) = 2 /\ Z.land (Z.lor 0xC0 h) 0x80 <> 0 /\
  Z.land (Z.lor 0xC0 h) 0xE0 = 0xC0 /\ Z.land (Z.lor 0xC0 h) 0x1F = h /\
  192 <= Z.lor 0xC0 h < 224.
Proof.
  intros H.
  pose proof (forall_below
    (fun h => let b := Z.lor 0xC0 h in
              (expected_len b =? 2) && negb (Z.land b 0x80 =? 0)
              && (Z.land b 0xE0 =? 0xC0) && (Z.land b 0x1F =? h)
              && (192 <=? b) && (b <? 224))
    32 eq_refl h H) as F.
  cbv beta zeta in F. repeat (apply andb_prop in F; destruct F as [F ?]).
  repeat split; try (apply Z.eqb_eq; assumption);
    try (apply Z.leb_le; assumption); try (apply Z.ltb_lt; assumption).
  apply Z.eqb_neq. apply negb_true_iff. assumption.
Qed.

Lemma lead3_byte (h : Z) :
  0 <= h < 16 ->
  expected_len (Z.lor 0xE0 h) = 3 /\ Z.land (Z.lor 0xE0 h) 0x80 <> 0 /\
  Z.land (Z.lor 0xE0 h) 0xE0 <> 0xC0 /\ Z.land (Z.lor 0xE0 h) 0xF0 = 0xE0 /\
  Z.land (Z.lor 0xE0 h) 0x0F = h /\ 224 <= Z.lor 0xE0 h < 240.
Proof.
  intros H.
  pose proof (forall_below
    (fun h => let b := Z.lor 0xE0 h in
              (expected_len b =? 3) && negb (Z.land b 0x80 =? 0)
              && negb (Z.land b 0xE0 =? 0xC0) && (Z.land b 0xF0 =? 0xE0)
              && (Z.land b 0x0F =? h) && (224 <=? b) && (b <? 240))
    16 eq_refl h H) as F.
  cbv beta zeta in F. repeat (apply andb_prop in F; destruct F as [F ?]).
  repeat split; try (apply Z.eqb_eq; assumption);
    try (apply Z.leb_le; assumption); try (apply Z.ltb_lt; assumption);
    apply Z.eqb_neq; apply negb_true_iff; assumption.
Qed.

Lemma lead4_byte (h : Z) :
  0 <= h < 8 ->
  expected_len (Z.lor 0xF0 h) = 4 /\ Z.land (Z.lor 0xF0 h) 0x80 <> 0 /\
  Z.land (Z.lor 0xF0 h) 0xE0 <> 0xC0 /\ Z.land (Z.lor 0xF0 h) 0xF0 <> 0xE0 /\
  Z.land (Z.lor 0xF0 h) 0xF8 = 0xF0 /\ Z.land (Z.lor 0xF0 h) 0x07 = h /\
  240 <= Z.lor 0xF0 h < 248.
Proof.
  intros H.
  pose proof (forall_below
    (fun h => let b := Z.lor 0xF0 h in
              (expected_len b =? 4) && negb (Z.land b 0x80 =? 0)
              && negb (Z.land b 0xE0 =? 0xC0) && negb (Z.land b 0xF0 =? 0xE0)
              && (Z.land b 0xF8 =? 0xF0) && (Z.land b 0x07 =? h)
              && (240 <=? b) && (b <? 248))
    8 eq_refl h H) as F.
  cbv beta zeta in F. repeat (apply andb_prop in F; destruct F as [F ?]).
  repeat split; try (apply Z.eqb_eq; assumption);
    try (apply Z.leb_le; assumption); try (apply Z.ltb_lt; assumption);
    apply Z.eqb_neq; apply negb_true_iff; assumption.
Qed.

(** Splitting a number at bit [k] and putting it together again. *)
Lemma lor_shiftl_split (c k : Z) :
  0 <= k -> Z.lor (Z.shiftl (Z.shiftr c k) k) (Z.land c (Z.ones k)) = c.
Proof.
  intros Hk. apply Z.bits_inj'. intros n Hn.
  rewrite Z.lor_spec, Z.land_spec.
  destruct (Z.lt_ge_cases n k) as [Hlt|Hge].
  - rewrite Z.shiftl_spec_low by exact Hlt.
    rewrite Z.ones_spec_low by lia. rewrite andb_true_r. reflexivity.
  - rewrite Z.shiftl_spec by exact Hn. rewrite Z.shiftr_spec by lia.
    replace (n - k + k) with n by lia.
    rewrite Z.ones_spec_high by lia. rewrite andb_false_r, orb_false_r. reflexivity.
Qed.

Lemma shiftr_lt (c k n : Z) :
  0 <= k -> 0 <= n -> 0 <= c < 2 ^ (n + k) -> 0 <= Z.shiftr c k < 2 ^ n.
Proof.
  intros Hk Hn Hc. rewrite Z.shiftr_div_pow2 by exact Hk.
  assert (0 < 2 ^ k) by (apply Z.pow_pos_nonneg; lia).
  split; [apply Z.div_pos; lia|].
  apply Z.div_lt_upper_bound; [lia|].
  rewrite <- Z.pow_add_r by lia. rewrite Z.add_comm. lia.
Qed.

Lemma recompose2 (c : Z) :
  Z.lor (Z.shiftl (Z.shiftr c 6) 6) (Z.land c 0x3F) = c.
Proof. apply (lor_shiftl_split c 6). lia. Qed.

Lemma recompose3 (c : Z) :
  Z.lor (Z.lor (Z.shiftl (Z.shiftr c 12) 12)
               (Z.shiftl (Z.land (Z.shiftr c 6) 0x3F) 6))
        (Z.land c 0x3F) = c.
Proof.
  rewrite <- (recompose2 c) at 4.
  rewrite <- (recompose2 (Z.shiftr c 6)) at 2.
  rewrite Z.shiftr_shiftr by lia. rewrite Z.shiftl_lor.
  rewrite Z.shiftl_shiftl by lia. reflexivity.
Qed.

Lemma recompose4 (c : Z) :
  Z.lor (Z.lor (Z.lor (Z.shiftl (Z.shiftr c 18) 18)
                      (Z.shiftl (Z.land (Z.shiftr c 12) 0x3F) 12))
               (Z.shiftl (Z.land (Z.shiftr c 6) 0x3F) 6))
        (Z.land c 0x3F) = c.
Proof.
  rewrite <- (recompose3 c) at 5.
  rewrite <- (recompose2 (Z.shiftr c 12)) at 2.
  rewrite Z.shiftr_shiftr by lia. rewrite Z.shiftl_lor.
  rewrite Z.shiftl_shiftl by lia. reflexivity.
Qed.

(** ** The decoder on well-formed sequences *)

Lemma decode1 b0 b1 b2 b3 :
  b0 <> 0 -> Z.land b0 0x80 = 0 -> utf8_decode [b0; b1; b2; b3] = (b0, 1).
Proof.
  intros H0 H1. unfold utf8_decode. change (list_get [b0; b1; b2; b3] 0) with b0.
  destruct (Z.eqb_spec b0 0); [contradiction|]. rewrite H1. reflexivity.
Qed.

Lemma decode2 b0 b1 b2 b3 :
  Z.land b0 0x80 <> 0 -> Z.land b0 0xE0 = 0xC0 -> is_continuation b1 = true ->
  utf8_decode [b0; b1; b2; b3] =
    (Z.lor (Z.shiftl (Z.land b0 0x1F) 6) (Z.land b1 0x3F), 2).
Proof.
  intros H1 H2 C1. unfold utf8_decode.
  change (list_get [b0; b1; b2; b3] 0) with b0.
  change (list_get [b0; b1; b2; b3] 1) with b1.
  destruct (Z.eqb_spec b0 0); [subst; contradiction H1; reflexivity|].
  destruct (Z.eqb_spec (Z.land b0 0x80) 0); [contradiction|].
  rewrite H2, C1. reflexivity.
Qed.

Lemma decode3 b0 b1 b2 b3 :
  Z.land b0 0x80 <> 0 -> Z.land b0 0xE0 <> 0xC0 -> Z.land b0 0xF0 = 0xE0 ->
  is_continuation b1 = true -> is_continuation b2 = true ->
  utf8_decode [b0; b1; b2; b3] =
    (Z.lor (Z.lor (Z.shiftl (Z.land b0 0x0F) 12) (Z.shiftl (Z.land b1 0x3F) 6))
           (Z.land b2 0x3F), 3).
Proof.
  intros H1 H2 H3 C1 C2. unfold utf8_decode.
  change (list_get [b0; b1; b2; b3] 0) with b0.
  change (list_get [b0; b1; b2; b3] 1) with b1.
  change (list_get [b0; b1; b2; b3] 2) with b2.
  destruct (Z.eqb_spec b0 0); [subst; contradiction H1; reflexivity|].
  destruct (Z.eqb_spec (Z.land b0 0x80) 0); [contradiction|].
  destruct (Z.eqb_spec (Z.land b0 0xE0) 0xC0); [contradiction|].
  rewrite H3, C1, C2. reflexivity.
Qed.

Lemma decode4 b0 b1 b2 b3 :
  Z.land b0 0x80 <> 0 -> Z.land b0 0xE0 <> 0xC0 -> Z.land b0 0xF0 <> 0xE0 ->
  Z.land b0 0xF8 = 0xF0 ->
  is_continuation b1 = true -> is_continuation b2 = true -> is_continuation b3 = true ->
  utf8_decode [b0; b1; b2; b3] =
    (Z.lor (Z.lor (Z.lor (Z.shiftl (Z.land b0 0x07) 18)
                         (Z.shiftl (Z.land b1 0x3F) 12))
                  (Z.shiftl (Z.land b2 0x3F) 6))
           (Z.land b3 0x3F), 4).
Proof.
  intros H1 H2 H3 H4 C1 C2 C3. unfold utf8_decode.
  change (list_get [b0; b1; b2; b3] 0) with b0.
  change (list_get [b0; b1; b2; b3] 1) with b1.
  change (list_get [b0; b1; b2; b3] 2) with b2.
  change (list_get [b0; b1; b2; b3] 3) with b3.
  destruct (Z.eqb_spec b0 0); [subst; contradiction H1; reflexivity|].
  destruct (Z.eqb_spec (Z.land b0 0x80) 0); [contradiction|].
  destruct (Z.eqb_spec (Z.land b0 0xE0) 0xC0); [contradiction|].
  destruct (Z.eqb_spec (Z.land b0 0xF0) 0xE0); [contradiction|].
  rewrite H4, C1, C2, C3. reflexivity.
Qed.

(** ** Feeding a sequence byte by byte *)

Lemma printable_pending t ch k :
  state t = STATE_NORMAL -> 32 <= ch -> utf8_buf_len t = k -> 0 <= k <= 3 ->
  k + 1 < expected_len (list_get (list_set (utf8_buf t) k ch) 0) ->
  term_process_char t ch = with_utf8 (list_set (utf8_buf t) k ch) (k + 1) t.
Proof.
  intros Hs Hch Hk Hr Hlt.
  rewrite process_char_printable by assumption.
  unfold normal_printable. cbv zeta.
  cbn [utf8_buf_len utf8_buf set_utf8_buf set_utf8_buf_len].
  rewrite Hk. rewrite wrap_int_small by lia.
  destruct (Z.geb_spec (k + 1) (expected_len (list_get (list_set (utf8_buf t) k ch) 0)));
    [lia|reflexivity].
Qed.

Lemma printable_complete t ch k :
  state t = STATE_NORMAL -> 32 <= ch -> utf8_buf_len t = k -> 0 <= k <= 3 ->
  expected_len (list_get (list_set (utf8_buf t) k ch) 0) <= k + 1 ->
  term_process_char t ch =
    set_utf8_buf_len 0
      (term_putchar (fst (utf8_decode (list_set (utf8_buf t) k ch)))
         (with_utf8 (list_set (utf8_buf t) k ch) (k + 1) t)).
Proof.
  intros Hs Hch Hk Hr Hge.
  rewrite process_char_printable by assumption.
  unfold normal_printable. cbv zeta.
  cbn [utf8_buf_len utf8_buf set_utf8_buf set_utf8_buf_len].
  rewrite Hk. rewrite wrap_int_small by lia.
  destruct (Z.geb_spec (k + 1) (expected_len (list_get (list_set (utf8_buf t) k ch) 0)));
    [reflexivity|lia].
Qed.

(** The whole encoding of [c] amounts to one [term_putchar c]; the decoder
    is idle again afterwards. *)
Lemma feed_utf8_encode t c :
  normal_idle t -> arrays_ok t -> 0x20 <= c <= 0x10FFFF ->
  exists buf n,
    term_feed t (utf8_encode c) =
      set_utf8_buf_len 0 (term_putchar c (with_utf8 buf n t)).
Proof.
  intros [Hs Hl] Ha Hc. pose proof Ha as [Hb _].
  destruct (length4 _ Hb) as (x0 & x1 & x2 & x3 & E).
  unfold utf8_encode.
  destruct (Z.ltb_spec c 0x80) as [H1|H1];
    [|destruct (Z.ltb_spec c 0x800) as [H2|H2];
      [|destruct (Z.ltb_spec c 0x10000) as [H3|H3]]].
  - (* one byte *)
    exists (list_set (utf8_buf t) 0 c), 1. cbn [term_feed fold_left].
    apply process_char_ascii; [split; assumption|exact Ha|lia].
  - (* two bytes *)
    destruct (lead2_byte (Z.shiftr c 6)) as (L1 & L2 & L3 & L4 & L5);
      [apply (shiftr_lt c 6 5); lia|].
    destruct (continuation_byte (Z.land c 0x3F)) as (C1 & C2 & C3);
      [change 0x3F with (Z.ones 6); apply land_ones_range; lia|].
    set (b0 := Z.lor 0xC0 (Z.shiftr c 6)) in *.
    set (b1 := Z.lor 0x80 (Z.land c 0x3F)) in *.
    exists [b0; b1; x2; x3], 2. cbn [term_feed fold_left].
    rewrite (printable_pending t b0 0); try assumption; try lia;
      [|rewrite E; change (list_get (list_set [x0; x1; x2; x3] 0 b0) 0) with b0; lia].
    rewrite E. change (list_set [x0; x1; x2; x3] 0 b0) with [b0; x1; x2; x3].
    rewrite (printable_complete _ b1 1); try assumption; try reflexivity; try lia;
      cbn [utf8_buf with_utf8 set_utf8_buf set_utf8_buf_len];
      change (list_set [b0; x1; x2; x3] 1 b1) with [b0; b1; x2; x3];
      [|change (list_get [b0; b1; x2; x3] 0) with b0; lia].
    rewrite decode2 by assumption. cbn [fst].
    rewrite L4, C2, recompose2. reflexivity.
  - (* three bytes *)
    destruct (lead3_byte (Z.shiftr c 12)) as (L1 & L2 & L3 & L4 & L5 & L6);
      [apply (shiftr_lt c 12 4); lia|].
    destruct (continuation_byte (Z.land (Z.shiftr c 6) 0x3F)) as (C1 & C2 & C3);
      [change 0x3F with (Z.ones 6); apply land_ones_range; lia|].
    destruct (continuation_byte (Z.land c 0x3F)) as (D1 & D2 & D3);
      [change 0x3F with (Z.ones 6); apply land_ones_range; lia|].
    set (b0 := Z.lor 0xE0 (Z.shiftr c 12)) in *.
    set (b1 := Z.lor 0x80 (Z.land (Z.shiftr c 6) 0x3F)) in *.
    set (b2 := Z.lor 0x80 (Z.land c 0x3F)) in *.
    exists [b0; b1; b2; x3], 3. cbn [term_feed fold_left].
    rewrite (printable_pending t b0 0); try assumption; try lia;
      [|rewrite E; change (list_get (list_set [x0; x1; x2; x3] 0 b0) 0) with b0; lia].
    rewrite E. change (list_set [x0; x1; x2; x3] 0 b0) with [b0; x1; x2; x3].
    rewrite (printable_pending _ b1 1); try assumption; try reflexivity; try lia;
      cbn [utf8_buf with_utf8 set_utf8_buf set_utf8_buf_len];
      change (list_set [b0; x1; x2; x3] 1 b1) with [b0; b1; x2; x3];
      [|change (list_get [b0; b1; x2; x3] 0) with b0; lia].
    rewrite (printable_complete _ b2 2); try assumption; try reflexivity; try lia;
      cbn [utf8_buf with_utf8 set_utf8_buf set_utf8_buf_len];
      change (list_set [b0; b1; x2; x3] 2 b2) with [b0; b1; b2; x3];
      [|change (list_get [b0; b1; b2; x3] 0) with b0; lia].
    rewrite decode3 by assumption. cbn [fst].
    rewrite L5, C2, D2, recompose3. reflexivity.
  - (* four bytes *)
    destruct (lead4_byte (Z.shiftr c 18)) as (L1 & L2 & L3 & L4 & L5 & L6 & L7);
      [apply (shiftr_lt c 18 3); lia|].
    destruct (continuation_byte (Z.land (Z.shiftr c 12) 0x3F)) as (B1 & B2 & B3);
      [change 0x3F with (Z.ones 6); apply land_ones_range; lia|].
    destruct (continuation_byte (Z.land (Z.shiftr c 6) 0x3F)) as (C1 & C2 & C3);
      [change 0x3F with (Z.ones 6); apply land_ones_range; lia|].
    destruct (continuation_byte (Z.land c 0x3F)) as (D1 & D2 & D3);
      [change 0x3F with (Z.ones 6); apply land_ones_range; lia|].
    set (b0 := Z.lor 0xF0 (Z.shiftr c 18)) in *.
    set (b1 := Z.lor 0x80 (Z.land (Z.shiftr c 12) 0x3F)) in *.
    set (b2 := Z.lor 0x80 (Z.land (Z.shiftr c 6) 0x3F)) in *.
    set (b3 := Z.lor 0x80 (Z.land c 0x3F)) in *.
    exists [b0; b1; b2; b3], 4. cbn [term_feed fold_left].
    rewrite (printable_pending t b0 0); try assumption; try lia;
      [|rewrite E; change (list_get (list_set [x0; x1; x2; x3] 0 b0) 0) with b0; lia].
    rewrite E. change (list_set [x0; x1; x2; x3] 0 b0) with [b0; x1; x2; x3].
    rewrite (printable_pending _ b1 1); try assumption; try reflexivity; try lia;
      cbn [utf8_buf with_utf8 set_utf8_buf set_utf8_buf_len];
      change (list_set [b0; x1; x2; x3] 1 b1) with [b0; b1; x2; x3];
      [|change (list_get [b0; b1; x2; x3] 0) with b0; lia].
    rewrite (printable_pending _ b2 2); try assumption; try reflexivity; try lia;
      cbn [utf8_buf with_utf8 set_utf8_buf set_utf8_buf_len];
      change (list_set [b0; b1; x2; x3] 2 b2) with [b0; b1; b2; x3];
      [|change (list_get [b0; b1; b2; x3] 0) with b0; lia].
    rewrite (printable_complete _ b3 3); try assumption; try reflexivity; try lia;
      cbn [utf8_buf with_utf8 set_utf8_buf set_utf8_buf_len];
      change (list_set [b0; b1; b2; x3] 3 b3) with [b0; b1; b2; b3];
      [|change (list_get [b0; b1; b2; b3] 0) with b0; lia].
    rewrite decode4 by assumption. cbn [fst].
    rewrite L6, B2, C2, D2, recompose4. reflexivity.
Qed.

(** ** What one [term_putchar] leaves behind *)

Lemma putchar_writes cp t :
  40 <= TERM_COLS <= MAX_TERM_COLS -> 10 <= TERM_ROWS <= MAX_TERM_ROWS ->
  cursor_ok t ->
  let t' := term_putchar cp t in
  cell_at t' (cursor_y t') (cursor_x t' - 1)
    = cell.mk cp (fg_color t) (bg_color t) (bold t) /\
  (0 <= cursor_y t' < TERM_ROWS) /\ (0 <= cursor_x t' - 1 < TERM_COLS) /\
  (cursor_x t < TERM_COLS ->
   cursor_y t' = cursor_y t /\ cursor_x t' = cursor_x t + 1).
Proof.
  intros HC HR (Hx & Hy & Hb). unfold MAX_TERM_COLS in HC. unfold MAX_TERM_ROWS in HR.
  cbv zeta. destruct (Z.lt_ge_cases (cursor_x t) TERM_COLS) as [Hlt|Hge].
  - rewrite putchar_in_row by lia.
    cbn [cursor_x cursor_y set_cursor_x store_cell set_cells].
    rewrite wrap_int_small by lia. replace (cursor_x t + 1 - 1) with (cursor_x t) by lia.
    split; [|repeat split; lia].
    unfold cell_at. cbn. rewrite Z.eqb_refl. reflexivity.
  - destruct (putchar_at_frontier cp t) as (E & Ex & Ey); try lia.
    rewrite E. cbn [cursor_x cursor_y set_cursor_x store_cell set_cells].
    change (1 - 1) with 0.
    split; [unfold cell_at; cbn; rewrite Z.eqb_refl; reflexivity|].
    split; [|split; [lia|intros; lia]].
    rewrite Ey. destruct (cursor_y t + 1 >? scroll_bottom t) eqn:G; [lia|].
    rewrite Z.gtb_ltb in G. apply Z.ltb_ge in G. lia.
Qed.

(** ** The initial terminal *)

Lemma term_init_fields :
  cursor_x term_init = 0 /\ cursor_y term_init = 0 /\
  scroll_top term_init = 0 /\ scroll_bottom term_init = TERM_ROWS - 1 /\
  state term_init = STATE_NORMAL /\ utf8_buf_len term_init = 0 /\
  utf8_buf term_init = [0; 0; 0; 0] /\ escape_params term_init = repeat 0 16 /\
  fg_color term_init = 0x00FFFFFF /\ bg_color term_init = 0 /\ bold term_init = 0 /\
  master_fd term_init = -1 /\ pty_out term_init = [].
Proof.
  unfold term_init. cbv zeta.
  match goal with
  | |- context [blank_rows 0 TERM_ROWS ?t0] =>
      assert (H : same_but_cells t0 (blank_rows 0 TERM_ROWS t0))
  end.
  { apply same_but_cells_for_count. intros. apply same_but_cells_blank_span. }
  unfold same_but_cells in H. rewrite H. cbn. repeat split.
Qed.

Section Utf8RoundTrip.

Hypothesis cols_range : 40 <= TERM_COLS <= MAX_TERM_COLS.
Hypothesis rows_range : 10 <= TERM_ROWS <= MAX_TERM_ROWS.

(** C2.  For every Unicode scalar value [c] from U+0020 up, feeding the
    canonical UTF-8 encoding of [c] to the parser in Normal state (decoder
    idle) writes one cell, whose code point is [c], and advances the cursor
    past it; away from the right margin that cell is the one under the
    cursor.  In particular the bytes E4 B8 AD fed to the initial terminal,
    cursor at (0,0), leave 0x4E2D in cell (0,0) and the cursor at row 0,
    column 1. *)
Theorem utf8_round_trip :
  (forall t c,
     normal_idle t -> arrays_ok t -> cursor_ok t ->
     0x20 <= c -> is_scalar_value c ->
     let t' := term_feed t (utf8_encode c) in
     cell_at t' (cursor_y t') (cursor_x t' - 1)
       = cell.mk c (fg_color t) (bg_color t) (bold t) /\
     (0 <= cursor_y t' < TERM_ROWS) /\ (0 <= cursor_x t' - 1 < TERM_COLS) /\
     normal_idle t' /\
     (cursor_x t < TERM_COLS ->
      cursor_y t' = cursor_y t /\ cursor_x t' = cursor_x t + 1)) /\
  (let u := term_feed term_init [0xE4; 0xB8; 0xAD] in
   cell.codepoint (cell_at u 0 0) = 0x4E2D /\ cursor_y u = 0 /\ cursor_x u = 1).
Proof.
  assert (G : forall t c,
     normal_idle t -> arrays_ok t -> cursor_ok t ->
     0x20 <= c -> is_scalar_value c ->
     let t' := term_feed t (utf8_encode c) in
     cell_at t' (cursor_y t') (cursor_x t' - 1)
       = cell.mk c (fg_color t) (bg_color t) (bold t) /\
     (0 <= cursor_y t' < TERM_ROWS) /\ (0 <= cursor_x t' - 1 < TERM_COLS) /\
     normal_idle t' /\
     (cursor_x t < TERM_COLS ->
      cursor_y t' = cursor_y t /\ cursor_x t' = cursor_x t + 1)).
  { intros t c Hn Ha Hc Hlo [Hhi _]. cbv zeta.
    destruct (feed_utf8_encode t c Hn Ha ltac:(lia)) as (buf & n & E). rewrite E.
    destruct (putchar_writes c (with_utf8 buf n t) cols_range rows_range Hc)
      as (P1 & P2 & P3 & P4).
    repeat split; try apply P1; try apply P2; try apply P3; try (apply P4; assumption).
    cbn [state set_utf8_buf_len]. rewrite putchar_state. apply Hn. }
  split; [exact G|].
  destruct term_init_fields as (I1 & I2 & I3 & I4 & I5 & I6 & I7 & I8 & I9 & I10 & I11 & _).
  pose proof rows_range as HR. pose proof cols_range as HC.
  assert (Hn : normal_idle term_init) by (split; assumption).
  assert (Ha : arrays_ok term_init) by (split; [rewrite I7|rewrite I8]; reflexivity).
  assert (Hc : cursor_ok term_init)
    by (unfold cursor_ok; rewrite I1, I2, I4; lia).
  destruct (G term_init 0x4E2D Hn Ha Hc ltac:(lia)
              ltac:(unfold is_scalar_value; lia)) as (P1 & _ & _ & _ & P5).
  change (utf8_encode 0x4E2D) with [0xE4; 0xB8; 0xAD] in *.
  cbv zeta. destruct P5 as [P5 P6]; [lia|].
  rewrite P5, P6 in P1. rewrite P5, P6, I1, I2 in *.
  change (0 + 1 - 1) with 0 in P1. rewrite P1. repeat split.
Qed.

End Utf8RoundTrip.

(** ** Decimal numerals *)

Lemma rev_digits_are_digits (fuel : nat) (n : Z) :
  Forall (fun d => 0 <= d <= 9) (rev_digits fuel n).
Proof.
  revert n. induction fuel as [|fuel IH]; intros n; cbn; [constructor|].
  constructor.
  - pose proof (Z.mod_pos_bound n 10 ltac:(lia)). lia.
  - destruct (n <? 10); [constructor|apply IH].
Qed.

(** Reading the digits back, least significant last, with the arithmetic of
    the parser ([p * 10 + digit] on C ints), gives the number. *)
Lemma rev_digits_value (fuel : nat) :
  forall n, 0 <= n < 10 ^ Z.of_nat fuel -> n < 2 ^ 31 ->
  fold_right (fun d a => wrap_int (a * 10 + d)) 0 (rev_digits fuel n) = n.
Proof.
  induction fuel as [|fuel IH]; intros n Hn Hi.
  - change (10 ^ Z.of_nat 0) with 1 in Hn. assert (n = 0) by lia. subst. reflexivity.
  - cbn [rev_digits fold_right].
    pose proof (Z.div_mod n 10 ltac:(lia)) as Hdm.
    pose proof (Z.mod_pos_bound n 10 ltac:(lia)) as Hm.
    destruct (Z.ltb_spec n 10) as [Hlt|Hge].
    + cbn [fold_right]. rewrite Z.mod_small by lia. apply wrap_int_small. lia.
    + rewrite IH.
      * rewrite wrap_int_small by lia. lia.
      * rewrite Nat2Z.inj_succ, Z.pow_succ_r in Hn by lia.
        split; [apply Z.div_pos; lia|]. apply Z.div_lt_upper_bound; lia.
      * assert (n / 10 <= n) by (apply Z.div_le_upper_bound; lia). lia.
Qed.

Lemma dec_digits_value (n : Z) :
  0 <= n < 2 ^ 31 ->
  fold_left (fun a d => wrap_int (a * 10 + d)) (dec_digits n) 0 = n.
Proof.
  intros Hn. unfold dec_digits.
  rewrite <- (fold_left_rev_right (fun d a => wrap_int (a * 10 + d))).
  rewrite rev_involutive. apply rev_digits_value; [|lia].
  change (10 ^ Z.of_nat 10) with 10000000000. lia.
Qed.

Lemma dec_digits_are_digits (n : Z) : Forall (fun d => 0 <= d <= 9) (dec_digits n).
Proof. unfold dec_digits. apply Forall_rev. apply rev_digits_are_digits. Qed.

Lemma dec_digits_nonempty (n : Z) : dec_digits n <> [].
Proof.
  unfold dec_digits. cbn [rev_digits rev].
  intros H. apply app_eq_nil in H. destruct H as [_ H]. discriminate H.
Qed.

Lemma fmt_d_nonneg (n : Z) : 0 <= n -> fmt_d n = map (fun d => 48 + d) (dec_digits n).
Proof. intros H. unfold fmt_d. destruct (Z.ltb_spec n 0); [lia|reflexivity]. Qed.

(** ** Parameters of a control sequence *)

Lemma term_feed_app t a b : term_feed t (a ++ b) = term_feed (term_feed t a) b.
Proof. apply fold_left_app. Qed.

Lemma set_nth_twice n v w l : set_nth n w (set_nth n v l) = set_nth n w l.
Proof.
  revert n. induction l as [|x r IH]; intros [|n]; cbn; try reflexivity.
  rewrite IH. reflexivity.
Qed.

Lemma set_nth_same n d l : set_nth n (nth n l d) l = l.
Proof.
  revert n. induction l as [|x r IH]; intros [|n]; cbn; try reflexivity.
  rewrite IH. reflexivity.
Qed.

Lemma list_set_twice l i v w : list_set (list_set l i v) i w = list_set l i w.
Proof. unfold list_set. destruct (0 <=? i); [apply set_nth_twice|reflexivity]. Qed.

Lemma list_set_get l i : list_set l i (list_get l i) = l.
Proof.
  unfold list_set, list_get. destruct (0 <=? i); [apply set_nth_same|reflexivity].
Qed.

Lemma set_escape_params_same t : set_escape_params (escape_params t) t = t.
Proof. destruct t; reflexivity. Qed.

(** A digit in CSI state, once a parameter is open. *)
Lemma process_csi_digit t d :
  state t = STATE_CSI -> num_escape_params t <> 0 -> 0 <= d <= 9 ->
  term_process_char t (48 + d) =
    set_escape_params
      (list_set (escape_params t) (num_escape_params t - 1)
         (wrap_int (list_get (escape_params t) (num_escape_params t - 1) * 10 + d))) t.
Proof.
  intros Hs Hn Hd. unfold term_process_char. rewrite Hs. unfold process_csi.
  destruct (Z.geb_spec (48 + d) 48); [|lia].
  destruct (Z.leb_spec (48 + d) 57); [|lia]. cbn [andb]. cbv zeta.
  destruct (Z.eqb_spec (num_escape_params t) 0); [contradiction|].
  replace (48 + d - 48) with d by lia. reflexivity.
Qed.

(** The first digit of a sequence opens the first parameter. *)
Lemma process_csi_first_digit t d :
  state t = STATE_CSI -> num_escape_params t = 0 -> 0 <= d <= 9 ->
  term_process_char t (48 + d) =
    term_process_char (set_num_escape_params 1 t) (48 + d).
Proof.
  intros Hs Hn Hd. unfold term_process_char. cbn [state set_num_escape_params].
  rewrite Hs. unfold process_csi.
  destruct (Z.geb_spec (48 + d) 48); [|lia].
  destruct (Z.leb_spec (48 + d) 57); [|lia]. cbn [andb]. cbv zeta.
  cbn [num_escape_params set_num_escape_params]. rewrite Hn. reflexivity.
Qed.

Lemma feed_csi_digits ds :
  Forall (fun d => 0 <= d <= 9) ds ->
  forall t,
    state t = STATE_CSI -> 1 <= num_escape_params t <= 16 ->
    length (escape_params t) = 16%nat ->
    term_feed t (map (fun d => 48 + d) ds) =
      set_escape_params
        (list_set (escape_params t) (num_escape_params t - 1)
           (fold_left (fun a d => wrap_int (a * 10 + d)) ds
              (list_get (escape_params t) (num_escape_params t - 1)))) t.
Proof.
  induction 1 as [|d ds Hd Hds IH]; intros t Hs Hn Hl.
  - cbn. rewrite list_set_get, set_escape_params_same. reflexivity.
  - cbn [map fold_left term_feed].
    rewrite process_csi_digit by (assumption || lia).
    fold (term_feed
            (set_escape_params
               (list_set (escape_params t) (num_escape_params t - 1)
                  (wrap_int (list_get (escape_params t) (num_escape_params t - 1) * 10 + d)))
               t) (map (fun d => 48 + d) ds)).
    rewrite IH; cbn [state num_escape_params escape_params set_escape_params];
      try assumption; [|rewrite list_set_length; exact Hl].
    rewrite list_get_set_same by (rewrite Hl; lia).
    rewrite list_set_twice. reflexivity.
Qed.

(** A whole decimal numeral as the first parameter. *)
Lemma feed_csi_first_number t v :
  state t = STATE_CSI -> num_escape_params t = 0 ->
  escape_params t = repeat 0 16 -> 0 <= v < 2 ^ 31 ->
  term_feed t (fmt_d v) =
    set_escape_params (v :: repeat 0 15) (set_num_escape_params 1 t).
Proof.
  intros Hs Hn Hp Hv. rewrite fmt_d_nonneg by lia.
  pose proof (dec_digits_are_digits v) as Hd.
  pose proof (dec_digits_value v Hv) as Hval.
  destruct (dec_digits v) as [|d ds] eqn:E; [exfalso; eapply dec_digits_nonempty; eauto|].
  assert (Hd0 : 0 <= d <= 9) by (inversion Hd; assumption).
  change (term_feed t (map (fun d => 48 + d) (d :: ds)))
    with (term_feed (term_process_char t (48 + d)) (map (fun d => 48 + d) ds)).
  rewrite process_csi_first_digit by assumption.
  change (term_feed (term_process_char (set_num_escape_params 1 t) (48 + d))
            (map (fun d => 48 + d) ds))
    with (term_feed (set_num_escape_params 1 t) (map (fun d => 48 + d) (d :: ds))).
  rewrite (feed_csi_digits (d :: ds) Hd);
    cbn [state num_escape_params escape_params set_num_escape_params];
    try assumption; try lia; [|rewrite Hp; reflexivity].
  rewrite Hp. change (1 - 1) with 0. change (list_get (repeat 0 16) 0) with 0.
  rewrite Hval. reflexivity.
Qed.

(** A whole decimal numeral as the second parameter. *)
Lemma feed_csi_second_number t a v :
  state t = STATE_CSI -> num_escape_params t = 2 ->
  escape_params t = a :: repeat 0 15 -> 0 <= v < 2 ^ 31 ->
  term_feed t (fmt_d v) = set_escape_params (a :: v :: repeat 0 14) t.
Proof.
  intros Hs Hn Hp Hv. rewrite fmt_d_nonneg by lia.
  rewrite (feed_csi_digits _ (dec_digits_are_digits v)); try assumption; try lia;
    [|rewrite Hp; reflexivity].
  rewrite Hn, Hp. change (2 - 1) with 1.
  change (list_get (a :: repeat 0 15) 1) with 0.
  rewrite dec_digits_value by assumption. reflexivity.
Qed.

(** ** Control sequences, byte by byte *)

Lemma feed_esc_bracket t :
  state t = STATE_NORMAL -> term_feed t [27; 91] = csi_entered t.
Proof.
  intros Hs. cbn [term_feed fold_left]. unfold term_process_char at 2. rewrite Hs.
  unfold process_normal. cbn [Z.eqb Pos.eqb].
  unfold term_process_char. cbn [state set_utf8_buf_len set_escape_buf_len set_state].
  reflexivity.
Qed.

Lemma process_csi_semicolon t :
  state t = STATE_CSI -> num_escape_params t < MAX_ESCAPE_PARAMS ->
  term_process_char t 59 = set_num_escape_params (num_escape_params t + 1) t.
Proof.
  intros Hs Hn. unfold term_process_char. rewrite Hs. unfold process_csi.
  cbn [Z.geb Z.leb Z.eqb Z.compare Pos.compare Pos.compare_cont Pos.eqb andb].
  destruct (Z.ltb_spec (num_escape_params t) MAX_ESCAPE_PARAMS); [reflexivity|lia].
Qed.

(** A final byte in CSI state dispatches and returns to Normal. *)
Lemma process_csi_final t ch :
  state t = STATE_CSI -> 64 <= ch <= 126 ->
  term_process_char t ch =
    set_private_mode 0 (set_state STATE_NORMAL (term_handle_csi ch t)).
Proof.
  intros Hs Hch. unfold term_process_char. rewrite Hs. unfold process_csi.
  destruct (Z.geb_spec ch 48); [|lia].
  destruct (Z.leb_spec ch 57); [lia|]. cbn [andb].
  destruct (Z.eqb_spec ch 59); [lia|]. destruct (Z.eqb_spec ch 63); [lia|].
  destruct (Z.geb_spec ch 64); [|lia]. destruct (Z.leb_spec ch 126); [|lia].
  reflexivity.
Qed.

Lemma cursor_position_in_grid t y x :
  num_escape_params t = 2 -> escape_params t = y :: x :: repeat 0 14 ->
  1 <= y <= TERM_ROWS -> 1 <= x <= TERM_COLS ->
  csi_cursor_position t = set_cursor_x (x - 1) (set_cursor_y (y - 1) t).
Proof.
  intros Hn Hp Hy Hx. unfold csi_cursor_position, csi_pos. cbv zeta.
  cbn [num_escape_params escape_params cursor_x cursor_y set_cursor_x set_cursor_y].
  rewrite Hn, Hp.
  change (list_get (y :: x :: repeat 0 14) 0) with y.
  change (list_get (y :: x :: repeat 0 14) 1) with x.
  change (2 >? 0) with true. change (2 >? 1) with true. cbn [andb].
  destruct (Z.gtb_spec y 0); [|lia]. destruct (Z.gtb_spec x 0); [|lia].
  cbn [cursor_x cursor_y set_cursor_x set_cursor_y].
  destruct (Z.geb_spec (y - 1) TERM_ROWS); [lia|].
  cbn [cursor_x cursor_y set_cursor_x set_cursor_y].
  destruct (Z.geb_spec (x - 1) TERM_COLS); [lia|]. reflexivity.
Qed.

(** Delete Characters, as the two passes over the columns it visits: the
    copies, then the blanks; the second pass starts at [TERM_COLS - count]
    whatever the count is. *)
Lemma csi_delete_chars_columns t :
  csi_delete_chars t =
    fold_left (fun s x => blank_cell (cursor_y s) x s)
      (up_indices (TERM_COLS - csi_count t) TERM_COLS)
      (fold_left
         (fun s x => copy_cell (cursor_y s) x (wrap_int (x + csi_count t)) s)
         (up_indices (cursor_x t) (TERM_COLS - csi_count t)) t).
Proof.
  unfold csi_delete_chars. cbv zeta. rewrite !for_up_as_fold. reflexivity.
Qed.

Section CursorReport.

Hypothesis cols_range : 40 <= TERM_COLS <= MAX_TERM_COLS.
Hypothesis rows_range : 10 <= TERM_ROWS <= MAX_TERM_ROWS.

(** C4.  For every row [y] in [1 .. rows] and column [x] in [1 .. cols], in
    Normal state and with a PTY master attached, processing ESC [ y ; x H
    puts the cursor at row [y - 1], column [x - 1] and writes nothing; the
    following ESC [ 6 n then writes to the PTY master exactly the bytes
    ESC [ y ; x R, the numbers in decimal. *)
Theorem cursor_position_report_round_trip :
  forall t y x,
    state t = STATE_NORMAL -> 0 <= master_fd t ->
    1 <= y <= TERM_ROWS -> 1 <= x <= TERM_COLS ->
    let t1 := term_feed t ([27; 91] ++ fmt_d y ++ [59] ++ fmt_d x ++ [72]) in
    let t2 := term_feed t1 [27; 91; 54; 110] in
    cursor_y t1 = y - 1 /\ cursor_x t1 = x - 1 /\ pty_out t1 = pty_out t /\
    pty_out t2 = pty_out t ++ ([27; 91] ++ fmt_d y ++ [59] ++ fmt_d x ++ [82]).
Proof.
  intros t y x Hs Hfd Hy Hx.
  pose proof cols_range as HC. pose proof rows_range as HR.
  unfold MAX_TERM_COLS in HC. unfold MAX_TERM_ROWS in HR.
  assert (E1 : term_feed t ([27; 91] ++ fmt_d y ++ [59] ++ fmt_d x ++ [72]) =
               set_private_mode 0 (set_state STATE_NORMAL
                 (set_cursor_x (x - 1) (set_cursor_y (y - 1)
                   (set_escape_params (y :: x :: repeat 0 14)
                     (set_num_escape_params 2
                       (set_escape_params (y :: repeat 0 15)
                         (set_num_escape_params 1 (csi_entered t))))))))).
  { rewrite term_feed_app, feed_esc_bracket by assumption.
    rewrite term_feed_app, (feed_csi_first_number (csi_entered t) y);
      try reflexivity; try lia.
    set (a := set_escape_params (y :: repeat 0 15) _).
    rewrite term_feed_app. change (term_feed a [59]) with (term_process_char a 59).
    rewrite (process_csi_semicolon a) by (try reflexivity; cbn; unfold MAX_ESCAPE_PARAMS; lia).
    change (num_escape_params a + 1) with 2.
    rewrite term_feed_app, (feed_csi_second_number (set_num_escape_params 2 a) y x);
      try reflexivity; try lia.
    set (b := set_escape_params (y :: x :: repeat 0 14) _).
    change (term_feed b [72]) with (term_process_char b 72).
    rewrite (process_csi_final b 72) by (try reflexivity; lia).
    change (term_handle_csi 72 b) with (csi_cursor_position b).
    rewrite (cursor_position_in_grid b y x) by (try reflexivity; lia).
    reflexivity. }
  cbv zeta. rewrite E1.
  set (t1 := set_private_mode 0 _).
  split; [reflexivity|]. split; [reflexivity|]. split; [reflexivity|].
  change [27; 91; 54; 110] with ([27; 91] ++ fmt_d 6 ++ [110]).
  rewrite term_feed_app, feed_esc_bracket by reflexivity.
  rewrite term_feed_app, (feed_csi_first_number (csi_entered t1) 6);
    try reflexivity; try lia.
  set (c := set_escape_params (6 :: repeat 0 15) _).
  change (term_feed c [110]) with (term_process_char c 110).
  rewrite (process_csi_final c 110) by (try reflexivity; lia).
  change (term_handle_csi 110 c) with (csi_device_status c).
  unfold csi_device_status, pty_write. cbv zeta.
  change (num_escape_params c) with 1.
  change (list_get (escape_params c) 0) with 6.
  change ((1 >? 0) && (6 =? 6)) with true. cbv iota.
  change (master_fd c) with (master_fd t).
  destruct (Z.geb_spec (master_fd t) 0); [|lia].
  cbn [pty_out set_private_mode set_state].
  change (pty_out c) with (pty_out t).
  change (cursor_y c) with (y - 1). change (cursor_x c) with (x - 1).
  replace (y - 1 + 1) with y by lia. replace (x - 1 + 1) with x by lia.
  rewrite !wrap_int_small by lia. reflexivity.
Qed.

End CursorReport.

(** ** Cells after the row and span loops *)

Section Scrolling.

Hypothesis cols_range : 40 <= TERM_COLS <= MAX_TERM_COLS.
Hypothesis rows_range : 10 <= TERM_ROWS <= MAX_TERM_ROWS.

Lemma copy_row_cell d s t y x :
  0 <= x < TERM_COLS ->
  cell_at (copy_row d s t) y x = if y =? d then cell_at t s x else cell_at t y x.
Proof.
  intros Hx. pose proof cols_range as HC. unfold MAX_TERM_COLS in HC.
  unfold cell_at, copy_row, cell_index, MAX_TERM_COLS.
  cbn [cells set_cells].
  destruct (Z.eqb_spec y d) as [->|Hne].
  - destruct (Z.leb_spec (d * 500 + 0) (d * 500 + x)); [|lia].
    destruct (Z.ltb_spec (d * 500 + x) (d * 500 + 0 + TERM_COLS)); [|lia].
    cbn [andb]. f_equal. lia.
  - destruct (Z.leb_spec (d * 500 + 0) (y * 500 + x));
      destruct (Z.ltb_spec (y * 500 + x) (d * 500 + 0 + TERM_COLS));
      cbn [andb]; try reflexivity. lia.
Qed.

Lemma blank_span_row_cell y0 t y x :
  0 <= x < TERM_COLS ->
  cell_at (blank_span y0 0 TERM_COLS t) y x =
    if y =? y0
    then cell.mk 32 (fg_color t) (bg_color t) (cell.bold (cell_at t y x))
    else cell_at t y x.
Proof.
  intros Hx. pose proof cols_range as HC. unfold MAX_TERM_COLS in HC.
  unfold blank_span, for_up.
  pose proof (for_count_invariant
    (fun j s => same_but_cells t s /\
                forall x', 0 <= x' < TERM_COLS -> forall y',
                  cell_at s y' x' =
                    if (y' =? y0) && (x' <? j)
                    then cell.mk 32 (fg_color t) (bg_color t) (cell.bold (cell_at t y' x'))
                    else cell_at t y' x')
    (blank_cell y0) 1 (Z.to_nat (TERM_COLS - 0)) 0 t) as Hinv.
  cbv beta in Hinv.
  destruct Hinv as [_ Hinv].
  - split; [apply same_but_cells_refl|].
    intros x' Hx' y'. destruct (Z.ltb_spec x' 0); [lia|].
    rewrite andb_false_r. reflexivity.
  - intros k s Hk [Hf Hc]. split.
    + eapply same_but_cells_trans; [exact Hf|apply same_but_cells_blank_cell].
    + intros x' Hx' y'. unfold blank_cell.
      assert (Efg : fg_color s = fg_color t) by (frame_fields Hf).
      assert (Ebg : bg_color s = bg_color t) by (frame_fields Hf).
      rewrite Efg, Ebg.
      unfold cell_at at 1. unfold store_cell. cbn [cells set_cells].
      fold (cell_at s y' x').
      unfold cell_index, MAX_TERM_COLS.
      destruct (Z.eqb_spec (y' * 500 + x') (y0 * 500 + (0 + Z.of_nat k * 1))) as [E|E].
      * assert (y' = y0 /\ x' = 0 + Z.of_nat k * 1) as [-> ->] by lia.
        rewrite Z.eqb_refl.
        destruct (Z.ltb_spec (0 + Z.of_nat k * 1) (0 + Z.of_nat (S k) * 1)); [|lia].
        cbn [andb]. rewrite (Hc _ Hx' y0). rewrite Z.eqb_refl.
        destruct (Z.ltb_spec (0 + Z.of_nat k * 1) (0 + Z.of_nat k * 1)); [lia|].
        reflexivity.
      * rewrite (Hc _ Hx' y').
        destruct (Z.eqb_spec y' y0) as [->|Hy]; [|reflexivity]. cbn [andb].
        destruct (Z.ltb_spec x' (0 + Z.of_nat k * 1));
          destruct (Z.ltb_spec x' (0 + Z.of_nat (S k) * 1)); try reflexivity; lia.
  - rewrite (Hinv x Hx y).
    destruct (Z.ltb_spec x (0 + Z.of_nat (Z.to_nat (TERM_COLS - 0)) * 1)); [|lia].
    rewrite andb_true_r. reflexivity.
Qed.

Lemma copy_rows_up_cell lo hi t y x :
  0 <= x < TERM_COLS ->
  cell_at (for_up lo hi (fun y => copy_row y (y + 1)) t) y x =
    if (lo <=? y) && (y <? hi) then cell_at t (y + 1) x else cell_at t y x.
Proof.
  intros Hx. unfold for_up.
  destruct (Z.le_gt_cases hi lo) as [Hle|Hgt].
  { replace (Z.to_nat (hi - lo)) with O by lia. cbn [for_count].
    destruct (Z.leb_spec lo y); destruct (Z.ltb_spec y hi); try reflexivity; lia. }
  pose proof (for_count_invariant
    (fun j s => forall x', 0 <= x' < TERM_COLS -> forall y',
                  cell_at s y' x' =
                    if (lo <=? y') && (y' <? j) then cell_at t (y' + 1) x'
                    else cell_at t y' x')
    (fun y => copy_row y (y + 1)) 1 (Z.to_nat (hi - lo)) lo t) as Hinv.
  cbv beta in Hinv.
  rewrite Hinv; [| | |exact Hx].
  - replace (lo + Z.of_nat (Z.to_nat (hi - lo)) * 1) with hi by lia. reflexivity.
  - intros x' Hx' y'.
    destruct (Z.leb_spec lo y'); destruct (Z.ltb_spec y' lo); try reflexivity; lia.
  - intros k s Hk Hc x' Hx' y'. rewrite copy_row_cell by exact Hx'.
    rewrite !Hc by exact Hx'.
    destruct (Z.eqb_spec y' (lo + Z.of_nat k * 1)) as [->|Hne].
    + destruct (Z.leb_spec lo (lo + Z.of_nat k * 1 + 1)); [|lia].
      destruct (Z.ltb_spec (lo + Z.of_nat k * 1 + 1) (lo + Z.of_nat k * 1)); [lia|].
      destruct (Z.leb_spec lo (lo + Z.of_nat k * 1)); [|lia].
      destruct (Z.ltb_spec (lo + Z.of_nat k * 1) (lo + Z.of_nat (S k) * 1)); [|lia].
      reflexivity.
    + destruct (Z.leb_spec lo y'); cbn [andb]; [|reflexivity].
      destruct (Z.ltb_spec y' (lo + Z.of_nat k * 1));
        destruct (Z.ltb_spec y' (lo + Z.of_nat (S k) * 1)); try reflexivity; lia.
Qed.

Lemma copy_rows_down_cell hi lo t y x :
  0 <= x < TERM_COLS ->
  cell_at (for_down hi lo (fun y => copy_row y (y - 1)) t) y x =
    if (lo <? y) && (y <=? hi) then cell_at t (y - 1) x else cell_at t y x.
Proof.
  intros Hx. unfold for_down.
  destruct (Z.le_gt_cases hi lo) as [Hle|Hgt].
  { replace (Z.to_nat (hi - lo)) with O by lia. cbn [for_count].
    destruct (Z.ltb_spec lo y); destruct (Z.leb_spec y hi); try reflexivity; lia. }
  pose proof (for_count_invariant
    (fun j s => forall x', 0 <= x' < TERM_COLS -> forall y',
                  cell_at s y' x' =
                    if (j <? y') && (y' <=? hi) then cell_at t (y' - 1) x'
                    else cell_at t y' x')
    (fun y => copy_row y (y - 1)) (-1) (Z.to_nat (hi - lo)) hi t) as Hinv.
  cbv beta in Hinv.
  rewrite Hinv; [| | |exact Hx].
  - replace (hi + Z.of_nat (Z.to_nat (hi - lo)) * -1) with lo by lia. reflexivity.
  - intros x' Hx' y'.
    destruct (Z.ltb_spec hi y'); destruct (Z.leb_spec y' hi); try reflexivity; lia.
  - intros k s Hk Hc x' Hx' y'. rewrite copy_row_cell by exact Hx'.
    rewrite !Hc by exact Hx'.
    destruct (Z.eqb_spec y' (hi + Z.of_nat k * -1)) as [->|Hne].
    + destruct (Z.ltb_spec (hi + Z.of_nat k * -1) (hi + Z.of_nat k * -1 - 1)); [lia|].
      destruct (Z.ltb_spec (hi + Z.of_nat (S k) * -1) (hi + Z.of_nat k * -1)); [|lia].
      destruct (Z.leb_spec (hi + Z.of_nat k * -1) hi); [|lia].
      reflexivity.
    + destruct (Z.leb_spec y' hi); [|rewrite !andb_false_r; reflexivity].
      rewrite !andb_true_r.
      destruct (Z.ltb_spec (hi + Z.of_nat k * -1) y');
        destruct (Z.ltb_spec (hi + Z.of_nat (S k) * -1) y'); try reflexivity; lia.
Qed.

(** One scroll-up of the region: rows move up by one, the bottom row is
    blanked in the current colours and keeps its bold flags. *)
Lemma scroll_up_cell t y x :
  0 <= x < TERM_COLS ->
  cell_at (term_scroll_up t) y x =
    if y =? scroll_bottom t
    then cell.mk 32 (fg_color t) (bg_color t) (cell.bold (cell_at t y x))
    else if (scroll_top t <=? y) && (y <? scroll_bottom t)
         then cell_at t (y + 1) x else cell_at t y x.
Proof.
  intros Hx. unfold term_scroll_up. cbv zeta.
  set (t1 := for_up (scroll_top t) (scroll_bottom t) (fun y => copy_row y (y + 1)) t).
  assert (Hf : same_but_cells t t1)
    by (apply same_but_cells_for_count; intros; apply same_but_cells_copy_row).
  assert (E1 : scroll_bottom t1 = scroll_bottom t) by (frame_fields Hf).
  assert (E2 : fg_color t1 = fg_color t) by (frame_fields Hf).
  assert (E3 : bg_color t1 = bg_color t) by (frame_fields Hf).
  rewrite blank_span_row_cell by exact Hx. rewrite E1, E2, E3.
  unfold t1. rewrite copy_rows_up_cell by exact Hx.
  destruct (Z.eqb_spec y (scroll_bottom t)) as [->|Hne]; [|reflexivity].
  destruct (Z.ltb_spec (scroll_bottom t) (scroll_bottom t)); [lia|].
  rewrite andb_false_r. reflexivity.
Qed.

(** One scroll-down of the region, the mirror image. *)
Lemma scroll_down_cell t y x :
  0 <= x < TERM_COLS ->
  cell_at (term_scroll_down t) y x =
    if y =? scroll_top t
    then cell.mk 32 (fg_color t) (bg_color t) (cell.bold (cell_at t y x))
    else if (scroll_top t <? y) && (y <=? scroll_bottom t)
         then cell_at t (y - 1) x else cell_at t y x.
Proof.
  intros Hx. unfold term_scroll_down. cbv zeta.
  set (t1 := for_down (scroll_bottom t) (scroll_top t) (fun y => copy_row y (y - 1)) t).
  assert (Hf : same_but_cells t t1)
    by (apply same_but_cells_for_count; intros; apply same_but_cells_copy_row).
  assert (E1 : scroll_top t1 = scroll_top t) by (frame_fields Hf).
  assert (E2 : fg_color t1 = fg_color t) by (frame_fields Hf).
  assert (E3 : bg_color t1 = bg_color t) by (frame_fields Hf).
  rewrite blank_span_row_cell by exact Hx. rewrite E1, E2, E3.
  unfold t1. rewrite copy_rows_down_cell by exact Hx.
  destruct (Z.eqb_spec y (scroll_top t)) as [->|Hne]; [|reflexivity].
  destruct (Z.ltb_spec (scroll_top t) (scroll_top t)); [lia|].
  cbn [andb]. reflexivity.
Qed.

Lemma scroll_up_same_sgr_region t : same_sgr_region t (term_scroll_up t).
Proof.
  destruct (scroll_up_fields t) as (_ & _ & E3 & E4 & _ & E6 & E7).
  repeat split; assumption.
Qed.

Lemma scroll_down_same_sgr_region t : same_sgr_region t (term_scroll_down t).
Proof.
  destruct (scroll_down_fields t) as (_ & _ & E3 & E4 & _ & E6 & E7).
  repeat split; assumption.
Qed.

(** [k] scroll-ups in a row: the rows that stay in the region come from
    [k] rows below, the last [k] rows are blank. *)
Lemma scroll_ups_cells t k :
  0 <= k ->
  let s := for_up 0 k (fun _ => term_scroll_up) t in
  same_sgr_region t s /\
  forall y x, 0 <= x < TERM_COLS -> scroll_top t <= y <= scroll_bottom t ->
    (y + k <= scroll_bottom t -> cell_at s y x = cell_at t (y + k) x) /\
    (scroll_bottom t < y + k -> blank_in_sgr t (cell_at s y x)).
Proof.
  intros Hk. cbv zeta. unfold for_up.
  pose proof (for_count_invariant
    (fun j s => same_sgr_region t s /\
       forall y x, 0 <= x < TERM_COLS -> scroll_top t <= y <= scroll_bottom t ->
         (y + j <= scroll_bottom t -> cell_at s y x = cell_at t (y + j) x) /\
         (scroll_bottom t < y + j -> blank_in_sgr t (cell_at s y x)))
    (fun _ => term_scroll_up) 1 (Z.to_nat (k - 0)) 0 t) as Hinv.
  cbv beta in Hinv.
  replace (0 + Z.of_nat (Z.to_nat (k - 0)) * 1) with k in Hinv by lia.
  apply Hinv; clear Hinv.
  - split; [repeat split|]. intros y x Hx Hy. split; [|lia].
    intros _. f_equal. lia.
  - intros j s Hj [(F1 & F2 & F3 & F4) Hc].
    destruct (scroll_up_same_sgr_region s) as (G1 & G2 & G3 & G4).
    split; [repeat split; congruence|].
    intros y x Hx Hy. rewrite scroll_up_cell by exact Hx.
    rewrite F1, F2, F3, F4.
    destruct (Z.eqb_spec y (scroll_bottom t)) as [->|Hne].
    + split; [lia|]. intros _. repeat split.
    + destruct (Z.leb_spec (scroll_top t) y); [|lia].
      destruct (Z.ltb_spec y (scroll_bottom t)); [|lia]. cbn [andb].
      destruct (Hc (y + 1) x Hx ltac:(lia)) as [Ha Hb].
      split; intros H1.
      * rewrite Ha by lia. f_equal. lia.
      * apply Hb. lia.
Qed.

(** [k] scroll-downs in a row: the rows that stay in the region come from
    [k] rows above, the first [k] rows are blank. *)
Lemma scroll_downs_cells t k :
  0 <= k ->
  let s := for_up 0 k (fun _ => term_scroll_down) t in
  same_sgr_region t s /\
  forall y x, 0 <= x < TERM_COLS -> scroll_top t <= y <= scroll_bottom t ->
    (scroll_top t <= y - k -> cell_at s y x = cell_at t (y - k) x) /\
    (y - k < scroll_top t -> blank_in_sgr t (cell_at s y x)).
Proof.
  intros Hk. cbv zeta. unfold for_up.
  pose proof (for_count_invariant
    (fun j s => same_sgr_region t s /\
       forall y x, 0 <= x < TERM_COLS -> scroll_top t <= y <= scroll_bottom t ->
         (scroll_top t <= y - j -> cell_at s y x = cell_at t (y - j) x) /\
         (y - j < scroll_top t -> blank_in_sgr t (cell_at s y x)))
    (fun _ => term_scroll_down) 1 (Z.to_nat (k - 0)) 0 t) as Hinv.
  cbv beta in Hinv.
  replace (0 + Z.of_nat (Z.to_nat (k - 0)) * 1) with k in Hinv by lia.
  apply Hinv; clear Hinv.
  - split; [repeat split|]. intros y x Hx Hy. split; [|lia].
    intros _. f_equal. lia.
  - intros j s Hj [(F1 & F2 & F3 & F4) Hc].
    destruct (scroll_down_same_sgr_region s) as (G1 & G2 & G3 & G4).
    split; [repeat split; congruence|].
    intros y x Hx Hy. rewrite scroll_down_cell by exact Hx.
    rewrite F1, F2, F3, F4.
    destruct (Z.eqb_spec y (scroll_top t)) as [->|Hne].
    + split; [lia|]. intros _. repeat split.
    + destruct (Z.ltb_spec (scroll_top t) y); [|lia].
      destruct (Z.leb_spec y (scroll_bottom t)); [|lia]. cbn [andb].
      destruct (Hc (y - 1) x Hx ltac:(lia)) as [Ha Hb].
      split; intros H1.
      * rewrite Ha by lia. f_equal. lia.
      * apply Hb. lia.
Qed.

(** ESC [ k S and ESC [ k T, byte by byte. *)
Lemma feed_csi_scroll t k final :
  state t = STATE_NORMAL -> 1 <= k < 2 ^ 31 -> final = 83 \/ final = 84 ->
  term_feed t ([27; 91] ++ fmt_d k ++ [final]) =
    set_private_mode 0
      (set_state STATE_NORMAL
         (for_up 0 k
            (fun _ => if final =? 83 then term_scroll_up else term_scroll_down)
            (set_escape_params (k :: repeat 0 15)
               (set_num_escape_params 1 (csi_entered t))))).
Proof.
  intros Hs Hk Hf.
  rewrite term_feed_app, feed_esc_bracket by assumption.
  rewrite term_feed_app, (feed_csi_first_number (csi_entered t) k);
    try reflexivity; try lia.
  set (a := set_escape_params (k :: repeat 0 15) _).
  change (term_feed a [final]) with (term_process_char a final).
  rewrite (process_csi_final a final) by (try reflexivity; lia).
  assert (Hc : csi_count a = k).
  { unfold csi_count. change (num_escape_params a) with 1.
    change (list_get (escape_params a) 0) with k.
    destruct (Z.gtb_spec k 0); [reflexivity|lia]. }
  destruct Hf as [-> | ->].
  - change (term_handle_csi 83 a) with (csi_scroll_up a).
    unfold csi_scroll_up. rewrite Hc. reflexivity.
  - change (term_handle_csi 84 a) with (csi_scroll_down a).
    unfold csi_scroll_down. rewrite Hc. reflexivity.
Qed.

(** C8 (amended).  For every [k >= 1] not exceeding the height of the scroll
    region, ESC [ k S immediately followed by ESC [ k T leaves every cell of
    the region below its first [k] rows exactly as it was, and leaves the
    first [k] rows blank in the current SGR colours.  Hence, when the first
    [k] rows were blank in the current SGR colours beforehand, every cell of
    the region has its code point, foreground and background restored. *)
Theorem scroll_up_then_down_restores :
  forall t k,
    state t = STATE_NORMAL -> region_ok t ->
    1 <= k <= scroll_bottom t - scroll_top t + 1 ->
    let t' := term_feed t (([27; 91] ++ fmt_d k ++ [83])
                            ++ ([27; 91] ++ fmt_d k ++ [84])) in
    (forall y x, 0 <= x < TERM_COLS ->
       scroll_top t + k <= y <= scroll_bottom t ->
       cell_at t' y x = cell_at t y x) /\
    (forall y x, 0 <= x < TERM_COLS ->
       scroll_top t <= y < scroll_top t + k ->
       blank_in_sgr t (cell_at t' y x)) /\
    ((forall y x, 0 <= x < TERM_COLS ->
        scroll_top t <= y < scroll_top t + k ->
        blank_in_sgr t (cell_at t y x)) ->
     forall y x, 0 <= x < TERM_COLS ->
       scroll_top t <= y <= scroll_bottom t ->
       cell.codepoint (cell_at t' y x) = cell.codepoint (cell_at t y x) /\
       cell.fg_color (cell_at t' y x) = cell.fg_color (cell_at t y x) /\
       cell.bg_color (cell_at t' y x) = cell.bg_color (cell_at t y x)).
Proof.
  intros t k Hs (R1 & R2 & R3) Hk.
  pose proof rows_range as HR. unfold MAX_TERM_ROWS in HR.
  cbv zeta. rewrite term_feed_app.
  rewrite (feed_csi_scroll t k 83) by (try assumption; try lia; left; reflexivity).
  change (83 =? 83) with true. cbv iota.
  set (a := set_escape_params (k :: repeat 0 15)
              (set_num_escape_params 1 (csi_entered t))).
  destruct (scroll_ups_cells a k ltac:(lia)) as [(U1 & U2 & U3 & U4) Uc].
  set (u := for_up 0 k (fun _ => term_scroll_up) a) in *.
  set (t1 := set_private_mode 0 (set_state STATE_NORMAL u)).
  rewrite (feed_csi_scroll t1 k 84) by (try reflexivity; try lia; right; reflexivity).
  change (84 =? 83) with false. cbv iota.
  set (b := set_escape_params (k :: repeat 0 15)
              (set_num_escape_params 1 (csi_entered t1))).
  destruct (scroll_downs_cells b k ltac:(lia)) as [(D1 & D2 & D3 & D4) Dc].
  set (d := for_up 0 k (fun _ => term_scroll_down) b) in *.
  change (fg_color b) with (fg_color u) in *.
  change (bg_color b) with (bg_color u) in *.
  change (scroll_top b) with (scroll_top u) in *.
  change (scroll_bottom b) with (scroll_bottom u) in *.
  change (fg_color a) with (fg_color t) in *.
  change (bg_color a) with (bg_color t) in *.
  change (scroll_top a) with (scroll_top t) in *.
  change (scroll_bottom a) with (scroll_bottom t) in *.
  rewrite U3, U4 in Dc.
  assert (Keep : forall y x, 0 <= x < TERM_COLS ->
            scroll_top t + k <= y <= scroll_bottom t ->
            cell_at d y x = cell_at t y x).
  { intros y x Hx Hy.
    destruct (Dc y x Hx ltac:(lia)) as [Da _]. rewrite Da by lia.
    change (cell_at b (y - k) x) with (cell_at u (y - k) x).
    destruct (Uc (y - k) x Hx ltac:(lia)) as [Ua _]. rewrite Ua by lia.
    change (cell_at a (y - k + k) x) with (cell_at t (y - k + k) x).
    f_equal. lia. }
  assert (Blank : forall y x, 0 <= x < TERM_COLS ->
            scroll_top t <= y < scroll_top t + k ->
            blank_in_sgr t (cell_at d y x)).
  { intros y x Hx Hy.
    destruct (Dc y x Hx ltac:(lia)) as [_ Db]. specialize (Db ltac:(lia)).
    destruct Db as (B1 & B2 & B3). unfold blank_in_sgr.
    change (fg_color b) with (fg_color u) in B2.
    change (bg_color b) with (bg_color u) in B3.
    rewrite U1 in B2. rewrite U2 in B3. repeat split; assumption. }
  split; [exact Keep|]. split; [exact Blank|].
  intros Hpre y x Hx Hy.
  destruct (Z.lt_ge_cases y (scroll_top t + k)) as [Hlt|Hge].
  - destruct (Blank y x Hx ltac:(lia)) as (B1 & B2 & B3).
    destruct (Hpre y x Hx ltac:(lia)) as (P1 & P2 & P3).
    change (cell_at (set_private_mode 0 (set_state STATE_NORMAL d)) y x)
      with (cell_at d y x).
    repeat split; congruence.
  - change (cell_at (set_private_mode 0 (set_state STATE_NORMAL d)) y x)
      with (cell_at d y x).
    rewrite Keep by (try assumption; lia). repeat split.
Qed.

End Scrolling.

(** * Further properties of the terminal *)

(** ** Whole control sequences *)

Lemma feed_csi_none t final :
  state t = STATE_NORMAL -> 64 <= final <= 126 ->
  term_feed t [27; 91; final] = csi_done (term_handle_csi final (csi_entered t)).
Proof.
  intros Hs Hf. change [27; 91; final] with ([27; 91] ++ [final]).
  rewrite term_feed_app, feed_esc_bracket by assumption.
  change (term_feed (csi_entered t) [final])
    with (term_process_char (csi_entered t) final).
  rewrite process_csi_final by (try reflexivity; lia). reflexivity.
Qed.

Lemma feed_csi_one t v final :
  state t = STATE_NORMAL -> 0 <= v < 2 ^ 31 -> 64 <= final <= 126 ->
  term_feed t ([27; 91] ++ fmt_d v ++ [final]) =
    csi_done (term_handle_csi final (csi_param1 v t)).
Proof.
  intros Hs Hv Hf.
  rewrite term_feed_app, feed_esc_bracket by assumption.
  rewrite term_feed_app, (feed_csi_first_number (csi_entered t) v);
    try reflexivity; try lia.
  fold (csi_param1 v t).
  change (term_feed (csi_param1 v t) [final])
    with (term_process_char (csi_param1 v t) final).
  rewrite process_csi_final by (try reflexivity; lia). reflexivity.
Qed.

Lemma feed_csi_two t v w final :
  state t = STATE_NORMAL -> 0 <= v < 2 ^ 31 -> 0 <= w < 2 ^ 31 ->
  64 <= final <= 126 ->
  term_feed t ([27; 91] ++ fmt_d v ++ [59] ++ fmt_d w ++ [final]) =
    csi_done (term_handle_csi final (csi_param2 v w t)).
Proof.
  intros Hs Hv Hw Hf.
  rewrite term_feed_app, feed_esc_bracket by assumption.
  rewrite term_feed_app, (feed_csi_first_number (csi_entered t) v);
    try reflexivity; try lia.
  fold (csi_param1 v t).
  rewrite term_feed_app.
  change (term_feed (csi_param1 v t) [59])
    with (term_process_char (csi_param1 v t) 59).
  rewrite (process_csi_semicolon (csi_param1 v t))
    by (try reflexivity; cbn; unfold MAX_ESCAPE_PARAMS; lia).
  change (num_escape_params (csi_param1 v t) + 1) with 2.
  rewrite term_feed_app,
    (feed_csi_second_number (set_num_escape_params 2 (csi_param1 v t)) v w);
    try reflexivity; try lia.
  fold (csi_param2 v w t).
  change (term_feed (csi_param2 v w t) [final])
    with (term_process_char (csi_param2 v w t) final).
  rewrite process_csi_final by (try reflexivity; lia). reflexivity.
Qed.

(** ** Settings are changed by six final bytes only *)

Lemma same_settings_refl t : same_settings t t.
Proof. repeat split. Qed.

Lemma same_settings_cells t0 a b :
  same_but_cells a b -> same_settings t0 a -> same_settings t0 b.
Proof.
  intros H Ha. unfold same_but_cells in H. rewrite H. exact Ha.
Qed.

Lemma same_settings_for_count t0 n i step (body : Z -> terminal -> terminal) t :
  (forall k s, same_settings t0 s -> same_settings t0 (body k s)) ->
  same_settings t0 t -> same_settings t0 (for_count n i step body t).
Proof. intros Hb Ht. apply (for_count_preserves (same_settings t0)); assumption. Qed.

Lemma same_settings_scroll_up t0 t :
  same_settings t0 t -> same_settings t0 (term_scroll_up t).
Proof. apply same_settings_cells. apply same_but_cells_scroll_up. Qed.

Lemma same_settings_scroll_down t0 t :
  same_settings t0 t -> same_settings t0 (term_scroll_down t).
Proof. apply same_settings_cells. apply same_but_cells_scroll_down. Qed.

Lemma same_settings_blank_span t0 y lo hi t :
  same_settings t0 t -> same_settings t0 (blank_span y lo hi t).
Proof. apply same_settings_cells. apply same_but_cells_blank_span. Qed.

Lemma same_settings_blank_rows t0 lo hi t :
  same_settings t0 t -> same_settings t0 (blank_rows lo hi t).
Proof.
  intros H. apply same_settings_for_count; [|exact H].
  intros; now apply same_settings_blank_span.
Qed.

Lemma same_settings_newline t0 t :
  same_settings t0 t -> same_settings t0 (term_newline t).
Proof.
  intros H. unfold term_newline. cbv zeta.
  destruct (_ >? _); [apply same_settings_scroll_up|]; exact H.
Qed.

Lemma same_settings_putchar t0 cp t :
  same_settings t0 t -> same_settings t0 (term_putchar cp t).
Proof.
  intros H. unfold term_putchar. cbv zeta.
  assert (H1 : same_settings t0
                 (if cursor_x t >=? TERM_COLS
                  then term_newline (term_carriage_return t) else t)).
  { destruct (_ >=? _); [apply same_settings_newline|]; exact H. }
  destruct (cursor_y _ >=? TERM_ROWS); exact H1.
Qed.

(** Peel the operations that leave the settings alone off a goal. *)
Ltac settings_branches :=
  cbv zeta;
  repeat first
    [ match goal with
      | H : same_settings ?a ?t |- same_settings ?a ?t => exact H
      | |- same_settings _ (if ?c then _ else _) => destruct c
      | |- same_settings _ (for_up _ _ _ _) =>
          apply same_settings_for_count; [intros|]
      | |- same_settings _ (for_down _ _ _ _) =>
          apply same_settings_for_count; [intros|]
      | |- same_settings _ (for_down_ge _ _ _ _) =>
          apply same_settings_for_count; [intros|]
      | |- same_settings ?a (set_cursor_x _ ?e) => change (same_settings a e)
      | |- same_settings ?a (set_cursor_y _ ?e) => change (same_settings a e)
      | |- same_settings ?a (set_state _ ?e) => change (same_settings a e)
      | |- same_settings ?a (set_escape_params _ ?e) => change (same_settings a e)
      | |- same_settings ?a (set_num_escape_params _ ?e) => change (same_settings a e)
      | |- same_settings ?a (set_private_mode _ ?e) => change (same_settings a e)
      | |- same_settings ?a (set_escape_buf_len _ ?e) => change (same_settings a e)
      | |- same_settings ?a (set_utf8_buf_len _ ?e) => change (same_settings a e)
      | |- same_settings ?a (set_utf8_buf _ ?e) => change (same_settings a e)
      | |- same_settings ?a (blank_cell _ _ ?e) => change (same_settings a e)
      | |- same_settings ?a (copy_cell _ _ _ ?e) => change (same_settings a e)
      | |- same_settings ?a (copy_row _ _ ?e) => change (same_settings a e)
      | |- same_settings _ (blank_span _ _ _ _) => apply same_settings_blank_span
      | |- same_settings _ (blank_rows _ _ _) => apply same_settings_blank_rows
      | |- same_settings _ (term_scroll_up _) => apply same_settings_scroll_up
      | |- same_settings _ (term_scroll_down _) => apply same_settings_scroll_down
      | |- same_settings _ (term_newline _) => apply same_settings_newline
      | |- same_settings _ (term_putchar _ _) => apply same_settings_putchar
      end
    | progress cbv beta ].

Lemma same_settings_handle_csi final t :
  ~ In final settings_finals -> same_settings t (term_handle_csi final t).
Proof.
  intros Hf. pose proof (same_settings_refl t) as H.
  assert (N : final <> 109 /\ final <> 104 /\ final <> 108 /\ final <> 114 /\
              final <> 110 /\ final <> 99).
  { unfold settings_finals in Hf. cbn in Hf. repeat split; intros ->; apply Hf; tauto. }
  destruct N as (N1 & N2 & N3 & N4 & N5 & N6).
  unfold term_handle_csi.
  destruct ((final =? 72) || (final =? 102));
    [unfold csi_cursor_position, term_carriage_return; settings_branches|].
  destruct (final =? 65); [unfold csi_cursor_up; settings_branches|].
  destruct (final =? 66); [unfold csi_cursor_down; settings_branches|].
  destruct (final =? 67); [unfold csi_cursor_forward; settings_branches|].
  destruct (final =? 68); [unfold csi_cursor_backward; settings_branches|].
  destruct (final =? 74); [unfold csi_erase_display; settings_branches|].
  destruct (final =? 75); [unfold csi_erase_line; settings_branches|].
  destruct (Z.eqb_spec final 109); [contradiction|].
  destruct (Z.eqb_spec final 104); [contradiction|].
  destruct (Z.eqb_spec final 108); [contradiction|].
  destruct (Z.eqb_spec final 114); [contradiction|].
  destruct (final =? 100); [unfold csi_line_absolute; settings_branches|].
  destruct (final =? 71); [unfold csi_column_absolute; settings_branches|].
  destruct (final =? 83); [unfold csi_scroll_up; settings_branches|].
  destruct (final =? 84); [unfold csi_scroll_down; settings_branches|].
  destruct (final =? 76); [unfold csi_insert_line; settings_branches|].
  destruct (final =? 77); [unfold csi_delete_line; settings_branches|].
  destruct (final =? 88); [unfold csi_erase_chars; settings_branches|].
  destruct (final =? 80); [unfold csi_delete_chars; settings_branches|].
  destruct (final =? 64); [unfold csi_insert_chars; settings_branches|].
  destruct (Z.eqb_spec final 110); [contradiction|].
  destruct (Z.eqb_spec final 99); [contradiction|].
  exact H.
Qed.

Lemma process_char_same_settings t ch :
  (state t = STATE_CSI -> ~ In ch settings_finals) ->
  same_settings t (term_process_char t ch).
Proof.
  intros Hch. pose proof (same_settings_refl t) as H.
  unfold term_process_char. destruct (state t) eqn:Hs.
  - unfold process_normal, normal_printable, term_carriage_return. settings_branches.
  - unfold process_esc. settings_branches.
  - pose proof (same_settings_handle_csi ch t (Hch eq_refl)) as Hh.
    unfold process_csi. settings_branches.
  - unfold process_osc. settings_branches.
Qed.


(** ** Parameters as dispatch sees them *)

Lemma csi_param1_fields v t :
  num_escape_params (csi_param1 v t) = 1 /\
  list_get (escape_params (csi_param1 v t)) 0 = v /\
  cells (csi_param1 v t) = cells t /\
  cursor_x (csi_param1 v t) = cursor_x t /\ cursor_y (csi_param1 v t) = cursor_y t /\
  same_settings t (csi_param1 v t).
Proof. repeat split. Qed.

Lemma csi_param2_fields v w t :
  num_escape_params (csi_param2 v w t) = 2 /\
  list_get (escape_params (csi_param2 v w t)) 0 = v /\
  list_get (escape_params (csi_param2 v w t)) 1 = w /\
  cells (csi_param2 v w t) = cells t /\
  cursor_x (csi_param2 v w t) = cursor_x t /\ cursor_y (csi_param2 v w t) = cursor_y t /\
  same_settings t (csi_param2 v w t).
Proof. repeat split. Qed.

Lemma csi_count_param1 v t : 0 <= v -> csi_count (csi_param1 v t) = Z.max v 1.
Proof.
  intros Hv. unfold csi_count.
  destruct (csi_param1_fields v t) as (-> & -> & _).
  cbn [Z.gtb Z.compare andb].
  destruct (Z.gtb_spec v 0); lia.
Qed.

(** ** Palette and SGR state *)

Lemma palette_24_bit i : 0 <= color_palette i < 2 ^ 24.
Proof.
  destruct (Z_lt_le_dec i 0) as [Hn|Hp].
  - unfold color_palette.
    repeat match goal with
           | |- context [?a =? ?b] => destruct (Z.eqb_spec a b); [lia|]
           end.
    destruct (Z.leb_spec 16 i); [lia|]. destruct (Z.leb_spec 232 i); [lia|].
    cbn. lia.
  - destruct (Z_lt_le_dec i 256) as [Hl|Hg].
    + pose proof (forall_below
        (fun i => (0 <=? color_palette i) && (color_palette i <? 2 ^ 24))
        256 eq_refl i (conj Hp Hl)) as F.
      cbv beta in F. apply andb_prop in F. destruct F as [F1 F2].
      apply Z.leb_le in F1. apply Z.ltb_lt in F2. lia.
    + unfold color_palette.
      repeat match goal with
             | |- context [?a =? ?b] => destruct (Z.eqb_spec a b); [lia|]
             end.
      destruct (Z.ltb_spec i 232); [lia|]. destruct (Z.ltb_spec i 256); [lia|].
      rewrite !andb_false_r. lia.
Qed.

Lemma sgr_ok_same_settings t t' : same_settings t t' -> sgr_ok t -> sgr_ok t'.
Proof.
  intros (Hf & Hb & Hbo & _) H. unfold sgr_ok. rewrite Hf, Hb, Hbo. exact H.
Qed.

Lemma sgr_ok_sgr_param v t : sgr_ok t -> sgr_ok (sgr_param v t).
Proof.
  intros (Hb & Hf & Hg). unfold sgr_param, sgr_reset.
  repeat match goal with
         | |- context [if ?c then _ else _] => destruct c
         end;
    unfold sgr_ok; cbn; repeat split;
    try apply palette_24_bit; try lia; auto.
Qed.

Lemma sgr_ok_csi_sgr t : sgr_ok t -> sgr_ok (csi_sgr t).
Proof.
  intros H. unfold csi_sgr. cbv zeta.
  apply (for_count_preserves sgr_ok).
  - intros; now apply sgr_ok_sgr_param.
  - destruct (_ =? _); [|exact H]. unfold sgr_ok, sgr_reset. cbn. lia.
Qed.

Lemma grid_kept_refl t : grid_kept t t.
Proof. repeat split. Qed.

Lemma grid_kept_pty_write bytes t0 t :
  grid_kept t0 t -> grid_kept t0 (pty_write bytes t).
Proof. intros H. unfold pty_write. destruct (_ >=? _); exact H. Qed.

(** The six final bytes of [settings_finals] keep the grid and the
    cursor. *)
Lemma handle_csi_grid_kept final t :
  In final settings_finals -> grid_kept t (term_handle_csi final t).
Proof.
  intros Hf. pose proof (grid_kept_refl t) as H.
  unfold settings_finals in Hf. cbn in Hf.
  destruct Hf as [<-|[<-|[<-|[<-|[<-|[<-|[]]]]]]];
    cbn [term_handle_csi Z.eqb Pos.eqb orb].
  - unfold csi_sgr. cbv zeta.
    apply (for_count_preserves (grid_kept t)).
    + intros k s Hs. unfold sgr_param, sgr_reset.
      repeat match goal with
             | |- context [if ?c then _ else _] => destruct c
             end; exact Hs.
    + destruct (_ =? _); exact H.
  - unfold csi_set_mode. destruct (_ =? _); [exact H|].
    apply (for_count_preserves (grid_kept t)); [|exact H].
    intros k s Hs. destruct (_ =? _); exact Hs.
  - unfold csi_reset_mode. destruct (_ =? _); [exact H|].
    apply (for_count_preserves (grid_kept t)); [|exact H].
    intros k s Hs. destruct (_ =? _); exact Hs.
  - unfold csi_set_scroll_region. cbv zeta.
    repeat match goal with
           | |- context [if ?c then _ else _] => destruct c
           end; exact H.
  - unfold csi_device_status. cbv zeta.
    repeat match goal with
           | |- grid_kept _ (if ?c then _ else _) => destruct c
           end; try apply grid_kept_pty_write; exact H.
  - unfold csi_device_attrs. apply grid_kept_pty_write; exact H.
Qed.

(** X3.  The final bytes m, h, l, r, n and c of a control sequence never
    change a cell of the grid nor move the cursor, whatever the parameters
    are. *)
Theorem settings_finals_keep_grid_and_cursor :
  forall final t,
    In final settings_finals ->
    grid_kept t (term_handle_csi final t).
Proof. intros final t Hf. apply handle_csi_grid_kept. exact Hf. Qed.

Lemma sgr_ok_handle_csi final t : sgr_ok t -> sgr_ok (term_handle_csi final t).
Proof.
  intros H.
  destruct (in_dec Z.eq_dec final settings_finals) as [Hin|Hout].
  - unfold settings_finals in Hin. cbn in Hin.
    destruct Hin as [<-|[<-|[<-|[<-|[<-|[<-|[]]]]]]];
      cbn [term_handle_csi Z.eqb Pos.eqb orb].
    + now apply sgr_ok_csi_sgr.
    + unfold csi_set_mode. destruct (_ =? _); [exact H|].
      apply (for_count_preserves sgr_ok); [|exact H].
      intros k s Hs. destruct (_ =? _); exact Hs.
    + unfold csi_reset_mode. destruct (_ =? _); [exact H|].
      apply (for_count_preserves sgr_ok); [|exact H].
      intros k s Hs. destruct (_ =? _); exact Hs.
    + unfold csi_set_scroll_region. cbv zeta.
      repeat match goal with
             | |- context [if ?c then _ else _] => destruct c
             end; exact H.
    + unfold csi_device_status, pty_write. cbv zeta.
      repeat match goal with
             | |- sgr_ok (if ?c then _ else _) => destruct c
             end; exact H.
    + unfold csi_device_attrs, pty_write. destruct (_ >=? _); exact H.
  - apply (sgr_ok_same_settings t); [|exact H].
    now apply same_settings_handle_csi.
Qed.

Lemma sgr_ok_process_char t ch : sgr_ok t -> sgr_ok (term_process_char t ch).
Proof.
  intros H.
  destruct (in_dec Z.eq_dec ch settings_finals) as [Hin|Hout];
    [destruct (state t) eqn:Hs|];
    try (apply (sgr_ok_same_settings t); [|exact H];
         apply process_char_same_settings; try rewrite Hs; try discriminate;
         intros _; assumption).
  rewrite process_csi_final; [now apply sgr_ok_handle_csi|exact Hs|].
  unfold settings_finals in Hin. cbn in Hin.
  destruct Hin as [<-|[<-|[<-|[<-|[<-|[<-|[]]]]]]]; lia.
Qed.

Lemma csi_done_fields X :
  cursor_x (csi_done X) = cursor_x X /\ cursor_y (csi_done X) = cursor_y X /\
  cells (csi_done X) = cells X /\ state (csi_done X) = STATE_NORMAL /\
  same_settings X (csi_done X).
Proof. repeat split. Qed.

Lemma handle_csi_moves X :
  term_handle_csi 65 X = csi_cursor_up X /\
  term_handle_csi 66 X = csi_cursor_down X /\
  term_handle_csi 67 X = csi_cursor_forward X /\
  term_handle_csi 68 X = csi_cursor_backward X.
Proof. repeat split. Qed.

Section CursorMoves.

Hypothesis cols_range : 40 <= TERM_COLS <= MAX_TERM_COLS.
Hypothesis rows_range : 10 <= TERM_ROWS <= MAX_TERM_ROWS.

(** X5.  ESC [ y ; x H (and the same with final f), for any two decimal
    parameters, puts the cursor at row min(max(y,1), rows) - 1 and column
    min(max(x,1), cols) - 1: zero counts as one and values past the edge stop
    at the last row and column.  Nothing else the user can see changes. *)
Theorem cursor_position_clamps_to_grid :
  forall t y x final,
    state t = STATE_NORMAL -> 0 <= y < 2 ^ 31 -> 0 <= x < 2 ^ 31 ->
    final = 72 \/ final = 102 ->
    let t' := term_feed t (csi_seq2 y x final) in
    cursor_y t' = Z.min (Z.max y 1) TERM_ROWS - 1 /\
    cursor_x t' = Z.min (Z.max x 1) TERM_COLS - 1 /\
    cells t' = cells t /\ same_settings t t' /\ state t' = STATE_NORMAL.
Proof.
  intros t y x final Hs Hy Hx Hf. unfold MAX_TERM_COLS in cols_range.
  unfold MAX_TERM_ROWS in rows_range. cbv zeta. unfold csi_seq2.
  rewrite feed_csi_two by (try assumption; destruct Hf; subst; lia).
  assert (E : term_handle_csi final (csi_param2 y x t)
              = csi_cursor_position (csi_param2 y x t)).
  { destruct Hf; subst; reflexivity. }
  rewrite E.
  assert (Ey : csi_pos 0 0 (csi_param2 y x t) = Z.max y 1 - 1).
  { unfold csi_pos. destruct (csi_param2_fields y x t) as (-> & -> & _).
    change (2 >? 0) with true. cbn [andb]. destruct (Z.gtb_spec y 0); lia. }
  assert (Ex : forall u, csi_pos 1 0 (set_cursor_y u (csi_param2 y x t))
                         = Z.max x 1 - 1).
  { intros u. unfold csi_pos.
    change (num_escape_params (set_cursor_y u (csi_param2 y x t))) with 2.
    change (list_get (escape_params (set_cursor_y u (csi_param2 y x t))) 1) with x.
    change (2 >? 1) with true. cbn [andb]. destruct (Z.gtb_spec x 0); lia. }
  unfold csi_done, csi_cursor_position. cbv zeta. rewrite Ey, Ex.
  cbn [cursor_x cursor_y set_cursor_x set_cursor_y].
  destruct (Z.geb_spec (Z.max y 1 - 1) TERM_ROWS);
    cbn [cursor_x cursor_y set_cursor_x set_cursor_y];
    destruct (Z.geb_spec (Z.max x 1 - 1) TERM_COLS);
    (split; [cbn; lia|split; [cbn; lia|split; [reflexivity|split;
       [repeat split|reflexivity]]]]).
Qed.

Lemma cursor_up_param1 t n :
  0 <= cursor_y t < TERM_ROWS -> 0 <= n < 2 ^ 30 ->
  let t' := csi_cursor_up (csi_param1 n t) in
  cursor_y t' = Z.max (cursor_y t - Z.max n 1) 0 /\ cursor_x t' = cursor_x t.
Proof.
  intros Hy Hn. unfold MAX_TERM_ROWS in rows_range. cbv zeta.
  unfold csi_cursor_up. cbv zeta. rewrite csi_count_param1 by lia.
  change (cursor_y (csi_param1 n t)) with (cursor_y t).
  cbn [cursor_y set_cursor_y]. rewrite wrap_int_small by lia.
  destruct (Z.ltb_spec (cursor_y t - Z.max n 1) 0); split;
    try reflexivity; cbn [cursor_y set_cursor_y]; lia.
Qed.

Lemma cursor_down_param1 t n :
  0 <= cursor_y t < TERM_ROWS -> 0 <= n < 2 ^ 30 ->
  let t' := csi_cursor_down (csi_param1 n t) in
  cursor_y t' = Z.min (cursor_y t + Z.max n 1) (TERM_ROWS - 1) /\
  cursor_x t' = cursor_x t.
Proof.
  intros Hy Hn. unfold MAX_TERM_ROWS in rows_range. cbv zeta.
  unfold csi_cursor_down. cbv zeta. rewrite csi_count_param1 by lia.
  change (cursor_y (csi_param1 n t)) with (cursor_y t).
  cbn [cursor_y set_cursor_y]. rewrite wrap_int_small by lia.
  destruct (Z.geb_spec (cursor_y t + Z.max n 1) TERM_ROWS); split;
    try reflexivity; cbn [cursor_y set_cursor_y]; lia.
Qed.

Lemma cursor_forward_param1 t n :
  0 <= cursor_x t <= TERM_COLS -> 0 <= n < 2 ^ 30 ->
  let t' := csi_cursor_forward (csi_param1 n t) in
  cursor_x t' = Z.min (cursor_x t + Z.max n 1) (TERM_COLS - 1) /\
  cursor_y t' = cursor_y t.
Proof.
  intros Hx Hn. unfold MAX_TERM_COLS in cols_range. cbv zeta.
  unfold csi_cursor_forward. cbv zeta. rewrite csi_count_param1 by lia.
  change (cursor_x (csi_param1 n t)) with (cursor_x t).
  cbn [cursor_x set_cursor_x]. rewrite wrap_int_small by lia.
  destruct (Z.geb_spec (cursor_x t + Z.max n 1) TERM_COLS); split;
    try reflexivity; cbn [cursor_x set_cursor_x]; lia.
Qed.

Lemma cursor_backward_param1 t n :
  0 <= cursor_x t <= TERM_COLS -> 0 <= n < 2 ^ 30 ->
  let t' := csi_cursor_backward (csi_param1 n t) in
  cursor_x t' = Z.max (cursor_x t - Z.max n 1) 0 /\ cursor_y t' = cursor_y t.
Proof.
  intros Hx Hn. unfold MAX_TERM_COLS in cols_range. cbv zeta.
  unfold csi_cursor_backward. cbv zeta. rewrite csi_count_param1 by lia.
  change (cursor_x (csi_param1 n t)) with (cursor_x t).
  cbn [cursor_x set_cursor_x]. rewrite wrap_int_small by lia.
  destruct (Z.ltb_spec (cursor_x t - Z.max n 1) 0); split;
    try reflexivity; cbn [cursor_x set_cursor_x]; lia.
Qed.

(** X6.  ESC [ n A, B, C, D move the cursor by max(n,1) rows or columns and
    stop at the edge of the grid: up and left stop at 0, down at the last
    row, right at the last column.  The other coordinate is kept. *)
Theorem cursor_moves_stop_at_edges :
  forall t n,
    state t = STATE_NORMAL ->
    0 <= cursor_y t < TERM_ROWS -> 0 <= cursor_x t <= TERM_COLS ->
    0 <= n < 2 ^ 30 ->
    let k := Z.max n 1 in
    let go final := term_feed t (csi_seq1 n final) in
    (cursor_y (go 65) = Z.max (cursor_y t - k) 0 /\ cursor_x (go 65) = cursor_x t) /\
    (cursor_y (go 66) = Z.min (cursor_y t + k) (TERM_ROWS - 1) /\
     cursor_x (go 66) = cursor_x t) /\
    (cursor_x (go 67) = Z.min (cursor_x t + k) (TERM_COLS - 1) /\
     cursor_y (go 67) = cursor_y t) /\
    (cursor_x (go 68) = Z.max (cursor_x t - k) 0 /\ cursor_y (go 68) = cursor_y t).
Proof.
  intros t n Hs Hy Hx Hn k go. subst go k. cbv beta. unfold csi_seq1.
  rewrite !feed_csi_one by (try assumption; lia).
  repeat match goal with
         | |- context [cursor_x (csi_done ?X)] =>
             rewrite (proj1 (csi_done_fields X))
         | |- context [cursor_y (csi_done ?X)] =>
             rewrite (proj1 (proj2 (csi_done_fields X)))
         end.
  destruct (handle_csi_moves (csi_param1 n t)) as (-> & -> & -> & ->).
  split; [|split; [|split]].
  - exact (cursor_up_param1 t n Hy Hn).
  - exact (cursor_down_param1 t n Hy Hn).
  - exact (cursor_forward_param1 t n Hx Hn).
  - exact (cursor_backward_param1 t n Hx Hn).
Qed.

End CursorMoves.

(** ** Cells after the blanking loops *)

Lemma blanked_frame t s c : same_but_cells t s -> blanked s c = blanked t c.
Proof.
  intros H. unfold blanked.
  assert (Efg : fg_color s = fg_color t) by (frame_fields H).
  assert (Ebg : bg_color s = bg_color t) by (frame_fields H).
  rewrite Efg, Ebg. reflexivity.
Qed.

Lemma blank_cell_cells y x t i :
  cells (blank_cell y x t) i =
    if i =? cell_index y x then blanked t (cells t i) else cells t i.
Proof.
  unfold blank_cell, store_cell, blanked, cell_at. cbn [cells set_cells].
  destruct (Z.eqb_spec i (cell_index y x)) as [->|]; reflexivity.
Qed.

(** The span loop over the flat array: the indices from [cells[y][lo]] up
    to [cells[y][hi]], the latter excluded, are blanked. *)
Lemma blank_span_cells y lo hi t i :
  cells (blank_span y lo hi t) i =
    if (cell_index y lo <=? i) && (i <? cell_index y hi)
    then blanked t (cells t i) else cells t i.
Proof.
  unfold blank_span, for_up.
  pose proof (for_count_invariant
    (fun j s => same_but_cells t s /\
                forall i', cells s i' =
                  if (cell_index y lo <=? i') && (i' <? cell_index y j)
                  then blanked t (cells t i') else cells t i')
    (blank_cell y) 1 (Z.to_nat (hi - lo)) lo t) as Hinv.
  cbv beta in Hinv. destruct Hinv as [_ Hinv].
  - split; [apply same_but_cells_refl|]. intros i'.
    destruct (Z.leb_spec (cell_index y lo) i');
      destruct (Z.ltb_spec i' (cell_index y lo)); try reflexivity; lia.
  - intros k s Hk [Hf Hc]. split.
    + eapply same_but_cells_trans; [exact Hf|apply same_but_cells_blank_cell].
    + intros i'. rewrite blank_cell_cells, (blanked_frame t s _ Hf), Hc.
      unfold cell_index.
      destruct (Z.eqb_spec i' (y * MAX_TERM_COLS + (lo + Z.of_nat k * 1)));
        destruct (Z.leb_spec (y * MAX_TERM_COLS + lo) i');
        destruct (Z.ltb_spec i' (y * MAX_TERM_COLS + (lo + Z.of_nat k * 1)));
        destruct (Z.ltb_spec i' (y * MAX_TERM_COLS + (lo + Z.of_nat (S k) * 1)));
        cbn [andb]; try reflexivity; lia.
  - rewrite Hinv. unfold cell_index.
    destruct (Z.leb_spec (y * MAX_TERM_COLS + lo) i);
      destruct (Z.ltb_spec i (y * MAX_TERM_COLS + hi));
      destruct (Z.ltb_spec i
                  (y * MAX_TERM_COLS + (lo + Z.of_nat (Z.to_nat (hi - lo)) * 1)));
      cbn [andb]; try reflexivity; lia.
Qed.

(** The same by row and column, for a span inside one row of the array. *)
Lemma blank_span_cell_at y lo hi t y' x :
  0 <= lo -> hi <= MAX_TERM_COLS -> 0 <= x < MAX_TERM_COLS ->
  cell_at (blank_span y lo hi t) y' x =
    if (y' =? y) && (lo <=? x) && (x <? hi)
    then blanked t (cell_at t y' x) else cell_at t y' x.
Proof.
  intros Hlo Hhi Hx. unfold cell_at. rewrite blank_span_cells.
  unfold cell_index, MAX_TERM_COLS in *.
  destruct (Z.eqb_spec y' y) as [Hy|Hy];
    destruct (Z.leb_spec (y * 500 + lo) (y' * 500 + x));
    destruct (Z.ltb_spec (y' * 500 + x) (y * 500 + hi));
    destruct (Z.leb_spec lo x); destruct (Z.ltb_spec x hi);
    cbn [andb]; try reflexivity; lia.
Qed.

Lemma for_count_ext_inv {A : Type} (P : A -> Prop) (body body' : Z -> A -> A) :
  (forall k s, P s -> body k s = body' k s) ->
  (forall k s, P s -> P (body k s)) ->
  forall n i step s, P s -> for_count n i step body s = for_count n i step body' s.
Proof.
  intros He Hp. induction n as [|n IH]; intros i step s Hs; cbn.
  - reflexivity.
  - rewrite <- (He i s Hs). apply IH. apply Hp. exact Hs.
Qed.

Lemma for_count_shift {A : Type} (body : Z -> A -> A) (d : Z) :
  forall n i s,
    for_count n i 1 (fun k => body (d + k)) s = for_count n (d + i) 1 body s.
Proof.
  induction n as [|n IH]; intros i s; cbn.
  - reflexivity.
  - rewrite IH. f_equal. lia.
Qed.

Section Erasing.

Hypothesis cols_range : 40 <= TERM_COLS <= MAX_TERM_COLS.
Hypothesis rows_range : 10 <= TERM_ROWS <= MAX_TERM_ROWS.

Lemma blank_rows_cell_at lo hi t y x :
  0 <= x < MAX_TERM_COLS ->
  cell_at (blank_rows lo hi t) y x =
    if (lo <=? y) && (y <? hi) && (x <? TERM_COLS)
    then blanked t (cell_at t y x) else cell_at t y x.
Proof.
  intros Hx. pose proof cols_range as HC.
  unfold blank_rows, for_up.
  pose proof (for_count_invariant
    (fun j s => same_but_cells t s /\
                forall y' x', 0 <= x' < MAX_TERM_COLS ->
                  cell_at s y' x' =
                    if (lo <=? y') && (y' <? j) && (x' <? TERM_COLS)
                    then blanked t (cell_at t y' x') else cell_at t y' x')
    (fun y => blank_span y 0 TERM_COLS) 1 (Z.to_nat (hi - lo)) lo t) as Hinv.
  cbv beta in Hinv. destruct Hinv as [_ Hinv].
  - split; [apply same_but_cells_refl|]. intros y' x' Hx'.
    destruct (Z.leb_spec lo y'); destruct (Z.ltb_spec y' lo);
      cbn [andb]; try reflexivity; lia.
  - intros k s Hk [Hf Hc]. split.
    + eapply same_but_cells_trans; [exact Hf|apply same_but_cells_blank_span].
    + intros y' x' Hx'.
      rewrite blank_span_cell_at by lia.
      rewrite (blanked_frame t s _ Hf), (Hc y' x' Hx').
      destruct (Z.eqb_spec y' (lo + Z.of_nat k * 1)) as [->|Hy];
        destruct (Z.leb_spec 0 x'); try lia;
        destruct (Z.ltb_spec x' TERM_COLS);
        cbn [andb];
        repeat match goal with
               | |- context [?a <=? ?b] => destruct (Z.leb_spec a b)
               | |- context [?a <? ?b] => destruct (Z.ltb_spec a b)
               end; cbn [andb]; try reflexivity; lia.
  - rewrite (Hinv y x Hx).
    destruct (Z.leb_spec lo y); destruct (Z.ltb_spec y hi);
      destruct (Z.ltb_spec y (lo + Z.of_nat (Z.to_nat (hi - lo)) * 1));
      cbn [andb]; try reflexivity; lia.
Qed.

Lemma erase_line_cells T y x :
  0 <= cursor_x T < MAX_TERM_COLS -> 0 <= x < MAX_TERM_COLS ->
  cell_at (csi_erase_line T) y x =
    if (y =? cursor_y T) && line_erased (csi_mode T) (cursor_x T) x
    then blanked T (cell_at T y x) else cell_at T y x.
Proof.
  intros Hcx Hx. pose proof cols_range as HC.
  unfold csi_erase_line, csi_mode, line_erased. cbv zeta.
  destruct (Z.eqb_spec (num_escape_params T) 0) as [En|En]; cbn [orb].
  - rewrite blank_span_cell_at by lia. cbn [Z.eqb].
    rewrite andb_assoc. reflexivity.
  - destruct (Z.eqb_spec (list_get (escape_params T) 0) 0) as [E0|E0].
    { rewrite blank_span_cell_at by lia. rewrite andb_assoc. reflexivity. }
    destruct (Z.eqb_spec (list_get (escape_params T) 0) 1) as [E1|E1].
    { rewrite blank_span_cell_at by lia.
      replace (x <? cursor_x T + 1) with (x <=? cursor_x T)
        by (destruct (Z.leb_spec x (cursor_x T));
            destruct (Z.ltb_spec x (cursor_x T + 1)); try reflexivity; lia).
      rewrite andb_assoc. reflexivity. }
    destruct (Z.eqb_spec (list_get (escape_params T) 0) 2) as [E2|E2].
    { rewrite blank_span_cell_at by lia. rewrite andb_assoc. reflexivity. }
    rewrite andb_false_r. reflexivity.
Qed.

Lemma erase_display_cells T y x :
  0 <= cursor_y T < 2 ^ 31 - 1 ->
  0 <= cursor_x T < MAX_TERM_COLS -> 0 <= x < MAX_TERM_COLS ->
  cell_at (csi_erase_display T) y x =
    if display_erased (csi_mode T) (cursor_y T) (cursor_x T) y x
    then blanked T (cell_at T y x) else cell_at T y x.
Proof.
  intros Hcy Hcx Hx. pose proof cols_range as HC.
  assert (M0 :
    cell_at (blank_rows (wrap_int (cursor_y T + 1)) TERM_ROWS
               (blank_span (cursor_y T) (cursor_x T) TERM_COLS T)) y x =
    if display_erased 0 (cursor_y T) (cursor_x T) y x
    then blanked T (cell_at T y x) else cell_at T y x).
  { rewrite wrap_int_small by lia. rewrite blank_rows_cell_at by exact Hx.
    rewrite (blanked_frame T _ _ (same_but_cells_blank_span _ _ _ T)).
    rewrite blank_span_cell_at by lia.
    unfold display_erased. cbn [Z.eqb].
    destruct (Z.eqb_spec y (cursor_y T)); destruct (Z.leb_spec (cursor_y T + 1) y);
      destruct (Z.ltb_spec (cursor_y T) y); destruct (Z.ltb_spec y TERM_ROWS);
      destruct (Z.leb_spec (cursor_x T) x); destruct (Z.ltb_spec x TERM_COLS);
      destruct (Z.leb_spec 0 x);
      cbn [andb orb]; try reflexivity; lia. }
  unfold csi_erase_display, csi_mode. cbv zeta.
  destruct (Z.eqb_spec (num_escape_params T) 0) as [En|En]; cbn [orb].
  - exact M0.
  - destruct (Z.eqb_spec (list_get (escape_params T) 0) 0) as [E0|E0].
    { rewrite E0. exact M0. }
    destruct (Z.eqb_spec (list_get (escape_params T) 0) 1) as [E1|E1].
    { rewrite E1. rewrite blank_span_cell_at by lia.
      assert (F : same_but_cells T (blank_rows 0 (cursor_y T) T)).
      { unfold blank_rows, for_up. apply same_but_cells_for_count.
        intros; apply same_but_cells_blank_span. }
      rewrite (blanked_frame T _ _ F).
      rewrite blank_rows_cell_at by exact Hx.
      unfold display_erased. cbn [Z.eqb].
      destruct (Z.eqb_spec y (cursor_y T)); destruct (Z.leb_spec 0 y);
        destruct (Z.ltb_spec y (cursor_y T));
        destruct (Z.ltb_spec x (cursor_x T + 1));
        destruct (Z.leb_spec x (cursor_x T)); destruct (Z.ltb_spec x TERM_COLS);
        destruct (Z.leb_spec 0 x);
        cbn [andb orb]; try reflexivity; lia. }
    unfold display_erased.
    destruct (Z.eqb_spec (list_get (escape_params T) 0) 0); [contradiction|].
    destruct (Z.eqb_spec (list_get (escape_params T) 0) 1); [contradiction|].
    destruct ((list_get (escape_params T) 0 =? 2)
              || (list_get (escape_params T) 0 =? 3)); [|reflexivity].
    rewrite blank_rows_cell_at by exact Hx.
    destruct (Z.leb_spec 0 x); [|lia]. rewrite andb_true_r. reflexivity.
Qed.

(** The erase-characters loop is the span loop from the cursor. *)
Lemma csi_erase_chars_span T :
  csi_erase_chars T =
    blank_span (cursor_y T) (cursor_x T)
      (cursor_x T + Z.min (csi_count T) (TERM_COLS - cursor_x T)) T.
Proof.
  unfold csi_erase_chars, blank_span, for_up. cbv zeta.
  set (m := Z.min (csi_count T) (TERM_COLS - cursor_x T)).
  replace (cursor_x T + m - cursor_x T) with (m - 0) by lia.
  rewrite (for_count_ext_inv (same_but_cells T)
             (fun i t' => blank_cell (cursor_y t') (cursor_x t' + i) t')
             (fun i => blank_cell (cursor_y T) (cursor_x T + i))).
  - rewrite (for_count_shift (blank_cell (cursor_y T)) (cursor_x T)).
    f_equal. lia.
  - intros k s Hs.
    assert (Ex : cursor_x s = cursor_x T) by (frame_fields Hs).
    assert (Ey : cursor_y s = cursor_y T) by (frame_fields Hs).
    rewrite Ex, Ey. reflexivity.
  - intros k s Hs. eapply same_but_cells_trans; [exact Hs|].
    apply same_but_cells_blank_cell.
  - apply same_but_cells_refl.
Qed.

Lemma handle_csi_erase X :
  term_handle_csi 74 X = csi_erase_display X /\
  term_handle_csi 75 X = csi_erase_line X /\
  term_handle_csi 88 X = csi_erase_chars X.
Proof. repeat split. Qed.

Lemma display_same_entered t : display_same t (csi_entered t).
Proof. repeat split. Qed.

Lemma display_same_param1 v t : display_same t (csi_param1 v t).
Proof. repeat split. Qed.

Lemma display_same_param2 v w t : display_same t (csi_param2 v w t).
Proof. repeat split. Qed.

Lemma csi_mode_entered t : csi_mode (csi_entered t) = 0.
Proof. reflexivity. Qed.

Lemma csi_mode_param1 v t : csi_mode (csi_param1 v t) = v.
Proof. reflexivity. Qed.

Lemma csi_count_entered t : csi_count (csi_entered t) = 1.
Proof. reflexivity. Qed.

Lemma same_but_cells_blank_rows lo hi t : same_but_cells t (blank_rows lo hi t).
Proof.
  unfold blank_rows, for_up. apply same_but_cells_for_count.
  intros; apply same_but_cells_blank_span.
Qed.

Lemma same_but_cells_erase_line T : same_but_cells T (csi_erase_line T).
Proof.
  unfold csi_erase_line. cbv zeta.
  repeat match goal with
         | |- same_but_cells _ (if ?c then _ else _) => destruct c
         end;
    try apply same_but_cells_blank_span; apply same_but_cells_refl.
Qed.

Lemma same_but_cells_erase_display T : same_but_cells T (csi_erase_display T).
Proof.
  unfold csi_erase_display. cbv zeta.
  repeat match goal with
         | |- same_but_cells _ (if ?c then _ else _) => destruct c
         end;
    try apply same_but_cells_blank_rows; try apply same_but_cells_refl;
    (eapply same_but_cells_trans;
     [|first [apply same_but_cells_blank_rows|apply same_but_cells_blank_span]]);
    first [apply same_but_cells_blank_rows|apply same_but_cells_blank_span].
Qed.

(** After ESC [ parameters final, for a final byte that only writes cells:
    the cursor, the settings and the parser state. *)
Lemma cells_only_sequence t T X :
  display_same t T -> same_but_cells T X ->
  cursor_x (csi_done X) = cursor_x t /\ cursor_y (csi_done X) = cursor_y t /\
  same_settings t (csi_done X) /\ state (csi_done X) = STATE_NORMAL.
Proof.
  intros (Hc & Hx & Hy & Hs) HX.
  destruct (csi_done_fields X) as (Dx & Dy & _ & Dst & Dset).
  assert (Ex : cursor_x X = cursor_x T) by (frame_fields HX).
  assert (Ey : cursor_y X = cursor_y T) by (frame_fields HX).
  rewrite Dx, Dy, Ex, Ey. repeat split; try assumption.
  all: destruct Dset as (D1 & D2 & D3 & D4 & D5 & D6 & D7 & D8);
    destruct Hs as (S1 & S2 & S3 & S4 & S5 & S6 & S7 & S8).
  - rewrite D1. transitivity (fg_color T); [frame_fields HX|exact S1].
  - rewrite D2. transitivity (bg_color T); [frame_fields HX|exact S2].
  - rewrite D3. transitivity (bold T); [frame_fields HX|exact S3].
  - rewrite D4. transitivity (cursor_visible T); [frame_fields HX|exact S4].
  - rewrite D5. transitivity (scroll_top T); [frame_fields HX|exact S5].
  - rewrite D6. transitivity (scroll_bottom T); [frame_fields HX|exact S6].
  - rewrite D7. transitivity (master_fd T); [frame_fields HX|exact S7].
  - rewrite D8. transitivity (pty_out T); [frame_fields HX|exact S8].
Qed.

Lemma display_same_cell t T c y x :
  display_same t T ->
  blanked T c = blanked t c /\ cell_at T y x = cell_at t y x.
Proof.
  intros (Hc & _ & _ & Hf & Hb & _). unfold blanked, cell_at.
  rewrite Hc, Hf, Hb. split; reflexivity.
Qed.

(** X7.  With the cursor on a cell of the grid (a row of the grid and one
    of its columns, not the pending-wrap column), ESC [ n K blanks part of
    the cursor's row and nothing else: from the cursor to the last column
    for n = 0 (and for ESC [ K), from column 0 to the cursor for n = 1, the
    whole row for n = 2, nothing for any other n.  A blanked cell becomes a
    space in the current colours and keeps its bold flag.  Every other cell
    of the array, the cursor and the settings are kept. *)
Theorem erase_line_blanks_part_of_row :
  forall t mode bytes,
    state t = STATE_NORMAL ->
    0 <= cursor_y t < TERM_ROWS -> 0 <= cursor_x t < TERM_COLS ->
    0 <= mode < 2 ^ 31 ->
    bytes = csi_seq1 mode 75 \/ (mode = 0 /\ bytes = [27; 91; 75]) ->
    let t' := term_feed t bytes in
    (forall y x, 0 <= x < MAX_TERM_COLS ->
       cell_at t' y x =
         if (y =? cursor_y t) && line_erased mode (cursor_x t) x
         then blanked t (cell_at t y x) else cell_at t y x) /\
    cursor_x t' = cursor_x t /\ cursor_y t' = cursor_y t /\
    same_settings t t' /\ state t' = STATE_NORMAL.
Proof.
  intros t mode bytes Hs Hcy Hcx0 Hm Hb. cbv zeta.
  pose proof rows_range as HR. pose proof cols_range as HC.
  assert (Hcx : 0 <= cursor_x t < MAX_TERM_COLS) by lia.
  assert (exists T, term_feed t bytes = csi_done (csi_erase_line T) /\
                    display_same t T /\ csi_mode T = mode) as (T & -> & HT & HM).
  { destruct Hb as [->|[-> ->]].
    - exists (csi_param1 mode t). unfold csi_seq1.
      rewrite feed_csi_one by (try assumption; lia).
      rewrite (proj1 (proj2 (handle_csi_erase _))).
      split; [reflexivity|]. split; [apply display_same_param1|].
      apply csi_mode_param1.
    - exists (csi_entered t).
      rewrite feed_csi_none by (try assumption; lia).
      rewrite (proj1 (proj2 (handle_csi_erase _))).
      split; [reflexivity|]. split; [apply display_same_entered|].
      apply csi_mode_entered. }
  split; [|exact (cells_only_sequence t T _ HT (same_but_cells_erase_line T))].
  intros y x Hx.
  pose proof HT as (_ & Ex & Ey & _).
  unfold cell_at at 1.
  rewrite (proj1 (proj2 (proj2 (csi_done_fields _)))).
  fold (cell_at (csi_erase_line T) y x).
  rewrite erase_line_cells by (rewrite ?Ex; assumption).
  rewrite HM, Ex, Ey.
  destruct (display_same_cell t T (cell_at T y x) y x HT) as (-> & ->).
  reflexivity.
Qed.

(** X8.  With the cursor on a cell of the grid (a row of the grid and one
    of its columns, not the pending-wrap column), ESC [ n J blanks, for
    n = 0 (and for ESC [ J), the cursor's row from the cursor on and every
    row below it; for n = 1 every row above the cursor and its row up to the
    cursor; for n = 2 and 3 the whole grid; for any other n nothing.  No
    cell of the array outside those is written, and cursor and settings are
    kept. *)
Theorem erase_display_blanks_part_of_grid :
  forall t mode bytes,
    state t = STATE_NORMAL ->
    0 <= cursor_y t < TERM_ROWS -> 0 <= cursor_x t < TERM_COLS ->
    0 <= mode < 2 ^ 31 ->
    bytes = csi_seq1 mode 74 \/ (mode = 0 /\ bytes = [27; 91; 74]) ->
    let t' := term_feed t bytes in
    (forall y x, 0 <= x < MAX_TERM_COLS ->
       cell_at t' y x =
         if display_erased mode (cursor_y t) (cursor_x t) y x
         then blanked t (cell_at t y x) else cell_at t y x) /\
    cursor_x t' = cursor_x t /\ cursor_y t' = cursor_y t /\
    same_settings t t' /\ state t' = STATE_NORMAL.
Proof.
  intros t mode bytes Hs Hcy Hcx0 Hm Hb. cbv zeta.
  pose proof rows_range as HR. unfold MAX_TERM_ROWS in HR.
  pose proof cols_range as HC.
  assert (Hcx : 0 <= cursor_x t < MAX_TERM_COLS) by lia.
  assert (exists T, term_feed t bytes = csi_done (csi_erase_display T) /\
                    display_same t T /\ csi_mode T = mode) as (T & -> & HT & HM).
  { destruct Hb as [->|[-> ->]].
    - exists (csi_param1 mode t). unfold csi_seq1.
      rewrite feed_csi_one by (try assumption; lia).
      rewrite (proj1 (handle_csi_erase _)).
      split; [reflexivity|]. split; [apply display_same_param1|].
      apply csi_mode_param1.
    - exists (csi_entered t).
      rewrite feed_csi_none by (try assumption; lia).
      rewrite (proj1 (handle_csi_erase _)).
      split; [reflexivity|]. split; [apply display_same_entered|].
      apply csi_mode_entered. }
  split; [|exact (cells_only_sequence t T _ HT (same_but_cells_erase_display T))].
  intros y x Hx.
  pose proof HT as (_ & Ex & Ey & _).
  unfold cell_at at 1.
  rewrite (proj1 (proj2 (proj2 (csi_done_fields _)))).
  fold (cell_at (csi_erase_display T) y x).
  rewrite erase_display_cells by (rewrite ?Ex, ?Ey; try assumption; lia).
  rewrite HM, Ex, Ey.
  destruct (display_same_cell t T (cell_at T y x) y x HT) as (-> & ->).
  reflexivity.
Qed.

(** X9.  With the cursor on the grid (a row of the grid, and one of its
    columns or the pending-wrap column), ESC [ n X blanks max(n,1) cells of
    the cursor's row starting at the cursor and stops at the last column:
    unlike delete-characters it never writes outside the row, whatever the
    count.  Every other cell of the array, the cursor and the settings are
    kept. *)
Theorem erase_chars_stays_in_row :
  forall t n,
    state t = STATE_NORMAL ->
    0 <= cursor_y t < TERM_ROWS -> 0 <= cursor_x t <= TERM_COLS ->
    0 <= n < 2 ^ 31 ->
    let t' := term_feed t (csi_seq1 n 88) in
    (forall y x, 0 <= x < MAX_TERM_COLS ->
       cell_at t' y x =
         if (y =? cursor_y t) && (cursor_x t <=? x)
            && (x <? cursor_x t + Z.max n 1) && (x <? TERM_COLS)
         then blanked t (cell_at t y x) else cell_at t y x) /\
    cursor_x t' = cursor_x t /\ cursor_y t' = cursor_y t /\
    same_settings t t' /\ state t' = STATE_NORMAL.
Proof.
  intros t n Hs Hcy Hcx Hn. cbv zeta.
  pose proof cols_range as HC. pose proof rows_range as HR.
  unfold csi_seq1. rewrite feed_csi_one by (try assumption; lia).
  rewrite (proj2 (proj2 (handle_csi_erase _))).
  rewrite csi_erase_chars_span, csi_count_param1 by lia.
  pose proof (display_same_param1 n t) as HT.
  pose proof HT as (_ & Ex & Ey & _). rewrite Ex, Ey.
  split; [|exact (cells_only_sequence t _ _ HT (same_but_cells_blank_span _ _ _ _))].
  intros y x Hx.
  unfold cell_at at 1.
  rewrite (proj1 (proj2 (proj2 (csi_done_fields _)))).
  match goal with
  | |- cells ?S _ = _ => fold (cell_at S y x)
  end.
  rewrite blank_span_cell_at by lia.
  destruct (display_same_cell t _ (cell_at (csi_param1 n t) y x) y x HT) as (-> & ->).
  destruct (Z.eqb_spec y (cursor_y t)); destruct (Z.leb_spec (cursor_x t) x);
    destruct (Z.ltb_spec x (cursor_x t + Z.min (Z.max n 1) (TERM_COLS - cursor_x t)));
    destruct (Z.ltb_spec x (cursor_x t + Z.max n 1));
    destruct (Z.ltb_spec x TERM_COLS);
    cbn [andb]; try reflexivity; lia.
Qed.

End Erasing.

(** ** Sequences that are parsed and dropped *)

Lemma display_same_refl t : display_same t t.
Proof. repeat split. Qed.

Lemma display_same_trans a b c :
  display_same a b -> display_same b c -> display_same a c.
Proof.
  intros (H1 & H2 & H3 & H4 & H5 & H6 & H7 & H8 & H9 & H10 & H11)
         (K1 & K2 & K3 & K4 & K5 & K6 & K7 & K8 & K9 & K10 & K11).
  unfold display_same, same_settings.
  rewrite K1, K2, K3, K4, K5, K6, K7, K8, K9, K10, K11.
  repeat split; assumption.
Qed.

(** A parameter byte in CSI state only touches the parser's fields. *)
Lemma process_csi_param_byte T ch :
  state T = STATE_CSI -> is_param_byte ch ->
  display_same T (term_process_char T ch) /\
  state (term_process_char T ch) = STATE_CSI.
Proof.
  intros Hs Hch. unfold term_process_char. rewrite Hs. unfold process_csi.
  destruct ((ch >=? 48) && (ch <=? 57)) eqn:Ed.
  { cbv zeta. destruct (num_escape_params T =? 0); split;
      try exact Hs; repeat split. }
  destruct (Z.eqb_spec ch 59).
  { destruct (_ <? _); split; try exact Hs; repeat split. }
  destruct (Z.eqb_spec ch 63).
  { split; [repeat split|exact Hs]. }
  destruct ((ch >=? 64) && (ch <=? 126)) eqn:Ef.
  { exfalso. apply andb_prop in Ef. destruct Ef as [E1 E2].
    apply Z.geb_le in E1. apply Z.leb_le in E2.
    unfold is_param_byte in Hch. lia. }
  destruct ((ch >=? 32) && (ch <=? 47)) eqn:Ei.
  { split; [apply display_same_refl|exact Hs]. }
  exfalso. unfold is_param_byte in Hch.
  apply andb_false_iff in Ed. apply andb_false_iff in Ei.
  rewrite Z.geb_leb, !Z.leb_gt in Ed. rewrite Z.geb_leb, !Z.leb_gt in Ei. lia.
Qed.

Lemma feed_param_bytes ps :
  Forall is_param_byte ps ->
  forall T, state T = STATE_CSI ->
    display_same T (term_feed T ps) /\ state (term_feed T ps) = STATE_CSI.
Proof.
  induction 1 as [|b bs Hb Hbs IH]; intros T Hs.
  - split; [apply display_same_refl|exact Hs].
  - destruct (process_csi_param_byte T b Hs Hb) as [Hd Hs'].
    destruct (IH _ Hs') as [Hd' Hs''].
    change (term_feed T (b :: bs)) with (term_feed (term_process_char T b) bs).
    split; [|exact Hs'']. eapply display_same_trans; eassumption.
Qed.

Lemma handle_csi_unhandled final T :
  ~ In final handled_finals -> term_handle_csi final T = T.
Proof.
  intros Hf. unfold handled_finals in Hf. cbn [In] in Hf.
  unfold term_handle_csi.
  repeat match goal with
         | |- context [?a =? ?b] =>
             destruct (Z.eqb_spec a b); [exfalso; apply Hf; subst; tauto|]
         end.
  reflexivity.
Qed.

Lemma process_csi_last T final :
  state T = STATE_CSI ->
  0 <= final < 32 \/ 127 <= final \/ (64 <= final <= 126 /\ ~ In final handled_finals) ->
  display_same T (term_process_char T final) /\
  state (term_process_char T final) = STATE_NORMAL.
Proof.
  intros Hs Hf. unfold term_process_char. rewrite Hs. unfold process_csi.
  destruct (Z.geb_spec final 48); destruct (Z.leb_spec final 57);
    cbn [andb]; try (exfalso; unfold handled_finals in Hf; lia).
  all: destruct (Z.eqb_spec final 59); [exfalso; lia|].
  all: destruct (Z.eqb_spec final 63); [exfalso; lia|].
  all: destruct (Z.geb_spec final 64); destruct (Z.leb_spec final 126);
    cbn [andb]; try (exfalso; lia).
  all: try (destruct Hf as [Hf|[Hf|[_ Hf]]]; try lia;
            rewrite (handle_csi_unhandled final T Hf); split; [repeat split|reflexivity]).
  all: destruct (Z.geb_spec final 32); destruct (Z.leb_spec final 47);
    cbn [andb]; try (exfalso; lia).
  all: split; [repeat split|reflexivity].
Qed.

(** X10.  A control sequence ESC [ ... whose final byte has no case in
    [term_handle_csi], or that is cut short by a control byte (below 0x20)
    or by a byte from 0x7F up, changes nothing the user can see, whatever
    parameter bytes it carries, and the parser is back in Normal state; the
    byte that cut it short is dropped too. *)
Theorem unhandled_control_sequence_changes_nothing :
  forall t ps final,
    state t = STATE_NORMAL -> Forall is_param_byte ps ->
    0 <= final < 32 \/ 127 <= final \/
      (64 <= final <= 126 /\ ~ In final handled_finals) ->
    let t' := term_feed t ([27; 91] ++ ps ++ [final]) in
    display_same t t' /\ state t' = STATE_NORMAL.
Proof.
  intros t ps final Hs Hps Hf. cbv zeta.
  rewrite term_feed_app, feed_esc_bracket by exact Hs.
  rewrite term_feed_app.
  destruct (feed_param_bytes ps Hps (csi_entered t) eq_refl) as [Hd Hst].
  destruct (process_csi_last _ final Hst Hf) as [Hd' Hst'].
  change (term_feed (term_feed (csi_entered t) ps) [final])
    with (term_process_char (term_feed (csi_entered t) ps) final).
  split; [|exact Hst'].
  eapply display_same_trans; [apply display_same_entered|].
  eapply display_same_trans; eassumption.
Qed.

Lemma feed_osc_payload payload :
  Forall (fun b => b <> 7 /\ b <> 27) payload ->
  forall T, state T = STATE_OSC -> term_feed T payload = T.
Proof.
  induction 1 as [|b bs [H7 H27] Hbs IH]; intros T Hs.
  - reflexivity.
  - change (term_feed T (b :: bs)) with (term_feed (term_process_char T b) bs).
    assert (E : term_process_char T b = T).
    { unfold term_process_char. rewrite Hs. unfold process_osc.
      destruct (Z.eqb_spec b 7); [contradiction|].
      destruct (Z.eqb_spec b 27); [contradiction|]. reflexivity. }
    rewrite E. apply IH. exact Hs.
Qed.

Lemma feed_esc_osc t :
  state t = STATE_NORMAL ->
  term_feed t [27; 93] =
    set_escape_buf_len 0
      (set_state STATE_OSC
         (set_utf8_buf_len 0 (set_escape_buf_len 0 (set_state STATE_ESC t)))).
Proof.
  intros Hs. cbn [term_feed fold_left]. unfold term_process_char at 2.
  rewrite Hs. reflexivity.
Qed.

(** X11.  An OSC string ESC ] payload, ended by BEL or by ESC, is dropped
    whole: nothing the user can see changes and the parser is back in Normal
    state with an idle decoder, whatever bytes the payload holds. *)
Theorem osc_string_is_dropped :
  forall t payload last,
    state t = STATE_NORMAL ->
    Forall (fun b => b <> 7 /\ b <> 27) payload ->
    last = 7 \/ last = 27 ->
    let t' := term_feed t ([27; 93] ++ payload ++ [last]) in
    t' = osc_done t /\ display_same t t' /\
    state t' = STATE_NORMAL /\ utf8_buf_len t' = 0.
Proof.
  intros t payload last Hs Hp Hl. cbv zeta.
  assert (E : term_feed t ([27; 93] ++ payload ++ [last]) = osc_done t).
  { rewrite term_feed_app, feed_esc_osc by exact Hs.
    rewrite term_feed_app, (feed_osc_payload payload Hp) by reflexivity.
    destruct Hl as [-> | ->]; reflexivity. }
  rewrite E. repeat split.
Qed.

(** A decoded code point written away from the right margin. *)
Lemma putchar_decoded T cp buf len :
  0 <= cursor_x T < TERM_COLS -> cursor_y T < TERM_ROWS -> TERM_COLS < 2 ^ 31 ->
  let t' := set_utf8_buf_len 0 (term_putchar cp (with_utf8 buf len T)) in
  cell_at t' (cursor_y T) (cursor_x T)
    = cell.mk cp (fg_color T) (bg_color T) (bold T) /\
  (forall i, i <> cell_index (cursor_y T) (cursor_x T) -> cells t' i = cells T i) /\
  cursor_x t' = cursor_x T + 1 /\ cursor_y t' = cursor_y T /\
  same_settings T t' /\ state t' = state T /\ utf8_buf_len t' = 0.
Proof.
  intros Hx Hy HC. cbv zeta.
  rewrite putchar_with_utf8, (putchar_in_row cp T) by lia.
  rewrite wrap_int_small by lia.
  split; [|split; [|repeat split]].
  - unfold cell_at. cbn. rewrite Z.eqb_refl. reflexivity.
  - intros i Hi. cbn.
    destruct (Z.eqb_spec i (cell_index (cursor_y T) (cursor_x T)));
      [contradiction|reflexivity].
Qed.

Section Leftovers.

Hypothesis cols_range : 40 <= TERM_COLS <= MAX_TERM_COLS.
Hypothesis rows_range : 10 <= TERM_ROWS <= MAX_TERM_ROWS.

(** X12.  The string terminator ESC \ is not read as one unit: its ESC ends
    the OSC string and the backslash that follows is printed.  After
    ESC ] payload ESC \ with the cursor on the grid, the cursor's cell holds
    a backslash in the current attributes and the cursor has advanced by
    one column. *)
Theorem osc_string_terminator_prints_backslash :
  forall t payload,
    state t = STATE_NORMAL -> arrays_ok t ->
    0 <= cursor_x t < TERM_COLS -> cursor_y t < TERM_ROWS ->
    Forall (fun b => b <> 7 /\ b <> 27) payload ->
    let t' := term_feed t ([27; 93] ++ payload ++ [27; 92]) in
    cell_at t' (cursor_y t) (cursor_x t)
      = cell.mk 92 (fg_color t) (bg_color t) (bold t) /\
    (forall i, i <> cell_index (cursor_y t) (cursor_x t) -> cells t' i = cells t i) /\
    cursor_x t' = cursor_x t + 1 /\ cursor_y t' = cursor_y t /\
    state t' = STATE_NORMAL.
Proof.
  intros t payload Hs Ha Hx Hy Hp. cbv zeta.
  pose proof cols_range as HC. unfold MAX_TERM_COLS in HC.
  assert (E : term_feed t ([27; 93] ++ payload ++ [27; 92])
              = term_process_char (osc_done t) 92).
  { rewrite term_feed_app, feed_esc_osc by exact Hs.
    rewrite term_feed_app, (feed_osc_payload payload Hp) by reflexivity.
    reflexivity. }
  rewrite E.
  rewrite (process_char_ascii (osc_done t) 92);
    [|split; reflexivity|exact Ha|lia].
  destruct (putchar_decoded (osc_done t) 92
              (list_set (utf8_buf (osc_done t)) 0 92) 1)
    as (H1 & H2 & H3 & H4 & _ & H6 & _); try assumption; try lia.
  repeat split; assumption.
Qed.

End Leftovers.

(** ** Device reports *)

Lemma handle_csi_reports X :
  term_handle_csi 110 X = csi_device_status X /\
  term_handle_csi 99 X = csi_device_attrs X.
Proof. repeat split. Qed.

Lemma pty_out_csi_done X : pty_out (csi_done X) = pty_out X.
Proof. reflexivity. Qed.

Lemma pty_out_pty_write bytes X :
  pty_out (pty_write bytes X) =
    if master_fd X >=? 0 then pty_out X ++ bytes else pty_out X.
Proof. unfold pty_write. destruct (master_fd X >=? 0); reflexivity. Qed.

(** X13.  What the terminal answers on the PTY: ESC [ c (device attributes)
    is answered with ESC [ ? 1 ; 2 c and ESC [ 5 n (status) with ESC [ 0 n,
    both only when a PTY master is attached; ESC [ n without parameter and
    ESC [ v n for any v other than 5 and 6 are answered with nothing. *)
Theorem device_reports_answer_on_pty :
  forall t,
    state t = STATE_NORMAL ->
    let reply bytes :=
      if master_fd t >=? 0 then pty_out t ++ bytes else pty_out t in
    pty_out (term_feed t [27; 91; 99]) = reply [27; 91; 63; 49; 59; 50; 99] /\
    pty_out (term_feed t (csi_seq1 5 110)) = reply [27; 91; 48; 110] /\
    pty_out (term_feed t [27; 91; 110]) = pty_out t /\
    (forall v, 0 <= v < 2 ^ 31 -> v <> 5 -> v <> 6 ->
       pty_out (term_feed t (csi_seq1 v 110)) = pty_out t).
Proof.
  intros t Hs reply. subst reply. cbv beta. unfold csi_seq1.
  rewrite !feed_csi_none by (try assumption; lia).
  rewrite feed_csi_one by (try assumption; lia).
  rewrite !pty_out_csi_done.
  rewrite (proj2 (handle_csi_reports (csi_entered t))).
  rewrite (proj1 (handle_csi_reports (csi_entered t))).
  rewrite (proj1 (handle_csi_reports (csi_param1 5 t))).
  split; [unfold csi_device_attrs; rewrite pty_out_pty_write; reflexivity|].
  split; [|split].
  - unfold csi_device_status. cbv zeta.
    destruct (csi_param1_fields 5 t) as (-> & -> & _).
    cbn [Z.gtb Z.compare Z.eqb Pos.eqb andb].
    rewrite pty_out_pty_write. reflexivity.
  - reflexivity.
  - intros v Hv H5 H6. rewrite feed_csi_one by (try assumption; lia).
    rewrite pty_out_csi_done, (proj1 (handle_csi_reports (csi_param1 v t))).
    unfold csi_device_status. cbv zeta.
    destruct (csi_param1_fields v t) as (-> & -> & _).
    destruct (Z.eqb_spec v 6); [contradiction|].
    destruct (Z.eqb_spec v 5); [contradiction|].
    rewrite !andb_false_r. reflexivity.
Qed.

(** ** Line feed and tab *)

Lemma process_char_lf t :
  state t = STATE_NORMAL ->
  term_process_char t 10 = set_utf8_buf_len 0 (term_newline t).
Proof. intros Hs. unfold term_process_char. rewrite Hs. reflexivity. Qed.

Lemma process_char_tab t :
  state t = STATE_NORMAL ->
  term_process_char t 9 =
    let t1 := set_cursor_x (Z.land (wrap_int (cursor_x t + 8)) (Z.lnot 7)) t in
    set_utf8_buf_len 0
      (if cursor_x t1 >=? TERM_COLS then term_newline (set_cursor_x 0 t1) else t1).
Proof. intros Hs. unfold term_process_char. rewrite Hs. reflexivity. Qed.

(** [x & ~7] rounds down to a multiple of 8. *)
Lemma land_lnot_7 (a : Z) : Z.land a (Z.lnot 7) = 8 * (a / 8).
Proof.
  change (Z.land a (Z.lnot 7)) with (Z.ldiff a (Z.ones 3)).
  rewrite Z.ldiff_ones_r by lia.
  rewrite Z.shiftl_mul_pow2, Z.shiftr_div_pow2 by lia.
  change (2 ^ 3) with 8. lia.
Qed.

Section LineFeed.

Hypothesis cols_range : 40 <= TERM_COLS <= MAX_TERM_COLS.
Hypothesis rows_range : 10 <= TERM_ROWS <= MAX_TERM_ROWS.

(** X14.  Line feed.  Above the bottom of the scroll region the cursor
    goes down one row and no cell changes.  At the bottom, and also anywhere
    below it, the cursor is put on the bottom row and the region scrolls up
    by one: each row of the region takes the row below it, the bottom row is
    blanked, and rows outside the region keep their cells.  The column is
    kept and a pending UTF-8 sequence is abandoned. *)
Theorem line_feed_moves_or_scrolls :
  forall t,
    state t = STATE_NORMAL -> - 2 ^ 31 <= cursor_y t < 2 ^ 31 - 1 ->
    let t' := term_process_char t 10 in
    (cursor_y t < scroll_bottom t ->
       cursor_y t' = cursor_y t + 1 /\ cells t' = cells t) /\
    (scroll_bottom t <= cursor_y t ->
       cursor_y t' = scroll_bottom t /\
       forall y x, 0 <= x < TERM_COLS ->
         cell_at t' y x =
           if y =? scroll_bottom t then blanked t (cell_at t y x)
           else if (scroll_top t <=? y) && (y <? scroll_bottom t)
                then cell_at t (y + 1) x else cell_at t y x) /\
    cursor_x t' = cursor_x t /\ utf8_buf_len t' = 0 /\
    state t' = STATE_NORMAL /\ same_settings t t'.
Proof.
  intros t Hs Hy. cbv zeta. rewrite process_char_lf by exact Hs.
  destruct (newline_fields t) as (E1 & E2 & E3 & E4 & E5 & E6 & E7).
  rewrite wrap_int_small in E7 by lia.
  split; [|split; [|split; [|split; [|split]]]].
  - intros Hlt. unfold term_newline. cbv zeta.
    cbn [cursor_y set_cursor_y scroll_bottom].
    rewrite wrap_int_small by lia.
    destruct (Z.gtb_spec (cursor_y t + 1) (scroll_bottom t)); [lia|].
    split; reflexivity.
  - intros Hge. split.
    + change (cursor_y (set_utf8_buf_len 0 (term_newline t)))
        with (cursor_y (term_newline t)).
      rewrite E7. destruct (Z.gtb_spec (cursor_y t + 1) (scroll_bottom t)); lia.
    + intros y x Hx. unfold term_newline. cbv zeta.
      cbn [cursor_y set_cursor_y scroll_bottom].
      rewrite wrap_int_small by lia.
      destruct (Z.gtb_spec (cursor_y t + 1) (scroll_bottom t)); [|lia].
      change (cell_at (set_utf8_buf_len 0 ?u) y x) with (cell_at u y x).
      rewrite (scroll_up_cell cols_range) by exact Hx. reflexivity.
  - exact E1.
  - reflexivity.
  - change (state (set_utf8_buf_len 0 (term_newline t)))
      with (state (term_newline t)).
    rewrite newline_state. exact Hs.
  - change (same_settings t (term_newline t)).
    apply same_settings_newline. apply same_settings_refl.
Qed.

(** X15.  Tab moves the cursor to the next multiple of 8.  When that is
    not a column of the grid the cursor does not stop at the last column:
    it goes to column 0 and a newline is performed. *)
Theorem tab_goes_to_next_multiple_of_8 :
  forall t,
    state t = STATE_NORMAL -> 0 <= cursor_x t <= TERM_COLS ->
    let t' := term_process_char t 9 in
    let stop := 8 * (cursor_x t / 8 + 1) in
    cursor_x t < stop <= cursor_x t + 8 /\
    (stop < TERM_COLS ->
       cursor_x t' = stop /\ cursor_y t' = cursor_y t /\ cells t' = cells t) /\
    (TERM_COLS <= stop ->
       t' = set_utf8_buf_len 0 (term_newline (set_cursor_x 0 t)) /\
       cursor_x t' = 0).
Proof.
  intros t Hs Hx. cbv zeta. pose proof cols_range as HC.
  unfold MAX_TERM_COLS in HC.
  rewrite process_char_tab by exact Hs. cbv zeta.
  rewrite wrap_int_small by lia. rewrite land_lnot_7.
  replace ((cursor_x t + 8) / 8) with (cursor_x t / 8 + 1)
    by (replace (cursor_x t + 8) with (cursor_x t + 1 * 8) by lia;
        rewrite Z.div_add by lia; reflexivity).
  cbn [cursor_x set_cursor_x].
  pose proof (Z.mul_div_le (cursor_x t) 8 ltac:(lia)) as D1.
  pose proof (Z.mul_succ_div_gt (cursor_x t) 8 ltac:(lia)) as D2.
  split; [lia|]. split.
  - intros Hlt.
    destruct (Z.geb_spec (8 * (cursor_x t / 8 + 1)) TERM_COLS); [lia|].
    repeat split.
  - intros Hge.
    destruct (Z.geb_spec (8 * (cursor_x t / 8 + 1)) TERM_COLS); [|lia].
    split; [reflexivity|].
    change (cursor_x (set_utf8_buf_len 0 ?u)) with (cursor_x u).
    destruct (newline_fields
                (set_cursor_x 0
                   (set_cursor_x (8 * (cursor_x t / 8 + 1)) t))) as (E1 & _).
    exact E1.
Qed.

End LineFeed.

(** ** Malformed UTF-8 *)

Lemma invalid_lead_facts (b : Z) :
  128 <= b < 192 \/ 248 <= b < 256 ->
  expected_len b = 1 /\ b <> 0 /\ Z.land b 0x80 <> 0 /\ Z.land b 0xE0 <> 0xC0 /\
  Z.land b 0xF0 <> 0xE0 /\ Z.land b 0xF8 <> 0xF0.
Proof.
  intros H.
  assert (Hb : 0 <= b < Z.of_nat 256) by lia.
  pose proof (forall_below
    (fun b => if ((128 <=? b) && (b <? 192)) || ((248 <=? b) && (b <? 256))
              then (expected_len b =? 1) && negb (b =? 0)
                   && negb (Z.land b 0x80 =? 0) && negb (Z.land b 0xE0 =? 0xC0)
                   && negb (Z.land b 0xF0 =? 0xE0) && negb (Z.land b 0xF8 =? 0xF0)
              else true)
    256 eq_refl b Hb) as F.
  cbv beta in F.
  assert (G : ((128 <=? b) && (b <? 192)) || ((248 <=? b) && (b <? 256)) = true).
  { destruct (Z.leb_spec 128 b); destruct (Z.ltb_spec b 192);
      destruct (Z.leb_spec 248 b); destruct (Z.ltb_spec b 256);
      cbn; try reflexivity; lia. }
  rewrite G in F.
  repeat (apply andb_prop in F; destruct F as [F ?]).
  repeat match goal with
         | K : negb (_ =? _) = true |- _ =>
             apply negb_true_iff in K; apply Z.eqb_neq in K
         end.
  apply Z.eqb_eq in F. repeat split; assumption.
Qed.

Lemma lead2_facts (b : Z) :
  192 <= b < 224 ->
  expected_len b = 2 /\ b <> 0 /\ Z.land b 0x80 <> 0 /\ Z.land b 0xE0 = 0xC0.
Proof.
  intros H.
  assert (Hb : 0 <= b < Z.of_nat 256) by lia.
  pose proof (forall_below
    (fun b => if (192 <=? b) && (b <? 224)
              then (expected_len b =? 2) && negb (b =? 0)
                   && negb (Z.land b 0x80 =? 0) && (Z.land b 0xE0 =? 0xC0)
              else true)
    256 eq_refl b Hb) as F.
  cbv beta in F.
  destruct (Z.leb_spec 192 b); [|lia]. destruct (Z.ltb_spec b 224); [|lia].
  cbn [andb] in F.
  repeat (apply andb_prop in F; destruct F as [F ?]).
  repeat match goal with
         | K : negb (_ =? _) = true |- _ =>
             apply negb_true_iff in K; apply Z.eqb_neq in K
         end.
  apply Z.eqb_eq in F. repeat split; try assumption. apply Z.eqb_eq. assumption.
Qed.

Lemma not_continuation (b : Z) :
  0 <= b < 128 \/ 192 <= b < 256 -> is_continuation b = false.
Proof.
  intros H.
  assert (Hb : 0 <= b < Z.of_nat 256) by lia.
  pose proof (forall_below
    (fun b => if ((0 <=? b) && (b <? 128)) || ((192 <=? b) && (b <? 256))
              then negb (is_continuation b) else true)
    256 eq_refl b Hb) as F.
  cbv beta in F.
  assert (G : ((0 <=? b) && (b <? 128)) || ((192 <=? b) && (b <? 256)) = true).
  { destruct (Z.leb_spec 0 b); destruct (Z.ltb_spec b 128);
      destruct (Z.leb_spec 192 b); destruct (Z.ltb_spec b 256);
      cbn; try reflexivity; lia. }
  rewrite G in F. apply negb_true_iff in F. exact F.
Qed.

Section Malformed.

Hypothesis cols_range : 40 <= TERM_COLS <= MAX_TERM_COLS.
Hypothesis rows_range : 10 <= TERM_ROWS <= MAX_TERM_ROWS.

(** X16.  A byte that cannot start a UTF-8 sequence, a continuation byte
    0x80..0xBF or one of 0xF8..0xFF, is not dropped: it is written at once as
    one cell holding U+FFFD, and the cursor advances. *)
Theorem invalid_lead_byte_is_replacement_character :
  forall t b,
    normal_idle t -> arrays_ok t ->
    0 <= cursor_x t < TERM_COLS -> cursor_y t < TERM_ROWS ->
    128 <= b < 192 \/ 248 <= b < 256 ->
    let t' := term_process_char t b in
    cell_at t' (cursor_y t) (cursor_x t)
      = cell.mk 0xFFFD (fg_color t) (bg_color t) (bold t) /\
    (forall i, i <> cell_index (cursor_y t) (cursor_x t) -> cells t' i = cells t i) /\
    cursor_x t' = cursor_x t + 1 /\ cursor_y t' = cursor_y t /\
    utf8_buf_len t' = 0.
Proof.
  intros t b [Hs Hl] [Ha1 Ha2] Hx Hy Hb. cbv zeta.
  pose proof cols_range as HC. unfold MAX_TERM_COLS in HC.
  destruct (invalid_lead_facts b Hb) as (El & N0 & N1 & N2 & N3 & N4).
  destruct (length4 _ Ha1) as (a0 & a1 & a2 & a3 & E).
  assert (Eb : list_set (utf8_buf t) 0 b = [b; a1; a2; a3]) by (rewrite E; reflexivity).
  rewrite (printable_complete t b 0 Hs) by
    (try exact Hl; try lia; rewrite Eb;
     change (list_get [b; a1; a2; a3] 0) with b; lia).
  rewrite Eb.
  assert (Ed : fst (utf8_decode [b; a1; a2; a3]) = 0xFFFD).
  { unfold utf8_decode. change (list_get [b; a1; a2; a3] 0) with b. cbv zeta.
    destruct (Z.eqb_spec b 0); [contradiction|].
    destruct (Z.eqb_spec (Z.land b 0x80) 0); [contradiction|].
    destruct (Z.eqb_spec (Z.land b 0xE0) 0xC0); [contradiction|].
    destruct (Z.eqb_spec (Z.land b 0xF0) 0xE0); [contradiction|].
    destruct (Z.eqb_spec (Z.land b 0xF8) 0xF0); [contradiction|].
    reflexivity. }
  rewrite Ed.
  destruct (putchar_decoded t 0xFFFD [b; a1; a2; a3] (0 + 1))
    as (H1 & H2 & H3 & H4 & _ & _ & H7); try assumption; try lia.
  repeat split; assumption.
Qed.

(** X17.  The decoder counts bytes, it does not check them while waiting:
    after the lead byte of a two-byte sequence (0xC0..0xDF) the next byte of
    0x20 and above completes the sequence even when it is not a continuation
    byte.  Then one cell is written, holding the lead byte's five payload
    bits shifted left by six, and the second byte is shown nowhere. *)
Theorem truncated_two_byte_sequence_swallows_next_byte :
  forall t b1 b2,
    normal_idle t -> arrays_ok t ->
    0 <= cursor_x t < TERM_COLS -> cursor_y t < TERM_ROWS ->
    192 <= b1 < 224 -> 32 <= b2 < 128 \/ 192 <= b2 < 256 ->
    let t' := term_feed t [b1; b2] in
    cell_at t' (cursor_y t) (cursor_x t)
      = cell.mk (Z.shiftl (Z.land b1 0x1F) 6) (fg_color t) (bg_color t) (bold t) /\
    (forall i, i <> cell_index (cursor_y t) (cursor_x t) -> cells t' i = cells t i) /\
    cursor_x t' = cursor_x t + 1 /\ cursor_y t' = cursor_y t /\
    utf8_buf_len t' = 0.
Proof.
  intros t b1 b2 [Hs Hl] [Ha1 Ha2] Hx Hy Hb1 Hb2. cbv zeta.
  pose proof cols_range as HC. unfold MAX_TERM_COLS in HC.
  destruct (lead2_facts b1 Hb1) as (El & N0 & N1 & N2).
  destruct (length4 _ Ha1) as (a0 & a1 & a2 & a3 & E).
  assert (Eb : list_set (utf8_buf t) 0 b1 = [b1; a1; a2; a3])
    by (rewrite E; reflexivity).
  change (term_feed t [b1; b2])
    with (term_process_char (term_process_char t b1) b2).
  rewrite (printable_pending t b1 0 Hs) by
    (try exact Hl; try lia; rewrite Eb;
     change (list_get [b1; a1; a2; a3] 0) with b1; lia).
  rewrite Eb. change (0 + 1) with 1.
  set (t1 := with_utf8 [b1; a1; a2; a3] 1 t).
  assert (Eb2 : list_set (utf8_buf t1) 1 b2 = [b1; b2; a2; a3]) by reflexivity.
  rewrite (printable_complete t1 b2 1 Hs) by
    (try reflexivity; try lia; rewrite Eb2;
     change (list_get [b1; b2; a2; a3] 0) with b1; lia).
  rewrite Eb2.
  assert (Ed : fst (utf8_decode [b1; b2; a2; a3]) = Z.shiftl (Z.land b1 0x1F) 6).
  { unfold utf8_decode. change (list_get [b1; b2; a2; a3] 0) with b1.
    change (list_get [b1; b2; a2; a3] 1) with b2. cbv zeta.
    destruct (Z.eqb_spec b1 0); [contradiction|].
    destruct (Z.eqb_spec (Z.land b1 0x80) 0); [contradiction|].
    destruct (Z.eqb_spec (Z.land b1 0xE0) 0xC0); [|contradiction].
    rewrite not_continuation by lia. reflexivity. }
  rewrite Ed.
  destruct (putchar_decoded t1 (Z.shiftl (Z.land b1 0x1F) 6) [b1; b2; a2; a3] (1 + 1))
    as (H1 & H2 & H3 & H4 & _ & _ & H7); try assumption; try lia.
  repeat split; assumption.
Qed.

End Malformed.

(** ** Insert and delete line *)

Lemma copy_rows_up_scroll_top v lo hi s :
  for_up lo hi (fun y => copy_row y (y + 1)) (set_scroll_top v s) =
  set_scroll_top v (for_up lo hi (fun y => copy_row y (y + 1)) s).
Proof. unfold for_up. apply for_count_commute. reflexivity. Qed.

Lemma copy_rows_down_scroll_top v hi lo s :
  for_down hi lo (fun y => copy_row y (y - 1)) (set_scroll_top v s) =
  set_scroll_top v (for_down hi lo (fun y => copy_row y (y - 1)) s).
Proof. unfold for_down. apply for_count_commute. reflexivity. Qed.

Lemma blank_span_scroll_top v y lo hi s :
  blank_span y lo hi (set_scroll_top v s) = set_scroll_top v (blank_span y lo hi s).
Proof. unfold blank_span, for_up. apply for_count_commute. reflexivity. Qed.

Lemma same_but_cells_copy_rows_up lo hi s :
  same_but_cells s (for_up lo hi (fun y => copy_row y (y + 1)) s).
Proof.
  unfold for_up. apply same_but_cells_for_count.
  intros; apply same_but_cells_copy_row.
Qed.

Lemma same_but_cells_copy_rows_down hi lo s :
  same_but_cells s (for_down hi lo (fun y => copy_row y (y - 1)) s).
Proof.
  unfold for_down. apply same_but_cells_for_count.
  intros; apply same_but_cells_copy_row.
Qed.

(** One round of the delete-line loop is a scroll-up of the region that
    starts at the cursor row. *)
Lemma delete_line_round s :
  term_scroll_up (set_scroll_top (cursor_y s) s) =
  set_scroll_top (cursor_y s)
    (blank_span (scroll_bottom s) 0 TERM_COLS
       (for_up (cursor_y s) (scroll_bottom s) (fun y => copy_row y (y + 1)) s)).
Proof.
  unfold term_scroll_up. cbv zeta.
  change (scroll_top (set_scroll_top (cursor_y s) s)) with (cursor_y s).
  change (scroll_bottom (set_scroll_top (cursor_y s) s)) with (scroll_bottom s).
  rewrite copy_rows_up_scroll_top.
  set (X := for_up (cursor_y s) (scroll_bottom s) (fun y => copy_row y (y + 1)) s).
  change (scroll_bottom (set_scroll_top (cursor_y s) X)) with (scroll_bottom X).
  assert (E : scroll_bottom X = scroll_bottom s).
  { pose proof (same_but_cells_copy_rows_up (cursor_y s) (scroll_bottom s) s) as H.
    fold X in H. frame_fields H. }
  rewrite E. apply blank_span_scroll_top.
Qed.

Lemma insert_line_round s :
  term_scroll_down (set_scroll_top (cursor_y s) s) =
  set_scroll_top (cursor_y s)
    (blank_span (cursor_y s) 0 TERM_COLS
       (for_down (scroll_bottom s) (cursor_y s) (fun y => copy_row y (y - 1)) s)).
Proof.
  unfold term_scroll_down. cbv zeta.
  change (scroll_top (set_scroll_top (cursor_y s) s)) with (cursor_y s).
  change (scroll_bottom (set_scroll_top (cursor_y s) s)) with (scroll_bottom s).
  rewrite copy_rows_down_scroll_top.
  set (X := for_down (scroll_bottom s) (cursor_y s) (fun y => copy_row y (y - 1)) s).
  change (scroll_top (set_scroll_top (cursor_y s) X)) with (cursor_y s).
  apply blank_span_scroll_top.
Qed.

Lemma line_rounds (round scroll : terminal -> terminal) :
  (forall s, scroll (set_scroll_top (cursor_y s) s)
             = set_scroll_top (cursor_y s) (round s)) ->
  (forall s, same_but_cells s (round s)) ->
  forall n i s,
    for_count n i 1 (fun _ => scroll) (set_scroll_top (cursor_y s) s) =
    set_scroll_top (cursor_y s) (for_count n i 1 (fun _ => round) s).
Proof.
  intros Hr Hf. induction n as [|n IH]; intros i s; cbn [for_count].
  - reflexivity.
  - rewrite Hr.
    assert (E : cursor_y (round s) = cursor_y s).
    { pose proof (Hf s) as H. frame_fields H. }
    rewrite <- E at 1 2. rewrite IH. rewrite E. reflexivity.
Qed.

Lemma same_but_cells_delete_line t : same_but_cells t (csi_delete_line t).
Proof.
  unfold csi_delete_line, for_up. apply same_but_cells_for_count.
  intros i s. eapply same_but_cells_trans;
    [apply same_but_cells_copy_rows_up|apply same_but_cells_blank_span].
Qed.

Lemma same_but_cells_insert_line t : same_but_cells t (csi_insert_line t).
Proof.
  unfold csi_insert_line, for_up. apply same_but_cells_for_count.
  intros i s. eapply same_but_cells_trans;
    [apply same_but_cells_copy_rows_down|apply same_but_cells_blank_span].
Qed.


(** ** Delete and insert characters *)

Lemma copy_cell_cells y dst src t i :
  cells (copy_cell y dst src t) i =
    if i =? cell_index y dst then cells t (cell_index y src) else cells t i.
Proof. reflexivity. Qed.

(** The left-shifting copy loop of delete-characters, over the flat array:
    every cell it visits takes the cell [count] places further on, which the
    loop has not written yet. *)
Lemma shift_left_cells count lo hi t i :
  1 <= count -> - 2 ^ 31 <= lo + count -> hi + count <= 2 ^ 31 ->
  let t' := for_up lo hi
              (fun x s => copy_cell (cursor_y s) x (wrap_int (x + count)) s) t in
  same_but_cells t t' /\
  cells t' i =
    if (cell_index (cursor_y t) lo <=? i) && (i <? cell_index (cursor_y t) hi)
    then cells t (i + count) else cells t i.
Proof.
  intros Hc Hlo Hhi. cbv zeta. unfold for_up.
  pose proof (for_count_invariant
    (fun j s => same_but_cells t s /\
                forall i', cells s i' =
                  if (cell_index (cursor_y t) lo <=? i')
                     && (i' <? cell_index (cursor_y t) j)
                  then cells t (i' + count) else cells t i')
    (fun x s => copy_cell (cursor_y s) x (wrap_int (x + count)) s)
    1 (Z.to_nat (hi - lo)) lo t) as Hinv.
  cbv beta in Hinv. destruct Hinv as [Hf Hinv].
  - split; [apply same_but_cells_refl|]. intros i'.
    destruct (Z.leb_spec (cell_index (cursor_y t) lo) i');
      destruct (Z.ltb_spec i' (cell_index (cursor_y t) lo));
      try reflexivity; lia.
  - intros k s Hk [Hfs Hcs]. split.
    + eapply same_but_cells_trans; [exact Hfs|]. reflexivity.
    + intros i'. assert (Ey : cursor_y s = cursor_y t) by (frame_fields Hfs).
      rewrite copy_cell_cells, Ey.
      assert (Hkb : lo + Z.of_nat k * 1 < hi) by lia.
      rewrite wrap_int_small by lia.
      rewrite !Hcs. unfold cell_index.
      destruct (Z.eqb_spec i' (cursor_y t * MAX_TERM_COLS + (lo + Z.of_nat k * 1)));
        destruct (Z.leb_spec (cursor_y t * MAX_TERM_COLS + lo) i');
        destruct (Z.ltb_spec i'
                    (cursor_y t * MAX_TERM_COLS + (lo + Z.of_nat k * 1)));
        destruct (Z.ltb_spec i'
                    (cursor_y t * MAX_TERM_COLS + (lo + Z.of_nat (S k) * 1)));
        destruct (Z.leb_spec (cursor_y t * MAX_TERM_COLS + lo)
                    (cursor_y t * MAX_TERM_COLS + (lo + Z.of_nat k * 1 + count)));
        destruct (Z.ltb_spec
                    (cursor_y t * MAX_TERM_COLS + (lo + Z.of_nat k * 1 + count))
                    (cursor_y t * MAX_TERM_COLS + (lo + Z.of_nat k * 1)));
        cbn [andb]; try reflexivity; try lia.
      all: subst i'; f_equal; lia.
  - split; [exact Hf|]. rewrite Hinv. unfold cell_index.
    destruct (Z.leb_spec (cursor_y t * MAX_TERM_COLS + lo) i);
      destruct (Z.ltb_spec i (cursor_y t * MAX_TERM_COLS + hi));
      destruct (Z.ltb_spec i
                  (cursor_y t * MAX_TERM_COLS
                   + (lo + Z.of_nat (Z.to_nat (hi - lo)) * 1)));
      cbn [andb]; try reflexivity; lia.
Qed.

(** The right-shifting copy loop of insert-characters, from [hi] down to
    [lo]: every cell it visits takes the cell [count] places before it. *)
Lemma shift_right_cells count hi lo t i :
  1 <= count -> - 2 ^ 31 <= lo - count -> hi - count < 2 ^ 31 ->
  let t' := for_down_ge hi lo
              (fun x s => copy_cell (cursor_y s) x (wrap_int (x - count)) s) t in
  same_but_cells t t' /\
  cells t' i =
    if (cell_index (cursor_y t) lo <=? i) && (i <=? cell_index (cursor_y t) hi)
    then cells t (i - count) else cells t i.
Proof.
  intros Hc Hlo Hhi. cbv zeta. unfold for_down_ge.
  pose proof (for_count_invariant
    (fun j s => same_but_cells t s /\
                forall i', cells s i' =
                  if (cell_index (cursor_y t) j <? i')
                     && (i' <=? cell_index (cursor_y t) hi)
                  then cells t (i' - count) else cells t i')
    (fun x s => copy_cell (cursor_y s) x (wrap_int (x - count)) s)
    (-1) (Z.to_nat (hi - lo + 1)) hi t) as Hinv.
  cbv beta in Hinv. destruct Hinv as [Hf Hinv].
  - split; [apply same_but_cells_refl|]. intros i'.
    destruct (Z.ltb_spec (cell_index (cursor_y t) hi) i');
      destruct (Z.leb_spec i' (cell_index (cursor_y t) hi));
      try reflexivity; lia.
  - intros k s Hk [Hfs Hcs]. split.
    + eapply same_but_cells_trans; [exact Hfs|]. reflexivity.
    + intros i'. assert (Ey : cursor_y s = cursor_y t) by (frame_fields Hfs).
      rewrite copy_cell_cells, Ey.
      assert (Hkb : lo <= hi + Z.of_nat k * -1) by lia.
      rewrite wrap_int_small by lia.
      rewrite !Hcs. unfold cell_index.
      destruct (Z.eqb_spec i' (cursor_y t * MAX_TERM_COLS + (hi + Z.of_nat k * -1)));
        destruct (Z.leb_spec i' (cursor_y t * MAX_TERM_COLS + hi));
        destruct (Z.ltb_spec
                    (cursor_y t * MAX_TERM_COLS + (hi + Z.of_nat k * -1)) i');
        destruct (Z.ltb_spec
                    (cursor_y t * MAX_TERM_COLS + (hi + Z.of_nat (S k) * -1)) i');
        destruct (Z.ltb_spec
                    (cursor_y t * MAX_TERM_COLS + (hi + Z.of_nat k * -1))
                    (cursor_y t * MAX_TERM_COLS + (hi + Z.of_nat k * -1 - count)));
        destruct (Z.leb_spec
                    (cursor_y t * MAX_TERM_COLS + (hi + Z.of_nat k * -1 - count))
                    (cursor_y t * MAX_TERM_COLS + hi));
        cbn [andb]; try reflexivity; try lia.
      all: subst i'; f_equal; lia.
  - split; [exact Hf|]. rewrite Hinv. unfold cell_index.
    destruct (Z.leb_spec (cursor_y t * MAX_TERM_COLS + lo) i);
      destruct (Z.leb_spec i (cursor_y t * MAX_TERM_COLS + hi));
      destruct (Z.ltb_spec
                  (cursor_y t * MAX_TERM_COLS
                   + (hi + Z.of_nat (Z.to_nat (hi - lo + 1)) * -1)) i);
      cbn [andb]; try reflexivity; lia.
Qed.

(** A blanking loop that reads the row from the state is a span loop. *)
Lemma blank_loop_span lo hi t :
  for_up lo hi (fun x s => blank_cell (cursor_y s) x s) t =
  blank_span (cursor_y t) lo hi t.
Proof.
  unfold blank_span, for_up.
  apply (for_count_ext_inv (same_but_cells t)).
  - intros k s Hs. assert (Ey : cursor_y s = cursor_y t) by (frame_fields Hs).
    rewrite Ey. reflexivity.
  - intros k s Hs. eapply same_but_cells_trans; [exact Hs|].
    apply same_but_cells_blank_cell.
  - apply same_but_cells_refl.
Qed.

Lemma span_index y0 a b y x :
  0 <= a -> b <= MAX_TERM_COLS -> 0 <= x < MAX_TERM_COLS ->
  (cell_index y0 a <=? cell_index y x) && (cell_index y x <? cell_index y0 b)
  = (y =? y0) && (a <=? x) && (x <? b).
Proof.
  intros Ha Hb Hx. unfold cell_index, MAX_TERM_COLS in *.
  destruct (Z.eqb_spec y y0);
    destruct (Z.leb_spec (y0 * 500 + a) (y * 500 + x));
    destruct (Z.ltb_spec (y * 500 + x) (y0 * 500 + b));
    destruct (Z.leb_spec a x); destruct (Z.ltb_spec x b);
    cbn [andb]; try reflexivity; lia.
Qed.

Lemma handle_csi_chars X :
  term_handle_csi 80 X = csi_delete_chars X /\
  term_handle_csi 64 X = csi_insert_chars X.
Proof. repeat split. Qed.

Lemma same_but_cells_delete_chars T : same_but_cells T (csi_delete_chars T).
Proof.
  unfold csi_delete_chars, for_up. cbv zeta.
  eapply same_but_cells_trans; apply same_but_cells_for_count; reflexivity.
Qed.

Lemma same_but_cells_insert_chars T : same_but_cells T (csi_insert_chars T).
Proof.
  unfold csi_insert_chars, for_up, for_down_ge. cbv zeta.
  eapply same_but_cells_trans; apply same_but_cells_for_count; reflexivity.
Qed.

Section Characters.

Hypothesis cols_range : 40 <= TERM_COLS <= MAX_TERM_COLS.
Hypothesis rows_range : 10 <= TERM_ROWS <= MAX_TERM_ROWS.

Lemma delete_chars_cells T y x :
  0 <= cursor_x T -> 1 <= csi_count T <= TERM_COLS - cursor_x T ->
  0 <= x < MAX_TERM_COLS ->
  cell_at (csi_delete_chars T) y x =
    if (y =? cursor_y T) && (cursor_x T <=? x) && (x <? TERM_COLS - csi_count T)
    then cell_at T y (x + csi_count T)
    else if (y =? cursor_y T) && (TERM_COLS - csi_count T <=? x) && (x <? TERM_COLS)
         then blanked T (cell_at T y x) else cell_at T y x.
Proof.
  intros Hcx Hk Hx. pose proof cols_range as HC.
  unfold csi_delete_chars. cbv zeta.
  set (k := csi_count T) in *.
  set (t1 := for_up (cursor_x T) (TERM_COLS - k) _ T).
  assert (S1 : forall i, same_but_cells T t1 /\
                 cells t1 i =
                   if (cell_index (cursor_y T) (cursor_x T) <=? i)
                      && (i <? cell_index (cursor_y T) (TERM_COLS - k))
                   then cells T (i + k) else cells T i).
  { intros i. apply (shift_left_cells k (cursor_x T) (TERM_COLS - k) T i);
      unfold MAX_TERM_COLS in HC; lia. }
  assert (F1 : same_but_cells T t1) by (apply (S1 0)).
  assert (Ey : cursor_y t1 = cursor_y T) by (frame_fields F1).
  rewrite blank_loop_span, Ey.
  rewrite blank_span_cell_at by lia.
  rewrite (blanked_frame T t1 _ F1).
  unfold cell_at at 1 2. rewrite (proj2 (S1 (cell_index y x))).
  rewrite span_index by lia.
  unfold MAX_TERM_COLS in *.
  destruct (Z.eqb_spec y (cursor_y T)); destruct (Z.leb_spec (cursor_x T) x);
    destruct (Z.ltb_spec x (TERM_COLS - k)); destruct (Z.leb_spec (TERM_COLS - k) x);
    destruct (Z.ltb_spec x TERM_COLS);
    cbn [andb]; try reflexivity; try lia.
  unfold cell_at, cell_index. f_equal. lia.
Qed.

Lemma insert_chars_cells T y x :
  0 <= cursor_x T <= TERM_COLS -> 1 <= csi_count T < 2 ^ 30 ->
  0 <= x < MAX_TERM_COLS ->
  cell_at (csi_insert_chars T) y x =
    if (y =? cursor_y T) && (cursor_x T + csi_count T <=? x) && (x <? TERM_COLS)
    then cell_at T y (x - csi_count T)
    else if (y =? cursor_y T) && (cursor_x T <=? x)
            && (x <? cursor_x T + csi_count T) && (x <? TERM_COLS)
         then blanked T (cell_at T y x) else cell_at T y x.
Proof.
  intros Hcx Hk Hx. pose proof cols_range as HC. unfold MAX_TERM_COLS in HC.
  unfold csi_insert_chars. cbv zeta.
  set (k := csi_count T) in *.
  rewrite (wrap_int_small (cursor_x T + k)) by lia.
  set (t1 := for_down_ge (TERM_COLS - 1) (cursor_x T + k) _ T).
  assert (S1 : forall i, same_but_cells T t1 /\
                 cells t1 i =
                   if (cell_index (cursor_y T) (cursor_x T + k) <=? i)
                      && (i <=? cell_index (cursor_y T) (TERM_COLS - 1))
                   then cells T (i - k) else cells T i).
  { intros i. apply (shift_right_cells k (TERM_COLS - 1) (cursor_x T + k) T i); lia. }
  assert (F1 : same_but_cells T t1) by (apply (S1 0)).
  assert (Ey : cursor_y t1 = cursor_y T) by (frame_fields F1).
  assert (Ex : cursor_x t1 = cursor_x T) by (frame_fields F1).
  rewrite blank_loop_span, Ey, Ex.
  rewrite (wrap_int_small (cursor_x T + k)) by lia.
  rewrite blank_span_cell_at by (unfold MAX_TERM_COLS in *; lia).
  rewrite (blanked_frame T t1 _ F1).
  unfold cell_at at 1 2. rewrite (proj2 (S1 (cell_index y x))).
  unfold cell_index, MAX_TERM_COLS in *.
  destruct (Z.eqb_spec y (cursor_y T)); destruct (Z.leb_spec (cursor_x T) x);
    destruct (Z.leb_spec (cursor_x T + k) x);
    destruct (Z.ltb_spec x (cursor_x T + k));
    destruct (Z.ltb_spec x (Z.min (cursor_x T + k) TERM_COLS));
    destruct (Z.ltb_spec x TERM_COLS);
    destruct (Z.leb_spec (cursor_y T * 500 + (cursor_x T + k)) (y * 500 + x));
    destruct (Z.leb_spec (y * 500 + x) (cursor_y T * 500 + (TERM_COLS - 1)));
    cbn [andb]; try reflexivity; try lia.
  all: unfold cell_at, cell_index; f_equal; unfold MAX_TERM_COLS; lia.
Qed.

(** X19.  With the cursor on a row of the grid, ESC [ n P with a count
    k = max(n,1) that fits between the cursor and the right margin deletes
    k cells at the cursor: the cells from the cursor to column cols - k - 1
    take the cell k columns to their right, the last k cells of the row are
    blanked, and every other cell of the array is left as it was.  Cursor
    and settings are kept. *)
Theorem delete_chars_shifts_row_left :
  forall t n,
    state t = STATE_NORMAL ->
    0 <= cursor_y t < TERM_ROWS -> 0 <= cursor_x t -> 0 <= n < 2 ^ 31 ->
    Z.max n 1 <= TERM_COLS - cursor_x t ->
    let k := Z.max n 1 in
    let t' := term_feed t (csi_seq1 n 80) in
    (forall y x, 0 <= x < MAX_TERM_COLS ->
       cell_at t' y x =
         if (y =? cursor_y t) && (cursor_x t <=? x) && (x <? TERM_COLS - k)
         then cell_at t y (x + k)
         else if (y =? cursor_y t) && (TERM_COLS - k <=? x) && (x <? TERM_COLS)
              then blanked t (cell_at t y x) else cell_at t y x) /\
    cursor_x t' = cursor_x t /\ cursor_y t' = cursor_y t /\
    same_settings t t' /\ state t' = STATE_NORMAL.
Proof.
  intros t n Hs Hcy Hcx Hn Hk. cbv zeta.
  pose proof rows_range as HR.
  unfold csi_seq1. rewrite feed_csi_one by (try assumption; lia).
  rewrite (proj1 (handle_csi_chars _)).
  pose proof (display_same_param1 n t) as HT.
  pose proof HT as (_ & Ex & Ey & _).
  pose proof (csi_count_param1 n t (proj1 Hn)) as Ec.
  split; [|exact (cells_only_sequence t _ _ HT (same_but_cells_delete_chars _))].
  intros y x Hx.
  unfold cell_at at 1.
  rewrite (proj1 (proj2 (proj2 (csi_done_fields _)))).
  fold (cell_at (csi_delete_chars (csi_param1 n t)) y x).
  rewrite delete_chars_cells by (rewrite ?Ex, ?Ec; try assumption; lia).
  rewrite Ec, Ex, Ey.
  destruct (display_same_cell t _ (cell_at (csi_param1 n t) y x) y x HT) as (-> & ->).
  destruct (display_same_cell t _ (cell_at (csi_param1 n t) y x) y
              (x + Z.max n 1) HT) as (_ & ->).
  reflexivity.
Qed.

(** X20.  With the cursor on the grid (a row of the grid, and one of its
    columns or the pending-wrap column), ESC [ n @ with n below 2^30
    inserts k = max(n,1) blank cells at the cursor and never leaves the
    row: the cells from column cursor + k on take the cell k columns to
    their left, the cells from the cursor up to cursor + k, as far as they
    are in the grid, are blanked, and every other cell of the array is left
    as it was.  Cursor and settings are kept. *)
Theorem insert_chars_shifts_row_right :
  forall t n,
    state t = STATE_NORMAL ->
    0 <= cursor_y t < TERM_ROWS -> 0 <= cursor_x t <= TERM_COLS ->
    0 <= n < 2 ^ 30 ->
    let k := Z.max n 1 in
    let t' := term_feed t (csi_seq1 n 64) in
    (forall y x, 0 <= x < MAX_TERM_COLS ->
       cell_at t' y x =
         if (y =? cursor_y t) && (cursor_x t + k <=? x) && (x <? TERM_COLS)
         then cell_at t y (x - k)
         else if (y =? cursor_y t) && (cursor_x t <=? x)
                 && (x <? cursor_x t + k) && (x <? TERM_COLS)
              then blanked t (cell_at t y x) else cell_at t y x) /\
    cursor_x t' = cursor_x t /\ cursor_y t' = cursor_y t /\
    same_settings t t' /\ state t' = STATE_NORMAL.
Proof.
  intros t n Hs Hcy Hcx Hn. cbv zeta.
  pose proof rows_range as HR.
  unfold csi_seq1. rewrite feed_csi_one by (try assumption; lia).
  rewrite (proj2 (handle_csi_chars _)).
  pose proof (display_same_param1 n t) as HT.
  pose proof HT as (_ & Ex & Ey & _).
  pose proof (csi_count_param1 n t (proj1 Hn)) as Ec.
  split; [|exact (cells_only_sequence t _ _ HT (same_but_cells_insert_chars _))].
  intros y x Hx.
  unfold cell_at at 1.
  rewrite (proj1 (proj2 (proj2 (csi_done_fields _)))).
  fold (cell_at (csi_insert_chars (csi_param1 n t)) y x).
  rewrite insert_chars_cells by (rewrite ?Ex, ?Ec; try assumption; lia).
  rewrite Ec, Ex, Ey.
  destruct (display_same_cell t _ (cell_at (csi_param1 n t) y x) y x HT) as (-> & ->).
  destruct (display_same_cell t _ (cell_at (csi_param1 n t) y x) y
              (x - Z.max n 1) HT) as (_ & ->).
  reflexivity.
Qed.

End Characters.

(** ** The initial screen *)

Section Initial.

Hypothesis cols_range : 40 <= TERM_COLS <= MAX_TERM_COLS.
Hypothesis rows_range : 10 <= TERM_ROWS <= MAX_TERM_ROWS.

(** X21.  [term_init] leaves every cell of the grid a space in white on
    black, not bold, and every cell of the array outside the grid zeroed;
    the cursor is visible at the top left corner, the scroll region is the
    whole grid and no PTY is attached. *)
Theorem term_init_blank_screen :
  forall y x,
    0 <= x < MAX_TERM_COLS ->
    cell_at term_init y x =
      (if (0 <=? y) && (y <? TERM_ROWS) && (x <? TERM_COLS)
       then cell.mk 32 0x00FFFFFF 0 0 else cell.zero) /\
    cursor_x term_init = 0 /\ cursor_y term_init = 0 /\
    cursor_visible term_init = 1 /\
    scroll_top term_init = 0 /\ scroll_bottom term_init = TERM_ROWS - 1 /\
    state term_init = STATE_NORMAL /\ master_fd term_init = -1.
Proof.
  intros y x Hx.
  destruct term_init_fields
    as (E1 & E2 & E3 & E4 & E5 & _ & _ & _ & _ & _ & _ & E12 & _).
  split; [|repeat split; try assumption].
  - unfold term_init. cbv zeta.
    rewrite (blank_rows_cell_at cols_range) by exact Hx.
    destruct ((0 <=? y) && (y <? TERM_ROWS) && (x <? TERM_COLS)); reflexivity.
  - unfold term_init. cbv zeta.
    match goal with
    | |- cursor_visible (blank_rows ?a ?b ?t0) = _ =>
        pose proof (same_but_cells_blank_rows a b t0) as F
    end.
    frame_fields F.
Qed.

End Initial.

(** * Accesses inside the array

    The cursor stays on the grid, and no cell outside
    [cells[MAX_TERM_ROWS][MAX_TERM_COLS]] is written, along every stream
    whose bytes are in bounds ([run_in_bounds]). *)

Lemma outside_kept_refl t : outside_kept t t.
Proof. intros i _. reflexivity. Qed.

Lemma outside_kept_trans t u v :
  outside_kept t u -> outside_kept u v -> outside_kept t v.
Proof. intros H1 H2 i Hi. rewrite (H2 i Hi). apply H1, Hi. Qed.

Lemma outside_kept_cells t t' : cells t' = cells t -> outside_kept t t'.
Proof. intros E i _. rewrite E. reflexivity. Qed.

Lemma array_only_refl t : array_only t t.
Proof. split; [apply same_but_cells_refl|apply outside_kept_refl]. Qed.

Lemma array_only_trans t u v : array_only t u -> array_only u v -> array_only t v.
Proof.
  intros [A1 A2] [B1 B2].
  split; [eapply same_but_cells_trans|eapply outside_kept_trans]; eassumption.
Qed.

Lemma array_only_loop (t : terminal) (body : Z -> terminal -> terminal)
      (step : Z) (n : nat) (i : Z) :
  (forall k s, (k < n)%nat -> array_only t s ->
               array_only s (body (i + Z.of_nat k * step) s)) ->
  array_only t (for_count n i step body t).
Proof.
  intros Hb.
  apply (for_count_invariant (fun _ s => array_only t s) body step n i t).
  - apply array_only_refl.
  - intros k s Hk Hs. eapply array_only_trans; [exact Hs|]. apply Hb; assumption.
Qed.

Lemma array_only_for_up lo hi (body : Z -> terminal -> terminal) t :
  (forall k s, lo <= k < hi -> array_only t s -> array_only s (body k s)) ->
  array_only t (for_up lo hi body t).
Proof.
  intros Hb. unfold for_up. apply array_only_loop.
  intros k s Hk Hs. apply Hb; [lia|exact Hs].
Qed.

Lemma array_only_for_down hi lo (body : Z -> terminal -> terminal) t :
  (forall k s, lo < k <= hi -> array_only t s -> array_only s (body k s)) ->
  array_only t (for_down hi lo body t).
Proof.
  intros Hb. unfold for_down. apply array_only_loop.
  intros k s Hk Hs. apply Hb; [lia|exact Hs].
Qed.

Lemma in_array_true i :
  in_array i = true <-> 0 <= i < MAX_TERM_ROWS * MAX_TERM_COLS.
Proof.
  unfold in_array. rewrite andb_true_iff, Z.leb_le, Z.ltb_lt. reflexivity.
Qed.

Lemma in_array_false i :
  in_array i = false -> i < 0 \/ MAX_TERM_ROWS * MAX_TERM_COLS <= i.
Proof.
  unfold in_array. intros H. apply andb_false_iff in H.
  destruct H as [H|H]; [apply Z.leb_gt in H|apply Z.ltb_ge in H]; lia.
Qed.

Lemma array_only_store y x c t :
  in_array (cell_index y x) = true -> array_only t (store_cell y x c t).
Proof.
  intros Hin. split; [reflexivity|]. intros i Hi. cbn.
  destruct (Z.eqb_spec i (cell_index y x)); [subst i; congruence|reflexivity].
Qed.

(** A span whose offsets are offsets of the array. *)
Lemma array_only_blank_span y lo hi t :
  0 <= cell_index y lo -> cell_index y hi <= MAX_TERM_ROWS * MAX_TERM_COLS ->
  array_only t (blank_span y lo hi t).
Proof.
  intros Hlo Hhi. split; [apply same_but_cells_blank_span|].
  intros i Hi. rewrite blank_span_cells. apply in_array_false in Hi.
  destruct (Z.leb_spec (cell_index y lo) i); destruct (Z.ltb_spec i (cell_index y hi));
    cbn [andb]; try reflexivity; lia.
Qed.

Lemma csi_count_pos t : 1 <= csi_count t.
Proof.
  unfold csi_count. destruct (_ && _) eqn:E; [|lia].
  apply andb_prop in E. destruct E as [_ E]. apply Z.gtb_lt in E. lia.
Qed.

Lemma csi_pos_nonneg i t : 0 <= csi_pos i 0 t.
Proof.
  unfold csi_pos. destruct (_ && _) eqn:E; [|lia].
  apply andb_prop in E. destruct E as [_ E]. apply Z.gtb_lt in E. lia.
Qed.

Lemma region_in_grid_frame t s :
  same_but_cells t s -> region_in_grid t -> region_in_grid s.
Proof.
  intros F H. unfold region_in_grid.
  assert (E1 : scroll_top s = scroll_top t) by (frame_fields F).
  assert (E2 : scroll_bottom s = scroll_bottom t) by (frame_fields F).
  rewrite E1, E2. exact H.
Qed.

Lemma cursor_on_grid_frame t s :
  same_but_cells t s -> cursor_on_grid t -> cursor_on_grid s.
Proof.
  intros F H. unfold cursor_on_grid.
  assert (E1 : cursor_x s = cursor_x t) by (frame_fields F).
  assert (E2 : cursor_y s = cursor_y t) by (frame_fields F).
  rewrite E1, E2. exact H.
Qed.

Lemma array_only_stays t t' :
  cursor_on_grid t -> array_only t t' -> stays_in_bounds t t'.
Proof.
  intros Hc [F O]. split; [exact (cursor_on_grid_frame t t' F Hc)|exact O].
Qed.

Lemma grid_kept_stays t t' :
  cursor_on_grid t -> grid_kept t t' -> stays_in_bounds t t'.
Proof.
  intros Hc (Ec & Ex & Ey). split; [|apply outside_kept_cells; exact Ec].
  unfold cursor_on_grid. rewrite Ex, Ey. exact Hc.
Qed.

Lemma csi_in_bounds_cases t :
  csi_in_bounds t 65 = (- 2 ^ 31 <=? cursor_y t - csi_count t) /\
  csi_in_bounds t 66 = (cursor_y t + csi_count t <? 2 ^ 31) /\
  csi_in_bounds t 67 = (cursor_x t + csi_count t <? 2 ^ 31) /\
  csi_in_bounds t 68 = (- 2 ^ 31 <=? cursor_x t - csi_count t) /\
  csi_in_bounds t 74 =
    (if csi_mode t =? 1 then in_array (cell_index (cursor_y t) (cursor_x t)) else true) /\
  csi_in_bounds t 75 =
    (if csi_mode t =? 1 then in_array (cell_index (cursor_y t) (cursor_x t)) else true) /\
  csi_in_bounds t 80 = (csi_count t <=? cell_index (cursor_y t) TERM_COLS) /\
  csi_in_bounds t 64 = (cursor_x t + csi_count t <? 2 ^ 31).
Proof. repeat split. Qed.

Section Bounds.

Hypothesis cols_range : 40 <= TERM_COLS <= MAX_TERM_COLS.
Hypothesis rows_range : 10 <= TERM_ROWS <= MAX_TERM_ROWS.

Ltac grid_lia :=
  pose proof cols_range; pose proof rows_range;
  unfold cell_index, MAX_TERM_COLS, MAX_TERM_ROWS in *; lia.

(** ** Rows and spans of the grid *)

Lemma array_only_blank_in_row y lo hi t :
  0 <= y < TERM_ROWS -> 0 <= lo -> hi <= TERM_COLS ->
  array_only t (blank_span y lo hi t).
Proof. intros Hy Hlo Hhi. apply array_only_blank_span; grid_lia. Qed.

Lemma array_only_blank_rows lo hi t :
  0 <= lo -> hi <= TERM_ROWS -> array_only t (blank_rows lo hi t).
Proof.
  intros Hlo Hhi. unfold blank_rows. apply array_only_for_up.
  intros k s Hk _. apply array_only_blank_in_row; lia.
Qed.

Lemma array_only_copy_row d s t :
  0 <= d < TERM_ROWS -> array_only t (copy_row d s t).
Proof.
  intros Hd. split; [reflexivity|]. intros i Hi. cbn.
  apply in_array_false in Hi.
  destruct (Z.leb_spec (cell_index d 0) i);
    destruct (Z.ltb_spec i (cell_index d 0 + TERM_COLS));
    cbn [andb]; try reflexivity; exfalso; grid_lia.
Qed.

Lemma array_only_copy_rows_up lo hi t :
  0 <= lo -> hi <= TERM_ROWS ->
  array_only t (for_up lo hi (fun y => copy_row y (y + 1)) t).
Proof.
  intros Hlo Hhi. apply array_only_for_up.
  intros k s Hk _. apply array_only_copy_row. lia.
Qed.

Lemma array_only_copy_rows_down hi lo t :
  0 <= lo + 1 -> hi < TERM_ROWS ->
  array_only t (for_down hi lo (fun y => copy_row y (y - 1)) t).
Proof.
  intros Hlo Hhi. apply array_only_for_down.
  intros k s Hk _. apply array_only_copy_row. lia.
Qed.

(** ** Scrolling, line feed and printing *)

Lemma array_only_scroll_up t : region_in_grid t -> array_only t (term_scroll_up t).
Proof.
  intros [Ht Hb]. unfold term_scroll_up. cbv zeta.
  set (t1 := for_up (scroll_top t) (scroll_bottom t) _ t).
  assert (A1 : array_only t t1) by (apply array_only_copy_rows_up; lia).
  assert (Eb : scroll_bottom t1 = scroll_bottom t) by (frame_fields (proj1 A1)).
  eapply array_only_trans; [exact A1|].
  apply array_only_blank_in_row; lia.
Qed.

Lemma array_only_scroll_down t : region_in_grid t -> array_only t (term_scroll_down t).
Proof.
  intros [Ht Hb]. unfold term_scroll_down. cbv zeta.
  set (t1 := for_down (scroll_bottom t) (scroll_top t) _ t).
  assert (A1 : array_only t t1) by (apply array_only_copy_rows_down; lia).
  assert (Eb : scroll_top t1 = scroll_top t) by (frame_fields (proj1 A1)).
  eapply array_only_trans; [exact A1|].
  apply array_only_blank_in_row; lia.
Qed.

Lemma newline_stays t :
  region_in_grid t -> cursor_on_grid t -> stays_in_bounds t (term_newline t).
Proof.
  intros Hr [Hy Hx]. pose proof Hr as [Ht Hb]. pose proof rows_range as HR.
  unfold MAX_TERM_ROWS in HR.
  destruct (newline_fields t) as (Ex & _ & _ & _ & _ & _ & Ey).
  rewrite wrap_int_small in Ey by lia.
  split.
  - unfold cursor_on_grid. rewrite Ex, Ey.
    destruct (Z.gtb_spec (cursor_y t + 1) (scroll_bottom t)); lia.
  - unfold term_newline. cbv zeta.
    match goal with
    | |- outside_kept _ (if ?c then _ else _) => destruct c
    end; [|apply outside_kept_cells; reflexivity].
    match goal with
    | |- outside_kept _ (term_scroll_up ?u) =>
        apply (outside_kept_trans t u);
          [apply outside_kept_cells; reflexivity
          |exact (proj2 (array_only_scroll_up u Hr))]
    end.
Qed.

Lemma putchar_stays cp t :
  region_in_grid t -> cursor_on_grid t -> stays_in_bounds t (term_putchar cp t).
Proof.
  intros Hr Hc. pose proof Hr as [Ht Hb]. pose proof Hc as [Hy Hx].
  pose proof rows_range as HR. pose proof cols_range as HC.
  unfold MAX_TERM_ROWS in HR. unfold MAX_TERM_COLS in HC.
  destruct (putchar_writes cp t cols_range rows_range) as (_ & Py & Px & _).
  { repeat split; lia. }
  split; [split; lia|].
  destruct (Z.lt_ge_cases (cursor_x t) TERM_COLS) as [Hlt|Hge].
  - rewrite putchar_in_row by lia.
    apply (outside_kept_trans _ (store_cell (cursor_y t) (cursor_x t)
             (cell.mk cp (fg_color t) (bg_color t) (bold t)) t)).
    + apply array_only_store. apply in_array_true. grid_lia.
    + apply outside_kept_cells. reflexivity.
  - destruct (putchar_at_frontier cp t) as (E & Ex & Ey); try lia.
    rewrite E. set (tn := term_newline (term_carriage_return t)) in *.
    assert (Sn : stays_in_bounds t tn).
    { apply (newline_stays (term_carriage_return t)); [exact Hr|].
      split; [exact Hy|]. cbn. lia. }
    destruct Sn as [[Ny Nx] No].
    eapply outside_kept_trans; [exact No|].
    apply (outside_kept_trans _ (store_cell (cursor_y tn) 0
             (cell.mk cp (fg_color t) (bg_color t) (bold t)) tn)).
    + apply array_only_store. apply in_array_true. grid_lia.
    + apply outside_kept_cells. reflexivity.
Qed.

(** ** Control sequences *)

Lemma cursor_position_stays t : stays_in_bounds t (csi_cursor_position t).
Proof.
  pose proof (csi_pos_nonneg 0 t) as H0. pose proof (csi_pos_nonneg 1 t) as H1.
  pose proof rows_range as HR. pose proof cols_range as HC.
  unfold csi_cursor_position. cbv zeta.
  change (csi_pos 1 0 (set_cursor_y (csi_pos 0 0 t) t)) with (csi_pos 1 0 t).
  cbn [cursor_x cursor_y set_cursor_x set_cursor_y].
  destruct (Z.geb_spec (csi_pos 0 0 t) TERM_ROWS);
    cbn [cursor_x cursor_y set_cursor_x set_cursor_y];
    destruct (Z.geb_spec (csi_pos 1 0 t) TERM_COLS);
    (split; [unfold cursor_on_grid; cbn [cursor_x cursor_y set_cursor_x set_cursor_y]; lia
            |apply outside_kept_cells; reflexivity]).
Qed.

Lemma line_absolute_stays t :
  cursor_on_grid t -> stays_in_bounds t (csi_line_absolute t).
Proof.
  intros [Hy Hx]. pose proof (csi_pos_nonneg 0 t) as H0. pose proof rows_range as HR.
  unfold csi_line_absolute. cbv zeta.
  cbn [cursor_x cursor_y set_cursor_x set_cursor_y].
  destruct (Z.geb_spec (csi_pos 0 0 t) TERM_ROWS);
    (split; [unfold cursor_on_grid; cbn [cursor_x cursor_y set_cursor_x set_cursor_y]; lia
            |apply outside_kept_cells; reflexivity]).
Qed.

Lemma column_absolute_stays t :
  cursor_on_grid t -> stays_in_bounds t (csi_column_absolute t).
Proof.
  intros [Hy Hx]. pose proof (csi_pos_nonneg 0 t) as H0. pose proof cols_range as HC.
  unfold csi_column_absolute. cbv zeta.
  cbn [cursor_x cursor_y set_cursor_x set_cursor_y].
  destruct (Z.geb_spec (csi_pos 0 0 t) TERM_COLS);
    (split; [unfold cursor_on_grid; cbn [cursor_x cursor_y set_cursor_x set_cursor_y]; lia
            |apply outside_kept_cells; reflexivity]).
Qed.

Lemma cursor_up_stays t :
  cursor_on_grid t -> - 2 ^ 31 <= cursor_y t - csi_count t ->
  stays_in_bounds t (csi_cursor_up t).
Proof.
  intros [Hy Hx] Hb. pose proof (csi_count_pos t) as Hk. pose proof rows_range as HR.
  unfold MAX_TERM_ROWS in HR.
  unfold csi_cursor_up. cbv zeta. rewrite wrap_int_small by lia.
  cbn [cursor_x cursor_y set_cursor_x set_cursor_y].
  destruct (Z.ltb_spec (cursor_y t - csi_count t) 0);
    (split; [unfold cursor_on_grid; cbn [cursor_x cursor_y set_cursor_x set_cursor_y]; lia
            |apply outside_kept_cells; reflexivity]).
Qed.

Lemma cursor_down_stays t :
  cursor_on_grid t -> cursor_y t + csi_count t < 2 ^ 31 ->
  stays_in_bounds t (csi_cursor_down t).
Proof.
  intros [Hy Hx] Hb. pose proof (csi_count_pos t) as Hk. pose proof rows_range as HR.
  unfold csi_cursor_down. cbv zeta. rewrite wrap_int_small by lia.
  cbn [cursor_x cursor_y set_cursor_x set_cursor_y].
  destruct (Z.geb_spec (cursor_y t + csi_count t) TERM_ROWS);
    (split; [unfold cursor_on_grid; cbn [cursor_x cursor_y set_cursor_x set_cursor_y]; lia
            |apply outside_kept_cells; reflexivity]).
Qed.

Lemma cursor_forward_stays t :
  cursor_on_grid t -> cursor_x t + csi_count t < 2 ^ 31 ->
  stays_in_bounds t (csi_cursor_forward t).
Proof.
  intros [Hy Hx] Hb. pose proof (csi_count_pos t) as Hk. pose proof cols_range as HC.
  unfold csi_cursor_forward. cbv zeta. rewrite wrap_int_small by lia.
  cbn [cursor_x cursor_y set_cursor_x set_cursor_y].
  destruct (Z.geb_spec (cursor_x t + csi_count t) TERM_COLS);
    (split; [unfold cursor_on_grid; cbn [cursor_x cursor_y set_cursor_x set_cursor_y]; lia
            |apply outside_kept_cells; reflexivity]).
Qed.

Lemma cursor_backward_stays t :
  cursor_on_grid t -> - 2 ^ 31 <= cursor_x t - csi_count t ->
  stays_in_bounds t (csi_cursor_backward t).
Proof.
  intros [Hy Hx] Hb. pose proof (csi_count_pos t) as Hk. pose proof cols_range as HC.
  unfold MAX_TERM_COLS in HC.
  unfold csi_cursor_backward. cbv zeta. rewrite wrap_int_small by lia.
  cbn [cursor_x cursor_y set_cursor_x set_cursor_y].
  destruct (Z.ltb_spec (cursor_x t - csi_count t) 0);
    (split; [unfold cursor_on_grid; cbn [cursor_x cursor_y set_cursor_x set_cursor_y]; lia
            |apply outside_kept_cells; reflexivity]).
Qed.

Lemma array_only_erase_line t :
  cursor_on_grid t ->
  (csi_mode t = 1 -> in_array (cell_index (cursor_y t) (cursor_x t)) = true) ->
  array_only t (csi_erase_line t).
Proof.
  intros [Hy Hx] Hm. unfold csi_erase_line. cbv zeta. unfold csi_mode in Hm.
  destruct (Z.eqb_spec (num_escape_params t) 0) as [En|En]; cbn [orb].
  - apply array_only_blank_in_row; lia.
  - destruct (Z.eqb_spec (list_get (escape_params t) 0) 0);
      [apply array_only_blank_in_row; lia|].
    destruct (Z.eqb_spec (list_get (escape_params t) 0) 1) as [E1|E1].
    + specialize (Hm E1). apply in_array_true in Hm.
      apply array_only_blank_span; grid_lia.
    + destruct (_ =? 2); [apply array_only_blank_in_row; lia|apply array_only_refl].
Qed.

Lemma array_only_erase_display t :
  cursor_on_grid t ->
  (csi_mode t = 1 -> in_array (cell_index (cursor_y t) (cursor_x t)) = true) ->
  array_only t (csi_erase_display t).
Proof.
  intros [Hy Hx] Hm. pose proof rows_range as HR. unfold MAX_TERM_ROWS in HR.
  unfold csi_erase_display. cbv zeta. unfold csi_mode in Hm.
  assert (A0 : array_only t
                 (blank_rows (wrap_int (cursor_y t + 1)) TERM_ROWS
                    (blank_span (cursor_y t) (cursor_x t) TERM_COLS t))).
  { apply (array_only_trans _ (blank_span (cursor_y t) (cursor_x t) TERM_COLS t));
      [apply array_only_blank_in_row; lia|].
    rewrite wrap_int_small by lia. apply array_only_blank_rows; lia. }
  destruct (Z.eqb_spec (num_escape_params t) 0) as [En|En]; cbn [orb]; [exact A0|].
  destruct (Z.eqb_spec (list_get (escape_params t) 0) 0); [exact A0|].
  destruct (Z.eqb_spec (list_get (escape_params t) 0) 1) as [E1|E1].
  - specialize (Hm E1). apply in_array_true in Hm.
    set (t1 := blank_rows 0 (cursor_y t) t).
    assert (A1 : array_only t t1) by (apply array_only_blank_rows; lia).
    eapply array_only_trans; [exact A1|].
    apply array_only_blank_span; grid_lia.
  - destruct (_ || _); [apply array_only_blank_rows; lia|apply array_only_refl].
Qed.

Lemma array_only_csi_scroll_up t : region_in_grid t -> array_only t (csi_scroll_up t).
Proof.
  intros Hr. unfold csi_scroll_up. apply array_only_for_up.
  intros k s _ [F _]. apply array_only_scroll_up.
  exact (region_in_grid_frame t s F Hr).
Qed.

Lemma array_only_csi_scroll_down t : region_in_grid t -> array_only t (csi_scroll_down t).
Proof.
  intros Hr. unfold csi_scroll_down. apply array_only_for_up.
  intros k s _ [F _]. apply array_only_scroll_down.
  exact (region_in_grid_frame t s F Hr).
Qed.

Lemma array_only_insert_line t :
  0 <= cursor_y t < TERM_ROWS -> 0 <= scroll_bottom t < TERM_ROWS ->
  array_only t (csi_insert_line t).
Proof.
  intros Hy0 Hb0. unfold csi_insert_line. apply array_only_for_up.
  intros k s _ [F _].
  assert (Ey : cursor_y s = cursor_y t) by (frame_fields F).
  assert (Eb : scroll_bottom s = scroll_bottom t) by (frame_fields F).
  set (s1 := for_down (scroll_bottom s) (cursor_y s) _ s).
  assert (A1 : array_only s s1) by (apply array_only_copy_rows_down; lia).
  eapply array_only_trans; [exact A1|].
  apply array_only_blank_in_row; lia.
Qed.

Lemma array_only_delete_line t :
  0 <= cursor_y t < TERM_ROWS -> 0 <= scroll_bottom t < TERM_ROWS ->
  array_only t (csi_delete_line t).
Proof.
  intros Hy0 Hb0. unfold csi_delete_line. apply array_only_for_up.
  intros k s _ [F _].
  assert (Ey : cursor_y s = cursor_y t) by (frame_fields F).
  assert (Eb : scroll_bottom s = scroll_bottom t) by (frame_fields F).
  set (s1 := for_up (cursor_y s) (scroll_bottom s) _ s).
  assert (A1 : array_only s s1) by (apply array_only_copy_rows_up; lia).
  eapply array_only_trans; [exact A1|].
  apply array_only_blank_in_row; lia.
Qed.

Lemma array_only_erase_chars t : cursor_on_grid t -> array_only t (csi_erase_chars t).
Proof.
  intros [Hy Hx]. rewrite csi_erase_chars_span.
  apply array_only_blank_in_row; lia.
Qed.

Lemma array_only_delete_chars t :
  cursor_on_grid t -> csi_count t <= cell_index (cursor_y t) TERM_COLS ->
  array_only t (csi_delete_chars t).
Proof.
  intros [Hy Hx] Hb. pose proof (csi_count_pos t) as Hk.
  pose proof cols_range as HC. unfold MAX_TERM_COLS in HC.
  split; [apply same_but_cells_delete_chars|].
  intros i Hi. apply in_array_false in Hi.
  unfold csi_delete_chars. cbv zeta.
  set (k := csi_count t) in *.
  set (t1 := for_up (cursor_x t) (TERM_COLS - k) _ t).
  destruct (shift_left_cells k (cursor_x t) (TERM_COLS - k) t i) as [F1 S1];
    try lia.
  fold t1 in F1, S1.
  assert (Ey : cursor_y t1 = cursor_y t) by (frame_fields F1).
  rewrite blank_loop_span, Ey, blank_span_cells, S1.
  destruct (Z.leb_spec (cell_index (cursor_y t) (TERM_COLS - k)) i);
    destruct (Z.ltb_spec i (cell_index (cursor_y t) TERM_COLS));
    destruct (Z.leb_spec (cell_index (cursor_y t) (cursor_x t)) i);
    destruct (Z.ltb_spec i (cell_index (cursor_y t) (TERM_COLS - k)));
    cbn [andb]; try reflexivity; exfalso; grid_lia.
Qed.

Lemma array_only_insert_chars t :
  cursor_on_grid t -> cursor_x t + csi_count t < 2 ^ 31 ->
  array_only t (csi_insert_chars t).
Proof.
  intros [Hy Hx] Hb. pose proof (csi_count_pos t) as Hk.
  pose proof cols_range as HC. unfold MAX_TERM_COLS in HC.
  split; [apply same_but_cells_insert_chars|].
  intros i Hi. apply in_array_false in Hi.
  unfold csi_insert_chars. cbv zeta.
  set (k := csi_count t) in *.
  rewrite (wrap_int_small (cursor_x t + k)) by lia.
  set (t1 := for_down_ge (TERM_COLS - 1) (cursor_x t + k) _ t).
  destruct (shift_right_cells k (TERM_COLS - 1) (cursor_x t + k) t i) as [F1 S1];
    try lia.
  fold t1 in F1, S1.
  assert (Ey : cursor_y t1 = cursor_y t) by (frame_fields F1).
  assert (Ex : cursor_x t1 = cursor_x t) by (frame_fields F1).
  rewrite blank_loop_span, Ey, Ex.
  rewrite (wrap_int_small (cursor_x t + k)) by lia.
  rewrite blank_span_cells, S1.
  destruct (Z.leb_spec (cell_index (cursor_y t) (cursor_x t)) i);
    destruct (Z.ltb_spec i (cell_index (cursor_y t) (Z.min (cursor_x t + k) TERM_COLS)));
    destruct (Z.leb_spec (cell_index (cursor_y t) (cursor_x t + k)) i);
    destruct (Z.leb_spec i (cell_index (cursor_y t) (TERM_COLS - 1)));
    cbn [andb]; try reflexivity; exfalso; grid_lia.
Qed.

(** Every final byte that is in bounds keeps the cursor on the grid and
    the storage outside the array. *)
Lemma handle_csi_stays final t :
  region_in_grid t -> cursor_on_grid t -> csi_in_bounds t final = true ->
  stays_in_bounds t (term_handle_csi final t).
Proof.
  intros Hr Hc Hb.
  destruct (csi_in_bounds_cases t) as (B65 & B66 & B67 & B68 & B74 & B75 & B80 & B64).
  destruct (in_dec Z.eq_dec final settings_finals) as [Hin|Hout].
  { apply grid_kept_stays; [exact Hc|]. apply handle_csi_grid_kept. exact Hin. }
  assert (N : final <> 109 /\ final <> 104 /\ final <> 108 /\ final <> 114 /\
              final <> 110 /\ final <> 99).
  { unfold settings_finals in Hout. cbn in Hout.
    repeat split; intros ->; apply Hout; tauto. }
  destruct N as (N1 & N2 & N3 & N4 & N5 & N6).
  unfold term_handle_csi.
  destruct ((final =? 72) || (final =? 102)); [apply cursor_position_stays|].
  destruct (Z.eqb_spec final 65) as [->|_].
  { apply cursor_up_stays; [exact Hc|]. rewrite B65 in Hb. apply Z.leb_le, Hb. }
  destruct (Z.eqb_spec final 66) as [->|_].
  { apply cursor_down_stays; [exact Hc|]. rewrite B66 in Hb. apply Z.ltb_lt, Hb. }
  destruct (Z.eqb_spec final 67) as [->|_].
  { apply cursor_forward_stays; [exact Hc|]. rewrite B67 in Hb. apply Z.ltb_lt, Hb. }
  destruct (Z.eqb_spec final 68) as [->|_].
  { apply cursor_backward_stays; [exact Hc|]. rewrite B68 in Hb. apply Z.leb_le, Hb. }
  destruct (Z.eqb_spec final 74) as [->|_].
  { apply array_only_stays; [exact Hc|]. apply array_only_erase_display; [exact Hc|].
    intros E. rewrite B74, E in Hb. exact Hb. }
  destruct (Z.eqb_spec final 75) as [->|_].
  { apply array_only_stays; [exact Hc|]. apply array_only_erase_line; [exact Hc|].
    intros E. rewrite B75, E in Hb. exact Hb. }
  destruct (Z.eqb_spec final 109); [contradiction|].
  destruct (Z.eqb_spec final 104); [contradiction|].
  destruct (Z.eqb_spec final 108); [contradiction|].
  destruct (Z.eqb_spec final 114); [contradiction|].
  destruct (final =? 100); [apply line_absolute_stays; exact Hc|].
  destruct (final =? 71); [apply column_absolute_stays; exact Hc|].
  destruct (final =? 83);
    [apply array_only_stays; [exact Hc|]; apply array_only_csi_scroll_up; exact Hr|].
  destruct (final =? 84);
    [apply array_only_stays; [exact Hc|]; apply array_only_csi_scroll_down; exact Hr|].
  destruct (final =? 76);
    [apply array_only_stays; [exact Hc|];
     apply array_only_insert_line; [exact (proj1 Hc)|exact (proj2 Hr)]|].
  destruct (final =? 77);
    [apply array_only_stays; [exact Hc|];
     apply array_only_delete_line; [exact (proj1 Hc)|exact (proj2 Hr)]|].
  destruct (final =? 88);
    [apply array_only_stays; [exact Hc|]; apply array_only_erase_chars; exact Hc|].
  destruct (Z.eqb_spec final 80) as [->|_].
  { apply array_only_stays; [exact Hc|]. apply array_only_delete_chars; [exact Hc|].
    rewrite B80 in Hb. apply Z.leb_le, Hb. }
  destruct (Z.eqb_spec final 64) as [->|_].
  { apply array_only_stays; [exact Hc|]. apply array_only_insert_chars; [exact Hc|].
    rewrite B64 in Hb. apply Z.ltb_lt, Hb. }
  destruct (Z.eqb_spec final 110); [contradiction|].
  destruct (Z.eqb_spec final 99); [contradiction|].
  split; [exact Hc|apply outside_kept_refl].
Qed.

(** ** One byte, then a stream *)

Lemma stays_refl t : cursor_on_grid t -> stays_in_bounds t t.
Proof. intros Hc. split; [exact Hc|apply outside_kept_refl]. Qed.

Lemma normal_printable_stays ch t :
  region_in_grid t -> cursor_on_grid t -> stays_in_bounds t (normal_printable ch t).
Proof.
  intros Hr Hc. unfold normal_printable. cbv zeta.
  match goal with
  | |- stays_in_bounds _ (if ?c then _ else _) => destruct c
  end.
  - match goal with
    | |- stays_in_bounds _ (set_utf8_buf_len 0 (term_putchar ?cp ?u)) =>
        change (stays_in_bounds u (term_putchar cp u));
          apply putchar_stays; [exact Hr|exact Hc]
    end.
  - exact (stays_refl t Hc).
Qed.

Lemma process_normal_stays ch t :
  region_in_grid t -> cursor_on_grid t -> stays_in_bounds t (process_normal ch t).
Proof.
  intros Hr Hc. pose proof Hc as [Hy Hx].
  pose proof cols_range as HC. unfold MAX_TERM_COLS in HC.
  unfold process_normal.
  destruct (ch =? 27); [exact (stays_refl t Hc)|].
  destruct (ch =? 10).
  { change (stays_in_bounds t (term_newline t)). apply newline_stays; assumption. }
  destruct (ch =? 13).
  { split; [split; [exact Hy|cbn; lia]|apply outside_kept_cells; reflexivity]. }
  destruct (ch =? 8).
  { destruct (Z.gtb_spec (cursor_x t) 0); [|exact (stays_refl t Hc)].
    split; [|apply outside_kept_cells; reflexivity].
    split; [exact Hy|]. cbn. rewrite wrap_int_small by lia. lia. }
  destruct (ch =? 9).
  { cbv zeta. cbn [cursor_x set_cursor_x].
    rewrite (wrap_int_small (cursor_x t + 8)) by lia.
    rewrite land_lnot_7.
    pose proof (Z.mul_div_le (cursor_x t + 8) 8 ltac:(lia)) as L1.
    pose proof (Z.div_pos (cursor_x t + 8) 8 ltac:(lia) ltac:(lia)) as L2.
    assert (L3 : 0 <= 8 * ((cursor_x t + 8) / 8)) by lia.
    set (x8 := 8 * ((cursor_x t + 8) / 8)) in *.
    destruct (Z.geb_spec x8 TERM_COLS).
    - match goal with
      | |- stays_in_bounds _ (set_utf8_buf_len 0 (term_newline ?u)) =>
          change (stays_in_bounds u (term_newline u)); apply newline_stays;
            [exact Hr|split; [exact Hy|cbn; lia]]
      end.
    - split; [|apply outside_kept_cells; reflexivity].
      split; [exact Hy|]. change (0 <= x8 <= TERM_COLS). lia. }
  destruct (ch >=? 32); [apply normal_printable_stays; assumption|].
  exact (stays_refl t Hc).
Qed.

Lemma process_csi_stays ch t :
  region_in_grid t -> cursor_on_grid t -> csi_in_bounds t ch = true ->
  stays_in_bounds t (process_csi ch t).
Proof.
  intros Hr Hc Hb. unfold process_csi.
  destruct (_ && _).
  { cbv zeta. destruct (num_escape_params t =? 0); exact (stays_refl t Hc). }
  destruct (ch =? 59).
  { destruct (_ <? _); exact (stays_refl t Hc). }
  destruct (ch =? 63); [exact (stays_refl t Hc)|].
  destruct (_ && _).
  { change (stays_in_bounds t (term_handle_csi ch t)).
    apply handle_csi_stays; assumption. }
  destruct (_ && _); exact (stays_refl t Hc).
Qed.

(** An in-bounds byte keeps the cursor on the grid and writes no cell
    outside the array. *)
Lemma in_bounds_step t ch :
  region_in_grid t -> cursor_on_grid t -> step_in_bounds t ch = true ->
  stays_in_bounds t (term_process_char t ch).
Proof.
  intros Hr Hc Hb. unfold step_in_bounds in Hb. unfold term_process_char.
  destruct (state t).
  - apply process_normal_stays; assumption.
  - unfold process_esc.
    repeat match goal with
           | |- stays_in_bounds _ (if ?c then _ else _) => destruct c
           end; exact (stays_refl t Hc).
  - apply process_csi_stays; assumption.
  - unfold process_osc. destruct (_ || _); exact (stays_refl t Hc).
Qed.

Lemma in_bounds_run bytes :
  Forall is_byte bytes ->
  forall t, term_inv t -> cursor_on_grid t -> run_in_bounds t bytes = true ->
    term_inv (term_feed t bytes) /\ stays_in_bounds t (term_feed t bytes).
Proof.
  induction 1 as [|b bs Hb Hbs IH]; intros t Hi Hc Hr.
  - split; [exact Hi|exact (stays_refl t Hc)].
  - cbn [run_in_bounds] in Hr. apply andb_prop in Hr. destruct Hr as [R1 R2].
    destruct (in_bounds_step t b (proj1 Hi) Hc R1) as [Sc So].
    destruct (IH (term_process_char t b)
                (inv_term_process_char rows_range t b Hb Hi) Sc R2) as (Ii & Ic & Io).
    cbn [term_feed fold_left]. fold (term_feed (term_process_char t b) bs).
    split; [exact Ii|]. split; [exact Ic|].
    eapply outside_kept_trans; [exact So|exact Io].
Qed.

Lemma term_init_in_bounds :
  term_inv term_init /\ cursor_on_grid term_init /\ outside_untouched term_init.
Proof.
  pose proof rows_range as HR. pose proof cols_range as HC.
  unfold MAX_TERM_ROWS in HR. unfold MAX_TERM_COLS in HC.
  split; [apply inv_term_init; exact rows_range|]. split.
  - destruct term_init_fields as (Ex & Ey & _). unfold cursor_on_grid.
    rewrite Ex, Ey. lia.
  - unfold term_init. cbv zeta. intros i Hi.
    match goal with
    | |- cells (blank_rows 0 TERM_ROWS ?t0) i = _ =>
        destruct (array_only_blank_rows 0 TERM_ROWS t0 ltac:(lia) ltac:(lia)) as [_ O];
          rewrite (O i Hi)
    end.
    reflexivity.
Qed.

(** What holds after an in-bounds stream from [term_init]. *)
Lemma in_bounds_from_init bytes :
  Forall is_byte bytes -> run_in_bounds term_init bytes = true ->
  term_inv (term_feed term_init bytes) /\
  cursor_on_grid (term_feed term_init bytes) /\
  outside_untouched (term_feed term_init bytes).
Proof.
  intros Hb Hr. destruct term_init_in_bounds as (Hi & Hc & Ho).
  destruct (in_bounds_run bytes Hb term_init Hi Hc Hr) as (Ii & Ic & Io).
  split; [exact Ii|]. split; [exact Ic|].
  intros i Hout. rewrite (Io i Hout). apply Ho, Hout.
Qed.

(** ** The scroll region *)

Lemma handle_csi_region X : term_handle_csi 114 X = csi_set_scroll_region X.
Proof. reflexivity. Qed.

(** What CSI r stores, from the two requested bounds. *)
Lemma set_scroll_region_bounds t :
  scroll_top (csi_set_scroll_region t) =
    (if csi_pos 0 0 t >=? TERM_ROWS then 0 else csi_pos 0 0 t) /\
  scroll_bottom (csi_set_scroll_region t) =
    (if csi_pos 1 (TERM_ROWS - 1) t >=? TERM_ROWS
     then TERM_ROWS - 1 else csi_pos 1 (TERM_ROWS - 1) t).
Proof.
  unfold csi_set_scroll_region. cbv zeta.
  cbn [scroll_top scroll_bottom set_scroll_top set_scroll_bottom].
  change (csi_pos 1 (TERM_ROWS - 1) (set_scroll_top (csi_pos 0 0 t) t))
    with (csi_pos 1 (TERM_ROWS - 1) t).
  destruct (csi_pos 0 0 t >=? TERM_ROWS);
    cbn [scroll_top scroll_bottom set_scroll_top set_scroll_bottom];
    destruct (csi_pos 1 (TERM_ROWS - 1) t >=? TERM_ROWS); split; reflexivity.
Qed.

Lemma set_scroll_region_sequence t a b :
  state t = STATE_NORMAL -> 0 <= a < 2 ^ 31 -> 0 <= b < 2 ^ 31 ->
  let t' := term_feed t (csi_seq2 a b 114) in
  scroll_top t' = (if (a =? 0) || (a >? TERM_ROWS) then 0 else a - 1) /\
  scroll_bottom t' =
    (if (b =? 0) || (b >? TERM_ROWS) then TERM_ROWS - 1 else b - 1).
Proof.
  intros Hs Ha Hb. cbv zeta. unfold csi_seq2.
  rewrite feed_csi_two by (try assumption; lia).
  set (T := csi_param2 a b t).
  rewrite (handle_csi_region T).
  destruct (csi_done_fields (csi_set_scroll_region T))
    as (_ & _ & _ & _ & (_ & _ & _ & _ & Et & Eb & _)).
  rewrite Et, Eb.
  destruct (set_scroll_region_bounds T) as [E1 E2]. rewrite E1, E2.
  unfold csi_pos.
  destruct (csi_param2_fields a b t) as (En & E0 & E1' & _). fold T in En, E0, E1'.
  rewrite En, E0, E1'.
  change (2 >? 0) with true. change (2 >? 1) with true. cbn [andb].
  split.
  - destruct (Z.gtb_spec a 0); destruct (Z.eqb_spec a 0); try lia; cbn [orb].
    + destruct (Z.geb_spec (a - 1) TERM_ROWS); destruct (Z.gtb_spec a TERM_ROWS);
        try reflexivity; lia.
    + destruct (Z.geb_spec 0 TERM_ROWS); [|reflexivity]. reflexivity.
  - destruct (Z.gtb_spec b 0); destruct (Z.eqb_spec b 0); try lia; cbn [orb].
    + destruct (Z.geb_spec (b - 1) TERM_ROWS); destruct (Z.gtb_spec b TERM_ROWS);
        try reflexivity; lia.
    + destruct (Z.geb_spec (TERM_ROWS - 1) TERM_ROWS); [lia|reflexivity].
Qed.

(** C1 (amended).  Along every byte stream that stays in bounds (the
    cursor arithmetic an [int], every cell access in the array), after
    every processed byte each bound of the scroll region lies in the grid:
    [0 <= scroll_top < rows] and [0 <= scroll_bottom < rows].  CSI r clamps
    the two requested bounds separately, whatever its parameters are: a
    top at or past [rows] becomes 0, a bottom at or past [rows] becomes
    [rows - 1], and every other request is stored as it is, so that
    [scroll_top <= scroll_bottom] holds whenever the requested top does not
    exceed the requested bottom, and not otherwise.  For ESC [ a ; b r the
    requested top is [a - 1], or 0 for [a = 0], and the requested bottom is
    [b - 1], or [rows - 1] for [b = 0]. *)
Theorem scroll_region_bounds_in_grid :
  (forall bytes, Forall is_byte bytes -> run_in_bounds term_init bytes = true ->
     region_in_grid (term_feed term_init bytes)) /\
  (forall t,
     let top := csi_pos 0 0 t in
     let bottom := csi_pos 1 (TERM_ROWS - 1) t in
     let t' := csi_set_scroll_region t in
     scroll_top t' = (if top >=? TERM_ROWS then 0 else top) /\
     scroll_bottom t' = (if bottom >=? TERM_ROWS then TERM_ROWS - 1 else bottom) /\
     region_in_grid t' /\
     (top <= bottom -> scroll_top t' <= scroll_bottom t') /\
     (bottom < top -> top < TERM_ROWS -> scroll_bottom t' < scroll_top t')) /\
  (forall t a b,
     state t = STATE_NORMAL -> 0 <= a < 2 ^ 31 -> 0 <= b < 2 ^ 31 ->
     let t' := term_feed t (csi_seq2 a b 114) in
     scroll_top t' = (if (a =? 0) || (a >? TERM_ROWS) then 0 else a - 1) /\
     scroll_bottom t' =
       (if (b =? 0) || (b >? TERM_ROWS) then TERM_ROWS - 1 else b - 1)).
Proof.
  pose proof rows_range as HR. pose proof cols_range as HC.
  split; [|split].
  - intros bytes Hb Hr.
    destruct (in_bounds_from_init bytes Hb Hr) as ((Hreg & _) & _). exact Hreg.
  - intros t. cbv zeta.
    destruct (set_scroll_region_bounds t) as [E1 E2]. rewrite E1, E2.
    split; [reflexivity|]. split; [reflexivity|].
    split; [apply csi_set_scroll_region_in_grid; exact rows_range|].
    pose proof (csi_pos_nonneg 0 t) as H0.
    split; intros; destruct (Z.geb_spec (csi_pos 0 0 t) TERM_ROWS);
      destruct (Z.geb_spec (csi_pos 1 (TERM_ROWS - 1) t) TERM_ROWS); lia.
  - intros t a b Hs Ha Hb. apply set_scroll_region_sequence; assumption.
Qed.

(** ** Code points, parser indices and SGR state along a stream *)

(** C6 (amended).  Along every byte stream that stays in bounds, after
    every processed byte every cell of the array holds a code point of at
    most 21 bits, [0 .. 0x1FFFFF]: the space the grid starts with, the zero
    of the cells no row of the grid covers, or the bits the decoder
    assembled; and no cell outside the array has been written.  Nothing
    restricts the code point to Unicode scalar values. *)
Theorem cell_codepoints_at_most_21_bits :
  forall bytes,
    Forall is_byte bytes -> run_in_bounds term_init bytes = true ->
    (forall y x, 0 <= y < MAX_TERM_ROWS -> 0 <= x < MAX_TERM_COLS ->
       0 <= cell.codepoint (cell_at (term_feed term_init bytes) y x) <= 0x1FFFFF) /\
    outside_untouched (term_feed term_init bytes).
Proof.
  intros bytes Hb Hr.
  destruct (in_bounds_from_init bytes Hb Hr) as ((_ & Hc & _) & _ & Ho).
  split; [|exact Ho]. intros y x _ _. apply Hc.
Qed.

(** X1.  Along every byte stream that stays in bounds the parser's arrays
    are indexed inside their bounds, at most sixteen CSI parameters being
    counted and at most three bytes of a UTF-8 sequence pending, and the
    cursor is on a row of the grid, on one of its columns or on the
    pending-wrap column. *)
Theorem parser_indices_in_range :
  forall bytes,
    Forall is_byte bytes -> run_in_bounds term_init bytes = true ->
    index_ok (term_feed term_init bytes) /\
    cursor_on_grid (term_feed term_init bytes).
Proof.
  intros bytes Hb Hr.
  destruct (in_bounds_from_init bytes Hb Hr) as ((_ & _ & _ & Hi) & Hc & _).
  split; assumption.
Qed.

(** X2.  From a state with the scroll region and the cursor on the grid
    and the parser's arrays indexed inside their bounds, a byte that is in
    bounds changes the SGR state, the cursor visibility, the scroll region,
    the PTY descriptor or the bytes written to the PTY only when it is one
    of the final bytes m, h, l, r, n, c of a control sequence; every other
    byte, in every parser state, leaves all of them as they were, keeps the
    cursor on the grid and writes no cell outside the array. *)
Theorem settings_change_only_on_six_finals :
  forall t ch,
    is_byte ch -> region_in_grid t -> index_ok t -> cursor_on_grid t ->
    step_in_bounds t ch = true ->
    (state t = STATE_CSI -> ~ In ch settings_finals) ->
    same_settings t (term_process_char t ch) /\
    cursor_on_grid (term_process_char t ch) /\
    outside_kept t (term_process_char t ch).
Proof.
  intros t ch _ Hr _ Hc Hb Hf.
  split; [apply process_char_same_settings; exact Hf|].
  apply (in_bounds_step t ch Hr Hc Hb).
Qed.

(** X4.  Whatever bytes the terminal has processed since [term_init] along
    a stream that stays in bounds, its SGR state holds two 24-bit RGB
    colours and a bold flag that is 0 or 1: SGR parameters only ever select
    default colours or palette entries. *)
Theorem sgr_state_stays_rgb :
  forall bytes,
    Forall is_byte bytes -> run_in_bounds term_init bytes = true ->
    sgr_ok (term_feed term_init bytes).
Proof.
  intros bytes Hb _. pose proof rows_range as HR. pose proof cols_range as HC.
  assert (H0 : sgr_ok term_init).
  { destruct term_init_fields as (_ & _ & _ & _ & _ & _ & _ & _ & Hf & Hg & Hbo & _).
    unfold sgr_ok. rewrite Hf, Hg, Hbo. lia. }
  clear Hb. unfold term_feed. revert H0. generalize term_init.
  induction bytes as [|b bs IH]; intros t Ht; cbn.
  - exact Ht.
  - apply IH. now apply sgr_ok_process_char.
Qed.

(** ** Insert and delete line *)

(** X18.  With the cursor on a row of the grid and the bottom of the
    scroll region on a row of the grid, delete line (CSI M) and insert line
    (CSI L) are scrolls of the band of rows from the cursor row to the
    bottom of the scroll region: with the top of the region moved to the
    cursor row, CSI S gives the cells of CSI M and CSI T those of CSI L,
    for every parameter state.  Both change cells of the array only.  The
    top of the scroll region itself plays no part in either, so a cursor
    above the region still drags the rows between it and the region
    along. *)
Theorem insert_delete_line_scroll_from_cursor :
  forall t,
    0 <= cursor_y t < TERM_ROWS -> 0 <= scroll_bottom t < TERM_ROWS ->
    let u := set_scroll_top (cursor_y t) t in
    term_handle_csi 83 u = set_scroll_top (cursor_y t) (term_handle_csi 77 t) /\
    term_handle_csi 84 u = set_scroll_top (cursor_y t) (term_handle_csi 76 t) /\
    cells (term_handle_csi 77 t) = cells (term_handle_csi 83 u) /\
    cells (term_handle_csi 76 t) = cells (term_handle_csi 84 u) /\
    array_only t (term_handle_csi 77 t) /\
    array_only t (term_handle_csi 76 t).
Proof.
  intros t Hy Hb. cbv zeta.
  assert (E1 : term_handle_csi 83 (set_scroll_top (cursor_y t) t)
               = set_scroll_top (cursor_y t) (term_handle_csi 77 t)).
  { change (term_handle_csi 83 (set_scroll_top (cursor_y t) t))
      with (csi_scroll_up (set_scroll_top (cursor_y t) t)).
    change (term_handle_csi 77 t) with (csi_delete_line t).
    unfold csi_scroll_up, csi_delete_line, for_up.
    change (csi_count (set_scroll_top (cursor_y t) t)) with (csi_count t).
    apply (line_rounds
             (fun s => blank_span (scroll_bottom s) 0 TERM_COLS
                         (for_up (cursor_y s) (scroll_bottom s)
                            (fun y => copy_row y (y + 1)) s))
             term_scroll_up).
    - apply delete_line_round.
    - intros s. eapply same_but_cells_trans;
        [apply same_but_cells_copy_rows_up|apply same_but_cells_blank_span]. }
  assert (E2 : term_handle_csi 84 (set_scroll_top (cursor_y t) t)
               = set_scroll_top (cursor_y t) (term_handle_csi 76 t)).
  { change (term_handle_csi 84 (set_scroll_top (cursor_y t) t))
      with (csi_scroll_down (set_scroll_top (cursor_y t) t)).
    change (term_handle_csi 76 t) with (csi_insert_line t).
    unfold csi_scroll_down, csi_insert_line, for_up.
    change (csi_count (set_scroll_top (cursor_y t) t)) with (csi_count t).
    apply (line_rounds
             (fun s => blank_span (cursor_y s) 0 TERM_COLS
                         (for_down (scroll_bottom s) (cursor_y s)
                            (fun y => copy_row y (y - 1)) s))
             term_scroll_down).
    - apply insert_line_round.
    - intros s. eapply same_but_cells_trans;
        [apply same_but_cells_copy_rows_down|apply same_but_cells_blank_span]. }
  split; [exact E1|]. split; [exact E2|].
  rewrite E1, E2.
  split; [reflexivity|]. split; [reflexivity|].
  split; [exact (array_only_delete_line t Hy Hb)
         |exact (array_only_insert_line t Hy Hb)].
Qed.

End Bounds.

End Terminal.

(** * The key mapper *)

(** ** Legacy byte input *)

Ltac kbin_fields :=
  cbn [kbin.next kbin.action kbin.output kbin.escape_state kbin.escape_buf
       kbin.escape_buf_len kbin.mods kbin.last_char fst snd length].

Lemma escape_ok_step (ch : Z) (s : kbin.state) :
  kbin.escape_ok s ->
  let r := kbin.kb_process_input ch s in
  kbin.escape_ok (kbin.next r) /\ (length (kbin.output r) <= 1)%nat /\
  (kbin.action r = kb.ACTION_NONE \/ kbin.action r = kb.ACTION_CLEAR_SCREEN \/
   kbin.action r = kb.ACTION_QUIT \/ kbin.action r = kb.ACTION_PASTE \/
   kbin.action r = kb.ACTION_INCREASE_FONT \/
   kbin.action r = kb.ACTION_DECREASE_FONT).
Proof.
  intros [[[Hs Hl]|[Hs Hl]] Hb]; cbv zeta; unfold kbin.kb_process_input; cbv zeta;
    rewrite Hs.
  - cbn [Z.gtb Z.compare Z.eqb andb].
    destruct (Z.eqb_spec ch 27).
    { unfold kbin.escape_ok. kbin_fields. rewrite list_set_length.
      split; [split; [right; lia|exact Hb]|]. split; [lia|tauto]. }
    destruct (Z.ltb_spec ch 32).
    { unfold kbin.control_action.
      repeat match goal with
             | |- context [if ?a =? ?b then _ else _] => destruct (Z.eqb_spec a b)
             end; unfold kbin.escape_ok; kbin_fields;
        (split; [split; [left; split; first [assumption|reflexivity]|exact Hb]|]); split; try lia; tauto. }
    destruct ((ch =? 61) && (kbin.last_char s <? 32) && negb (kbin.last_char s =? 0)).
    { unfold kbin.escape_ok. kbin_fields.
      split; [split; [left; split; first [assumption|reflexivity]|exact Hb]|]. split; [lia|tauto]. }
    destruct ((ch =? 45) && (kbin.last_char s <? 32) && negb (kbin.last_char s =? 0)).
    { unfold kbin.escape_ok. kbin_fields.
      split; [split; [left; split; first [assumption|reflexivity]|exact Hb]|]. split; [lia|tauto]. }
    unfold kbin.escape_ok. kbin_fields.
    split; [split; [left; split; first [assumption|reflexivity]|exact Hb]|]. split; [lia|tauto].
  - cbn [Z.gtb Z.compare Z.eqb Pos.eqb andb].
    rewrite wrap_int_small by lia.
    destruct (Z.ltb_spec (kbin.escape_buf_len s + 1) 15);
      unfold kbin.escape_ok; kbin_fields; rewrite list_set_length;
      (split; [split; [|exact Hb]|split; [lia|tauto]]).
    + right. lia.
    + left. split; reflexivity.
Qed.

Lemma escape_ok_init : kbin.escape_ok kbin.init.
Proof. unfold kbin.escape_ok. cbn. split; [left; split|]; reflexivity. Qed.

(** X22.  Whatever bytes [kb_process_input] is given from the start, its
    escape state is 0 or 1 and never 2, because the block for a running
    escape sequence returns before the test that would set it; so the
    escape buffer is written at an index of at most 14, every call outputs
    at most one byte, and the scroll and copy actions are never returned:
    the branches for arrow and function keys cannot be reached. *)
Theorem kb_process_input_never_reaches_csi_state :
  forall bytes,
    let r := kbin.run bytes kbin.init in
    kbin.escape_ok (snd r) /\
    Forall (fun p => (length (snd p) <= 1)%nat /\
                     fst p <> kb.ACTION_SCROLL_UP /\
                     fst p <> kb.ACTION_SCROLL_DOWN /\
                     fst p <> kb.ACTION_COPY) (fst r).
Proof.
  intros bytes. cbv zeta.
  pose proof escape_ok_init as H0. revert H0. generalize kbin.init.
  induction bytes as [|b bs IH]; intros s Hs; cbn [kbin.run].
  - split; [exact Hs|constructor].
  - cbv zeta. destruct (escape_ok_step b s Hs) as (H1 & H2 & H3).
    destruct (IH _ H1) as [I1 I2].
    cbn [fst snd]. split; [exact I1|]. constructor; [|exact I2].
    cbn [fst snd]. split; [exact H2|].
    repeat split; intros E; rewrite E in H3;
      repeat match goal with
             | K : _ \/ _ |- _ => destruct K as [K|K]
             end; discriminate.
Qed.

Lemma run_swallow (bytes : list Z) :
  forall s,
    kbin.escape_state s = 1 -> 1 <= kbin.escape_buf_len s <= 14 ->
    kbin.escape_buf_len s + Z.of_nat (length bytes) <= 15 ->
    let r := kbin.run bytes s in
    fst r = repeat (kb.ACTION_NONE, []) (length bytes) /\
    kbin.mods (snd r) = kbin.mods s /\ kbin.last_char (snd r) = kbin.last_char s /\
    (if kbin.escape_buf_len s + Z.of_nat (length bytes) <? 15
     then kbin.escape_state (snd r) = 1 /\
          kbin.escape_buf_len (snd r)
            = kbin.escape_buf_len s + Z.of_nat (length bytes)
     else kbin.escape_state (snd r) = 0 /\ kbin.escape_buf_len (snd r) = 0).
Proof.
  induction bytes as [|b bs IH]; intros s Hs Hl Hn; cbv zeta.
  - cbn. rewrite Z.add_0_r. destruct (Z.ltb_spec (kbin.escape_buf_len s) 15); [|lia].
    repeat split; first [assumption|lia].
  - cbn [kbin.run length]. cbv zeta. cbn [fst snd].
    assert (E : kbin.kb_process_input b s =
                kbin.mkres kb.ACTION_NONE (kbin.modifier_bits (kbin.mods s)) []
                  (if kbin.escape_buf_len s + 1 <? 15
                   then kbin.mk (kbin.mods s) 1
                          (list_set (kbin.escape_buf s) (kbin.escape_buf_len s)
                             (kbin.to_char b))
                          (kbin.escape_buf_len s + 1) (kbin.last_char s)
                   else kbin.mk (kbin.mods s) 0
                          (list_set (kbin.escape_buf s) (kbin.escape_buf_len s)
                             (kbin.to_char b))
                          0 (kbin.last_char s))).
    { unfold kbin.kb_process_input. cbv zeta. rewrite Hs.
      cbn [Z.gtb Z.compare Z.eqb Pos.eqb andb].
      rewrite wrap_int_small by lia.
      destruct (kbin.escape_buf_len s + 1 <? 15); reflexivity. }
    rewrite E. cbn [kbin.action kbin.output kbin.next].
    cbn [length] in Hn. rewrite Nat2Z.inj_succ in Hn.
    destruct (Z.ltb_spec (kbin.escape_buf_len s + 1) 15) as [Hlt|Hge].
    + match goal with
      | |- context [kbin.run bs ?s1] =>
          destruct (IH s1) as (I1 & I2 & I3 & I4); [reflexivity|kbin_fields; lia|kbin_fields; lia|]
      end.
      cbn [kbin.escape_buf_len kbin.mods kbin.last_char] in I2, I3, I4.
      rewrite I1, I2, I3. cbn [repeat].
      rewrite Nat2Z.inj_succ.
      replace (kbin.escape_buf_len s + Z.succ (Z.of_nat (length bs)))
        with (kbin.escape_buf_len s + 1 + Z.of_nat (length bs)) by lia.
      repeat split. exact I4.
    + assert (bs = []) by (destruct bs; [reflexivity|cbn [length] in Hn; lia]).
      subst bs. cbn.
      destruct (Z.ltb_spec (kbin.escape_buf_len s + 1) 15); [lia|].
      repeat split.
Qed.

(** X23.  An ESC byte is never passed on, and neither are the fourteen
    bytes after it: each of the fifteen calls returns [ACTION_NONE] with an
    empty output, and after the fifteenth the escape state is back to 0
    with modifiers and [last_char] as before. *)
Theorem escape_byte_swallows_fourteen_more :
  forall s bytes,
    kbin.escape_state s = 0 -> length bytes = 14%nat ->
    let r := kbin.run (27 :: bytes) s in
    fst r = repeat (kb.ACTION_NONE, []) 15 /\
    kbin.escape_state (snd r) = 0 /\ kbin.escape_buf_len (snd r) = 0 /\
    kbin.mods (snd r) = kbin.mods s /\ kbin.last_char (snd r) = kbin.last_char s.
Proof.
  intros s bytes Hs Hn. cbv zeta. cbn [kbin.run]. cbv zeta. cbn [fst snd].
  assert (E : kbin.kb_process_input 27 s =
              kbin.mkres kb.ACTION_NONE (kbin.modifier_bits (kbin.mods s)) []
                (kbin.mk (kbin.mods s) 1
                   (list_set (kbin.escape_buf s) 0 (kbin.to_char 27)) 1
                   (kbin.last_char s))).
  { unfold kbin.kb_process_input. cbv zeta. rewrite Hs. reflexivity. }
  rewrite E. cbn [kbin.action kbin.output kbin.next].
  match goal with
  | |- context [kbin.run bytes ?s1] =>
      destruct (run_swallow bytes s1) as (I1 & I2 & I3 & I4);
        [reflexivity|kbin_fields; lia|kbin_fields; rewrite Hn; lia|]
  end.
  cbn [kbin.escape_buf_len kbin.mods kbin.last_char] in I2, I3, I4.
  rewrite Hn in I1, I4. change (1 + Z.of_nat 14 <? 15) with false in I4.
  rewrite I1. destruct I4 as [I4 I5].
  repeat split; assumption.
Qed.


(** ** Key events *)

Ltac key_conditions :=
  repeat match goal with
         | H : _ && _ = true |- _ => apply andb_prop in H; destruct H
         | H : (_ >=? _) = true |- _ => apply Z.geb_le in H
         | H : (_ <=? _) = true |- _ => apply Z.leb_le in H
         | H : (_ =? _) = true |- _ => apply Z.eqb_eq in H
         | H : (_ =? _) = false |- _ => apply Z.eqb_neq in H
         | H : _ || _ = true |- _ => apply orb_prop in H; destruct H
         | H : _ || _ = false |- _ => apply orb_false_elim in H; destruct H
         end.

(** X25.  The byte sequence [kb_get_sequence] returns for a key has at
    most four bytes, each from 1 to 127, so it fits the eight-byte buffer
    and is a NUL-free C string; each of the six modifier keys yields no
    byte, whatever the flags are; every other key leaves the modifier
    flags as they are. *)
Theorem kb_get_sequence_is_short_ascii :
  forall keycode m,
    let r := kb.kb_get_sequence keycode m in
    (length (fst r) <= 4)%nat /\
    Forall (fun b => 1 <= b <= 127) (fst r) /\
    (In keycode modifier_keys -> fst r = []) /\
    (~ In keycode modifier_keys -> snd r = m).
Proof.
  intros keycode m. cbv zeta.
  pose (Q := fun r : list Z * kb.modifiers =>
               (length (fst r) <= 4)%nat /\
               Forall (fun b => 1 <= b <= 127) (fst r) /\
               (In keycode modifier_keys -> fst r = []) /\
               (~ In keycode modifier_keys -> snd r = m)).
  change (Q (kb.kb_get_sequence keycode m)).
  unfold kb.kb_get_sequence.
  repeat match goal with
         | |- Q (if ?c then _ else _) => let E := fresh "E" in destruct c eqn:E
         end.
  1-3: unfold Q; cbn [fst snd length];
    (split; [lia|split; [constructor|split; [reflexivity|]]]);
    intros Hn; exfalso; apply Hn;
    key_conditions; subst keycode; unfold modifier_keys; cbn [In]; tauto.
  unfold Q. cbn [fst snd].
  assert (Hmod : ~ In keycode modifier_keys).
  { key_conditions. unfold modifier_keys. cbn [In]. intuition congruence. }
  pose (R := fun l : list Z =>
               (length l <= 4)%nat /\ Forall (fun b => 1 <= b <= 127) l).
  match goal with
  | |- (length ?l <= 4)%nat /\ _ => assert (HR : R l)
  end.
  { repeat match goal with
           | |- R (if ?c then _ else _) => let E := fresh "E" in destruct c eqn:E
           end;
      repeat match goal with
             | H : _ = false |- _ => clear H
             end;
      unfold R, kb.one_char; cbn [length]; (split; [lia|]);
      try (repeat (apply Forall_cons; [lia|]); apply Forall_nil);
      (apply Forall_cons; [|apply Forall_nil]);
      try (destruct (kb.shift_pressed m); lia).
    all: key_conditions;
      unfold input_event_codes.KEY_A, input_event_codes.KEY_Z,
        input_event_codes.KEY_1, input_event_codes.KEY_9 in *.
    - destruct (kb.shift_pressed m); lia.
    - assert (keycode = 2 \/ keycode = 3 \/ keycode = 4 \/ keycode = 5 \/
              keycode = 6 \/ keycode = 7 \/ keycode = 8 \/ keycode = 9 \/
              keycode = 10) as K by lia.
      repeat match goal with
             | K : _ \/ _ |- _ => destruct K as [K|K]
             end; subst keycode; destruct (kb.shift_pressed m);
        split; apply Z.leb_le; reflexivity. }
  destruct HR as [H1 H2]. split; [exact H1|]. split; [exact H2|].
  split; [intros Hin; contradiction|intros _; reflexivity].
Qed.

(** X26.  Which byte a letter key yields is computed from the key code,
    ['a' + (keycode - KEY_A)], for the key codes from [KEY_A] to [KEY_Z];
    these are the codes 30 to 44 of the middle and bottom keyboard rows, so
    KEY_S yields 'b'.  The letter keys whose codes lie outside that range,
    Q to P and X to M, yield no byte at all without Ctrl. *)
Theorem letter_byte_is_offset_of_key_code :
  forall m keycode,
    kb.ctrl_pressed m = false ->
    (input_event_codes.KEY_A <= keycode <= input_event_codes.KEY_Z ->
     keycode <> input_event_codes.KEY_LEFTSHIFT ->
     fst (kb.kb_get_sequence keycode m) =
       [(if kb.shift_pressed m then 65 else 97)
        + (keycode - input_event_codes.KEY_A)]) /\
    (input_event_codes.KEY_Q <= keycode <= input_event_codes.KEY_P \/
     input_event_codes.KEY_X <= keycode <= input_event_codes.KEY_M ->
     fst (kb.kb_get_sequence keycode m) = []).
Proof.
  intros [ctrl alt shift] keycode Hc. cbn in Hc. subst ctrl.
  unfold input_event_codes.KEY_A, input_event_codes.KEY_Z,
    input_event_codes.KEY_LEFTSHIFT, input_event_codes.KEY_Q,
    input_event_codes.KEY_P, input_event_codes.KEY_X, input_event_codes.KEY_M.
  split.
  - intros Hr Hs.
    assert (keycode = 30 \/ keycode = 31 \/ keycode = 32 \/ keycode = 33 \/
            keycode = 34 \/ keycode = 35 \/ keycode = 36 \/ keycode = 37 \/
            keycode = 38 \/ keycode = 39 \/ keycode = 40 \/ keycode = 41 \/
            keycode = 43 \/ keycode = 44) as K by lia.
    repeat match goal with
           | K : _ \/ _ |- _ => destruct K as [K|K]
           end; subst keycode; destruct shift; reflexivity.
  - intros Hr.
    assert (keycode = 16 \/ keycode = 17 \/ keycode = 18 \/ keycode = 19 \/
            keycode = 20 \/ keycode = 21 \/ keycode = 22 \/ keycode = 23 \/
            keycode = 24 \/ keycode = 25 \/ keycode = 45 \/ keycode = 46 \/
            keycode = 47 \/ keycode = 48 \/ keycode = 49 \/ keycode = 50) as K by lia.
    repeat match goal with
           | K : _ \/ _ |- _ => destruct K as [K|K]
           end; subst keycode; reflexivity.
Qed.

(** X27.  Modifier flags and the quit key.  Pressing a Ctrl, Shift or Alt
    key (left or right) sets that flag and no other, releasing it clears
    that flag and no other, so a press followed by the release leaves the
    flag clear; a key that is not a modifier changes no flag on press or
    release; and [kb_map_key] returns [ACTION_QUIT] for [KEY_Q] with Ctrl
    held and [ACTION_NONE] in every other case. *)
Theorem modifier_press_release_and_quit :
  forall keycode m,
    let pressed := snd (kb.kb_get_sequence keycode m) in
    let released := kb.kb_handle_release keycode m in
    (keycode = input_event_codes.KEY_LEFTCTRL \/
     keycode = input_event_codes.KEY_RIGHTCTRL ->
     pressed = kb.mk true (kb.alt_pressed m) (kb.shift_pressed m) /\
     released = kb.mk false (kb.alt_pressed m) (kb.shift_pressed m)) /\
    (keycode = input_event_codes.KEY_LEFTSHIFT \/
     keycode = input_event_codes.KEY_RIGHTSHIFT ->
     pressed = kb.mk (kb.ctrl_pressed m) (kb.alt_pressed m) true /\
     released = kb.mk (kb.ctrl_pressed m) (kb.alt_pressed m) false) /\
    (keycode = input_event_codes.KEY_LEFTALT \/
     keycode = input_event_codes.KEY_RIGHTALT ->
     pressed = kb.mk (kb.ctrl_pressed m) true (kb.shift_pressed m) /\
     released = kb.mk (kb.ctrl_pressed m) false (kb.shift_pressed m)) /\
    (In keycode modifier_keys ->
     kb.kb_handle_release keycode pressed = released) /\
    (~ In keycode modifier_keys -> pressed = m /\ released = m) /\
    kb.kb_map_key keycode m =
      (if (keycode =? input_event_codes.KEY_Q) && kb.ctrl_pressed m
       then kb.ACTION_QUIT else kb.ACTION_NONE).
Proof.
  intros keycode [ctrl alt shift]. cbv zeta.
  split; [|split; [|split; [|split; [|split]]]].
  - intros [K|K]; subst keycode; split; reflexivity.
  - intros [K|K]; subst keycode; split; reflexivity.
  - intros [K|K]; subst keycode; split; reflexivity.
  - unfold modifier_keys. cbn [In].
    intros [K|[K|[K|[K|[K|[K|[]]]]]]]; subst keycode; reflexivity.
  - intros Hn. unfold modifier_keys in Hn. cbn [In] in Hn.
    assert (N : (keycode =? input_event_codes.KEY_LEFTCTRL) = false /\
                (keycode =? input_event_codes.KEY_RIGHTCTRL) = false /\
                (keycode =? input_event_codes.KEY_LEFTSHIFT) = false /\
                (keycode =? input_event_codes.KEY_RIGHTSHIFT) = false /\
                (keycode =? input_event_codes.KEY_LEFTALT) = false /\
                (keycode =? input_event_codes.KEY_RIGHTALT) = false).
    { repeat split; apply Z.eqb_neq; intros ->; apply Hn; tauto. }
    destruct N as (N1 & N2 & N3 & N4 & N5 & N6).
    unfold kb.kb_get_sequence, kb.kb_handle_release. cbv zeta.
    rewrite N1, N2, N3, N4, N5, N6. cbn [orb snd]. split; reflexivity.
  - unfold kb.kb_map_key.
    destruct (Z.eqb_spec keycode input_event_codes.KEY_Q) as [->|Hq].
    + reflexivity.
    + cbn [andb].
      repeat match goal with
             | |- context [if ?c then _ else _] => destruct c
             end; reflexivity.
Qed.

(** * The framebuffer surface *)

Lemma writes_inside_refl (f : fb.framebuffer) :
  0 <= fb.mem_size f -> fb.writes_inside f f.
Proof. intros H. unfold fb.writes_inside. repeat split; congruence. Qed.

Lemma surface_ok_same_shape (f f' : fb.framebuffer) :
  fb.writes_inside f f' -> fb.surface_ok f -> fb.surface_ok f'.
Proof.
  intros (E1 & E2 & E3 & E4 & E5 & _) H. unfold fb.surface_ok.
  rewrite E1, E2, E3, E4, E5. exact H.
Qed.

(** Under [surface_ok] the offset of a pixel of the surface is computed
    without overflow. *)
Lemma pixel_offset_plain (x y : Z) (f : fb.framebuffer) :
  fb.surface_ok f -> 0 <= x < fb.width f -> 0 <= y < fb.height f ->
  fb.pixel_offset x y f = y * fb.line_length f + x * 4 /\
  0 <= y * fb.line_length f + x * 4 < 2 ^ 31 - 4.
Proof.
  intros (Hb & Hl & Hw & Hh & Hm & Hs) Hx Hy.
  assert (B1 : 0 <= y * fb.line_length f) by nia.
  assert (B2 : y * fb.line_length f <= (fb.height f - 1) * fb.line_length f) by nia.
  assert (B3 : 0 <= x * 4 <= fb.width f * 4 - 4) by lia.
  split; [|lia].
  unfold fb.pixel_offset. rewrite Hb. change (Z.quot 32 8) with 4.
  rewrite (wrap_int_small (y * fb.line_length f)) by lia.
  rewrite (wrap_int_small (x * 4)) by lia.
  rewrite wrap_int_small by lia.
  unfold fb.to_size_t. apply Z.mod_small. lia.
Qed.

Lemma put_pixel_inside (x y color : Z) (f0 f : fb.framebuffer) :
  fb.surface_ok f0 -> fb.writes_inside f0 f ->
  fb.writes_inside f0 (fb.fb_put_pixel x y color f).
Proof.
  intros H0 Hw. pose proof (surface_ok_same_shape f0 f Hw H0) as Hf.
  unfold fb.fb_put_pixel.
  destruct (Z.ltb_spec x 0); [exact Hw|].
  destruct (Z.geb_spec x (fb.width f)); [exact Hw|].
  destruct (Z.ltb_spec y 0); [exact Hw|].
  destruct (Z.geb_spec y (fb.height f)); [exact Hw|].
  cbn [orb]. cbv zeta.
  destruct (pixel_offset_plain x y f Hf) as [Eo Bo]; try lia.
  rewrite Eo.
  destruct Hf as (Hb & Hl & Hwd & Hh & Hm & Hs).
  rewrite Hb. change (fb.to_size_t (Z.quot 32 8)) with 4.
  assert (Es : fb.to_size_t (y * fb.line_length f + x * 4 + 4)
               = y * fb.line_length f + x * 4 + 4).
  { unfold fb.to_size_t. apply Z.mod_small. lia. }
  rewrite Es.
  destruct (Z.gtb_spec (y * fb.line_length f + x * 4 + 4) (fb.mem_size f));
    [exact Hw|].
  destruct Hw as (E1 & E2 & E3 & E4 & E5 & Hmem).
  unfold fb.writes_inside. cbn [fb.set_mem fb.mem fb.mem_size fb.width fb.height
                                fb.bpp fb.line_length].
  do 5 (split; [assumption|]).
  intros k Hk. unfold fb.store32 in Hk.
  destruct (Z.leb_spec (y * fb.line_length f + x * 4) k);
    destruct (Z.ltb_spec k (y * fb.line_length f + x * 4 + 4));
    cbn [andb] in Hk; try (apply Hmem; exact Hk).
  rewrite <- E1. lia.
Qed.

(** X28.  On a 32-bpp surface whose dimensions keep the offset
    [y * line_length + x * 4] within an [int], [fb_put_pixel], [fb_clear]
    and [fb_draw_bitmap] never write a byte outside the mapping, for any
    coordinates, colours, bitmap and bitmap size, and they leave the
    description of the surface as it is. *)
Theorem drawing_stays_inside_mapping :
  forall f,
    fb.surface_ok f ->
    (forall x y color, fb.writes_inside f (fb.fb_put_pixel x y color f)) /\
    (forall color, fb.writes_inside f (fb.fb_clear color f)) /\
    (forall x y bitmap w h fg bg,
       fb.writes_inside f (fb.fb_draw_bitmap x y bitmap w h fg bg f)).
Proof.
  intros f Hf.
  assert (H0 : fb.writes_inside f f).
  { apply writes_inside_refl. destruct Hf as (_ & _ & _ & _ & _ & Hs). lia. }
  split; [|split].
  - intros x y color. apply put_pixel_inside; assumption.
  - intros color. unfold fb.fb_clear, for_up.
    apply (for_count_preserves (fb.writes_inside f)); [|exact H0].
    intros y s Hs.
    apply (for_count_preserves (fb.writes_inside f)); [|exact Hs].
    intros x s' Hs'. apply put_pixel_inside; assumption.
  - intros x y bitmap w h fg bg. unfold fb.fb_draw_bitmap, for_up.
    apply (for_count_preserves (fb.writes_inside f)); [|exact H0].
    intros j s Hs.
    apply (for_count_preserves (fb.writes_inside f)); [|exact Hs].
    intros i s' Hs'. unfold fb.draw_coverage.
    destruct (_ =? 0); [exact Hs'|].
    destruct (_ =? 255); apply put_pixel_inside; assumption.
Qed.

Lemma blend_channel_between (fg bg alpha : Z) :
  is_byte fg -> is_byte bg -> 0 <= alpha <= 255 ->
  Z.min fg bg <= fb.blend_channel fg bg alpha <= Z.max fg bg.
Proof.
  unfold is_byte. intros Hf Hb Ha. unfold fb.blend_channel.
  assert (L : Z.min fg bg * 255 <= fg * alpha + bg * (255 - alpha)).
  { destruct (Z.le_ge_cases fg bg); [rewrite Z.min_l by lia|rewrite Z.min_r by lia]; nia. }
  assert (U : fg * alpha + bg * (255 - alpha) <= Z.max fg bg * 255).
  { destruct (Z.le_ge_cases fg bg); [rewrite Z.max_r by lia|rewrite Z.max_l by lia]; nia. }
  assert (D1 : Z.min fg bg <= (fg * alpha + bg * (255 - alpha)) / 255).
  { apply Z.div_le_lower_bound; lia. }
  assert (D2 : (fg * alpha + bg * (255 - alpha)) / 255 <= Z.max fg bg).
  { apply Z.div_le_upper_bound; lia. }
  rewrite Z.mod_small; lia.
Qed.

Lemma channel_is_byte (color shift : Z) : is_byte (fb.channel color shift).
Proof.
  unfold fb.channel, is_byte. change 0xFF with (Z.ones 8).
  apply (land_ones_range _ 8). lia.
Qed.

(** X29.  Alpha blending in [fb_draw_bitmap]: for a coverage from 0 to 255
    each blended channel lies between the background's and the
    foreground's channel, coverage 255 would give the foreground and
    coverage 0 the background exactly, and the blended colour is a 24-bit
    RGB value. *)
Theorem blend_is_between_background_and_foreground :
  forall fg_color bg_color alpha,
    0 <= alpha <= 255 ->
    (forall shift,
       let fg := fb.channel fg_color shift in
       let bg := fb.channel bg_color shift in
       Z.min fg bg <= fb.blend_channel fg bg alpha <= Z.max fg bg /\
       fb.blend_channel fg bg 255 = fg /\ fb.blend_channel fg bg 0 = bg) /\
    0 <= fb.blend fg_color bg_color alpha < 2 ^ 24.
Proof.
  intros fg_color bg_color alpha Ha. split.
  - intros shift. cbv zeta.
    pose proof (channel_is_byte fg_color shift) as Hf.
    pose proof (channel_is_byte bg_color shift) as Hb.
    split; [apply blend_channel_between; assumption|].
    unfold is_byte in *. unfold fb.blend_channel.
    split.
    + replace (fb.channel fg_color shift * 255 + fb.channel bg_color shift * (255 - 255))
        with (fb.channel fg_color shift * 255) by lia.
      rewrite Z.div_mul by lia. apply Z.mod_small. lia.
    + replace (fb.channel fg_color shift * 0 + fb.channel bg_color shift * (255 - 0))
        with (fb.channel bg_color shift * 255) by lia.
      rewrite Z.div_mul by lia. apply Z.mod_small. lia.
  - unfold fb.blend. cbv zeta.
    assert (B : forall a b, 0 <= fb.blend_channel a b alpha < 2 ^ 8).
    { intros a b. unfold fb.blend_channel. apply Z.mod_pos_bound. lia. }
    apply (lor_widen _ _ 8 24); [lia| |apply B].
    apply (lor_widen _ _ 16 24); [lia| |].
    + apply (shiftl_range _ 8 16); [lia|lia|apply B].
    + apply (shiftl_range _ 8 8); [lia|lia|apply B].
Qed.

(** * The grid size chosen by [main] *)

(** X30.  For [int] framebuffer sizes and positive [int] character cell
    sizes, the grid size that [main] computes lies within the bounds the
    terminal code relies on, 40 <= TERM_COLS <= MAX_TERM_COLS and
    10 <= TERM_ROWS <= MAX_TERM_ROWS: it is the quotient of the [int]
    difference [fb.width - 4] by [char_width], raised to 40 when smaller
    and lowered to MAX_TERM_COLS when larger, and likewise for the rows
    with 10 and MAX_TERM_ROWS.  The difference is the mathematical one
    unless [fb.width] is below [INT_MIN + 4], where the [int] subtraction
    wraps around. *)
Theorem main_grid_size_within_bounds :
  forall fb_width fb_height char_width char_height,
    - 2 ^ 31 <= fb_width < 2 ^ 31 -> - 2 ^ 31 <= fb_height < 2 ^ 31 ->
    0 < char_width < 2 ^ 31 -> 0 < char_height < 2 ^ 31 ->
    let qc := Z.quot (wrap_int (fb_width - 4)) char_width in
    let qr := Z.quot (wrap_int (fb_height - 4)) char_height in
    let cols := main_term_cols fb_width char_width in
    let rows := main_term_rows fb_height char_height in
    40 <= cols <= MAX_TERM_COLS /\ 10 <= rows <= MAX_TERM_ROWS /\
    cols = Z.max 40 (Z.min qc MAX_TERM_COLS) /\
    rows = Z.max 10 (Z.min qr MAX_TERM_ROWS) /\
    (- 2 ^ 31 + 4 <= fb_width -> qc = Z.quot (fb_width - 4) char_width) /\
    (- 2 ^ 31 + 4 <= fb_height -> qr = Z.quot (fb_height - 4) char_height).
Proof.
  intros w h cw chh Hw Hh Hcw Hch. cbv zeta.
  assert (Q : forall a b, 0 < b -> - 2 ^ 31 <= Z.quot (wrap_int a) b < 2 ^ 31).
  { intros a b Hb. pose proof (wrap_int_range a) as Ha.
    destruct (Z.le_gt_cases 0 (wrap_int a)) as [P|N].
    - pose proof (Z.quot_pos (wrap_int a) b P Hb).
      pose proof (Z.quot_le_upper_bound (wrap_int a) b (wrap_int a) Hb
                    ltac:(nia)). lia.
    - pose proof (Z.quot_opp_l (wrap_int a) b ltac:(lia)) as E.
      pose proof (Z.quot_pos (- wrap_int a) b ltac:(lia) Hb).
      pose proof (Z.quot_le_upper_bound (- wrap_int a) b (- wrap_int a) Hb
                    ltac:(nia)). lia. }
  unfold main_term_cols, main_term_rows.
  rewrite (wrap_int_small (Z.quot (wrap_int (w - 4)) cw)) by (apply Q; lia).
  rewrite (wrap_int_small (Z.quot (wrap_int (h - 4)) chh)) by (apply Q; lia).
  assert (C : forall v lo hi, lo <= hi ->
                lo <= clamp_dim v lo hi <= hi /\
                clamp_dim v lo hi = Z.max lo (Z.min v hi)).
  { intros v lo hi Hl. unfold clamp_dim. cbv zeta.
    destruct (Z.ltb_spec v lo);
      match goal with |- context [?a >? ?b] => destruct (Z.gtb_spec a b) end; lia. }
  destruct (C (Z.quot (wrap_int (w - 4)) cw) 40 MAX_TERM_COLS
              ltac:(unfold MAX_TERM_COLS; lia)) as [C1 C2].
  destruct (C (Z.quot (wrap_int (h - 4)) chh) 10 MAX_TERM_ROWS
              ltac:(unfold MAX_TERM_ROWS; lia)) as [R1 R2].
  split; [exact C1|]. split; [exact R1|]. split; [exact C2|]. split; [exact R2|].
  split; intros Hlo; rewrite wrap_int_small by lia; reflexivity.
Qed.

(** * Closed instances on the default 80 x 24 grid *)

Lemma default_cols_range : 40 <= 80 <= MAX_TERM_COLS.
Proof. unfold MAX_TERM_COLS. lia. Qed.

Lemma default_rows_range : 10 <= 24 <= MAX_TERM_ROWS.
Proof. unfold MAX_TERM_ROWS. lia. Qed.

Lemma scroll_region_bounds_in_grid_witness :
  region_in_grid 24 (term_feed 80 24 (term_init 80 24) [27; 91; 53; 59; 51; 114]).
Proof.
  apply (proj1 (scroll_region_bounds_in_grid 80 24
                  default_cols_range default_rows_range)).
  - repeat constructor; unfold is_byte; lia.
  - lazy. reflexivity.
Defined.

(** ESC [ 5 ; 3 r asks for top row 5 and bottom row 3: the region ends up
    with [scroll_top = 4] above [scroll_bottom = 2].  The stream is in
    bounds. *)
Lemma csi_r_inverted_region :
  let bytes := [27; 91; 53; 59; 51; 114] in
  let t := term_feed 80 24 (term_init 80 24) bytes in
  run_in_bounds 80 24 (term_init 80 24) bytes = true /\
  scroll_top t = 4 /\ scroll_bottom t = 2 /\
  ~ (0 <= scroll_top t /\ scroll_top t <= scroll_bottom t /\ scroll_bottom t < 24).
Proof.
  lazy. repeat split; try reflexivity. intros (_ & H & _). apply H. reflexivity.
Qed.

Lemma cell_codepoints_at_most_21_bits_witness :
  0 <= cell.codepoint
         (cell_at (term_feed 80 24 (term_init 80 24) [0xED; 0xA0; 0x80]) 0 0)
    <= 0x1FFFFF.
Proof.
  apply (proj1 (cell_codepoints_at_most_21_bits 80 24
                  default_cols_range default_rows_range [0xED; 0xA0; 0x80]
                  ltac:(repeat constructor; unfold is_byte; lia)
                  ltac:(lazy; reflexivity)));
    unfold MAX_TERM_ROWS, MAX_TERM_COLS; lia.
Defined.

(** The bytes ED A0 80 decode to the surrogate U+D800, and F4 90 80 80 to
    0x110000, past the last code point; both are stored as decoded.  Both
    streams are in bounds. *)
Lemma surrogate_stored_in_cell :
  let t := term_feed 80 24 (term_init 80 24) [0xED; 0xA0; 0x80] in
  let u := term_feed 80 24 (term_init 80 24) [0xF4; 0x90; 0x80; 0x80] in
  run_in_bounds 80 24 (term_init 80 24) [0xED; 0xA0; 0x80] = true /\
  run_in_bounds 80 24 (term_init 80 24) [0xF4; 0x90; 0x80; 0x80] = true /\
  cell.codepoint (cell_at t 0 0) = 0xD800 /\
  cell.codepoint (cell_at u 0 0) = 0x110000 /\
  ~ (cell.codepoint (cell_at t 0 0) = 32 \/
     is_scalar_value (cell.codepoint (cell_at t 0 0))).
Proof.
  lazy. repeat split; try reflexivity.
  intros [H|[_ H]]; [discriminate H|]. apply H. split; discriminate.
Qed.

(** Why the streams are required to stay in bounds.  ESC [ 24 ; 1 H,
    ESC [ 2147483647 B and ESC [ 2147483470 A wrap the [int] cursor row
    around to 200, one past the last row of the array; after ESC [ 2 G the
    erase ESC [ K blanks [cells[200][1]] and the cells after it, which is
    not storage of the array: in [struct terminal] it is where the fields
    after [cells] are kept.  The second sequence is the byte that is not in
    bounds. *)
Lemma wrapped_cursor_leaves_the_array :
  let bytes := csi_seq2 24 1 72 ++ csi_seq1 2147483647 66 ++ csi_seq1 2147483470 65
               ++ csi_seq1 2 71 ++ [27; 91; 75] in
  let t := term_feed 80 24 (term_init 80 24) bytes in
  run_in_bounds 80 24 (term_init 80 24) (csi_seq2 24 1 72) = true /\
  run_in_bounds 80 24 (term_init 80 24)
    (csi_seq2 24 1 72 ++ csi_seq1 2147483647 66) = false /\
  cursor_y t = 200 /\ cursor_x t = 1 /\
  in_array (cell_index 200 1) = false /\
  cell_at t 200 1 = cell.mk 32 0x00FFFFFF 0 0.
Proof. lazy. repeat split. Qed.

(** C5.  ESC ( B from the initial state: the byte after the introducer is
    not discarded, it is printed at the cursor. *)
Theorem esc_paren_next_byte_is_printed :
  let t := term_feed 80 24 (term_init 80 24) [27; 40; 66] in
  state t = STATE_NORMAL /\
  cell.codepoint (cell_at t 0 0) = 66 /\
  cursor_x t = 1 /\
  cell.codepoint (cell_at (term_init 80 24) 0 0) = 32.
Proof. lazy. repeat split; reflexivity. Qed.

(** C7.  ESC [ ; 5 H from the initial state: the semicolon makes the
    parameter count 1, the digit then lands in the first parameter, and the
    cursor goes to row 4, column 0. *)
Theorem csi_leading_semicolon_fills_first_parameter :
  let t := term_feed 80 24 (term_init 80 24) [27; 91; 59; 53; 72] in
  num_escape_params t = 1 /\
  list_get (escape_params t) 0 = 5 /\
  list_get (escape_params t) 1 = 0 /\
  cursor_y t = 4 /\ cursor_x t = 0.
Proof. lazy. repeat split; reflexivity. Qed.

(** C9.  On the 80 x 24 grid, print A at (0,0), move to row 1 with
    ESC [ 2 ; 1 H, then delete 580 characters with ESC [ 5 8 0 P.  The
    blanking loop visits 580 columns starting at 80 - 580 = -500, left of
    the row; [cells[1][-500]] is the storage of [cells[0][0]], and the cell
    (0,0), outside the cursor row, loses its A. *)
Theorem csi_delete_chars_leaves_the_row :
  let t0 := term_feed 80 24 (term_init 80 24) [65; 27; 91; 50; 59; 49; 72] in
  let t1 := term_feed 80 24 t0 [27; 91; 53; 56; 48] in
  let t2 := term_process_char 80 24 t1 80 in
  cursor_y t1 = 1 /\ cursor_x t1 = 0 /\ csi_count t1 = 580 /\
  hd 0 (up_indices (80 - csi_count t1) 80) = -500 /\
  length (up_indices (80 - csi_count t1) 80) = 580%nat /\
  cell_index 1 (-500) = cell_index 0 0 /\
  cell.codepoint (cell_at t1 0 0) = 65 /\
  cell.codepoint (cell_at t2 0 0) = 32 /\
  cursor_y t2 = 1.
Proof. lazy. repeat split; reflexivity. Qed.

(** The grid sizes used below are inside the limits [main] clamps to. *)
Lemma utf8_round_trip_witness :
  let t := term_init 80 24 in
  let t' := term_feed 80 24 t (utf8_encode 0x1F600) in
  cell_at t' (cursor_y t') (cursor_x t' - 1)
    = cell.mk 0x1F600 (fg_color t) (bg_color t) (bold t).
Proof.
  cbv zeta.
  apply (proj1 (utf8_round_trip 80 24 default_cols_range default_rows_range)).
  - split; lazy; reflexivity.
  - split; lazy; reflexivity.
  - unfold cursor_ok. lazy. repeat split; discriminate.
  - lia.
  - unfold is_scalar_value. lia.
Defined.

Lemma write_at_last_column_defers_wrap_witness :
  let t := term_feed 80 24 (term_init 80 24) [27; 91; 49; 59; 56; 48; 72] in
  let t1 := term_process_char 80 24 t 65 in
  cursor_x t1 = 80 /\ cursor_y t1 = cursor_y t.
Proof.
  cbv zeta.
  apply (proj1 (write_at_last_column_defers_wrap 80 24
                  default_cols_range default_rows_range
                  (term_feed 80 24 (term_init 80 24) [27; 91; 49; 59; 56; 48; 72])
                  65 66
                  ltac:(split; lazy; reflexivity)
                  ltac:(split; lazy; reflexivity)
                  ltac:(unfold cursor_ok; lazy; repeat split; discriminate)
                  ltac:(lazy; reflexivity)
                  ltac:(lia) ltac:(lia))).
Defined.

Lemma cursor_position_report_round_trip_witness :
  let t := set_master_fd 3 (term_init 80 24) in
  let t1 := term_feed 80 24 t ([27; 91] ++ fmt_d 3 ++ [59] ++ fmt_d 10 ++ [72]) in
  let t2 := term_feed 80 24 t1 [27; 91; 54; 110] in
  pty_out t2 = pty_out t ++ ([27; 91] ++ fmt_d 3 ++ [59] ++ fmt_d 10 ++ [82]).
Proof.
  cbv zeta.
  apply (cursor_position_report_round_trip 80 24
           default_cols_range default_rows_range
           (set_master_fd 3 (term_init 80 24)) 3 10
           ltac:(lazy; reflexivity) ltac:(cbn; lia) ltac:(lia) ltac:(lia)).
Defined.

Lemma scroll_up_then_down_restores_witness :
  let t := term_feed 80 24 (term_init 80 24) [27; 91; 52; 59; 49; 72; 88] in
  let t' := term_feed 80 24 t (([27; 91] ++ fmt_d 2 ++ [83])
                                ++ ([27; 91] ++ fmt_d 2 ++ [84])) in
  cell_at t' 3 0 = cell_at t 3 0.
Proof.
  cbv zeta.
  apply (proj1 (scroll_up_then_down_restores 80 24
                  default_cols_range default_rows_range
                  (term_feed 80 24 (term_init 80 24) [27; 91; 52; 59; 49; 72; 88]) 2
                  ltac:(lazy; reflexivity)
                  ltac:(unfold region_ok; lazy; repeat split; discriminate)
                  ltac:(lazy; split; discriminate))).
  - lia.
  - lazy. split; discriminate.
Defined.

(** A bold X is written at row 1, column 0; SGR is reset; rows 0 and 23,
    the top and the bottom of the region, are blank, white on black, not
    bold.  After ESC [ 1 S ESC [ 1 T the X is back at row 1, but cell (0,0)
    now carries the bold flag of the X: it is not the cell it was. *)
Lemma scroll_pair_changes_bold :
  let t := term_feed 80 24 (term_init 80 24)
             [27; 91; 49; 109; 27; 91; 50; 59; 49; 72; 88; 27; 91; 48; 109] in
  let t' := term_feed 80 24 t [27; 91; 49; 83; 27; 91; 49; 84] in
  let blank := cell.mk 32 0x00FFFFFF 0 0 in
  state t = STATE_NORMAL /\ scroll_top t = 0 /\ scroll_bottom t = 23 /\
  fg_color t = 0x00FFFFFF /\ bg_color t = 0 /\ bold t = 0 /\
  forallb (fun x => cell_eqb (cell_at t 0 x) blank
                    && cell_eqb (cell_at t 23 x) blank) (up_indices 0 80) = true /\
  cell_at t 0 0 = blank /\
  cell_at t' 0 0 = cell.mk 32 0x00FFFFFF 0 1 /\
  cell_at t' 0 0 <> cell_at t 0 0.
Proof.
  lazy. repeat split; try reflexivity. discriminate.
Qed.

(** ** Key mapper *)

(** C10 (amended).  While Ctrl is held, each of the ten letter keys listed
    under [if (ctrl_pressed)] in [kb_get_sequence] (C, D, Z, L, A, E, K, U,
    W, R) yields its C0 control byte as the sequence for the PTY master. *)
Theorem ctrl_listed_letters_give_c0 :
  forall m keycode c,
    kb.ctrl_pressed m = true ->
    In (keycode, c) kb.ctrl_handled ->
    fst (kb.kb_get_sequence keycode m) = [c] /\ In (keycode, c) kb.letter_keys.
Proof.
  intros [ctrl alt shift] keycode c Hctrl Hin. cbn in Hctrl. subst ctrl.
  cbn in Hin.
  repeat match goal with
         | H : _ \/ _ |- _ => destruct H as [H|H]
         end; try contradiction; inversion Hin; subst; clear Hin;
    (split; [reflexivity|cbn; tauto]).
Qed.

Lemma ctrl_listed_letters_give_c0_witness :
  fst (kb.kb_get_sequence input_event_codes.KEY_C (kb.mk true false false)) = [3] /\
  In (input_event_codes.KEY_C, 3) kb.letter_keys.
Proof.
  apply (ctrl_listed_letters_give_c0 (kb.mk true false false)).
  - reflexivity.
  - left. reflexivity.
Defined.

(** Ctrl+Q is taken by the host: [kb_map_key] answers [ACTION_QUIT] and no
    byte is produced for the PTY master. *)
Lemma ctrl_q_is_quit :
  kb.kb_map_key input_event_codes.KEY_Q (kb.mk true false false) = kb.ACTION_QUIT /\
  fst (kb.kb_get_sequence input_event_codes.KEY_Q (kb.mk true false false)) = [].
Proof. split; reflexivity. Qed.

(** Ctrl+B: key code 48 is not in the list and is outside KEY_A..KEY_Z
    (30..44), so the sequence is empty instead of the byte 0x02. *)
Lemma ctrl_b_gives_no_byte :
  In (input_event_codes.KEY_B, 2) kb.letter_keys /\
  fst (kb.kb_get_sequence input_event_codes.KEY_B (kb.mk true false false)) = [] /\
  fst (kb.kb_get_sequence input_event_codes.KEY_B (kb.mk true false false)) <> [2].
Proof.
  split; [cbn; tauto|]. split; [reflexivity|discriminate].
Qed.

(** * Closed instances of the further properties *)

Lemma parser_indices_in_range_witness :
  let t := term_feed 80 24 (term_init 80 24)
             [27; 91; 50; 52; 59; 49; 72; 27; 91; 53; 66; 27; 91; 49; 75] in
  index_ok t /\ cursor_on_grid 80 24 t.
Proof.
  cbv zeta. apply (parser_indices_in_range 80 24 default_cols_range default_rows_range).
  - repeat constructor; unfold is_byte; lia.
  - lazy. reflexivity.
Defined.

Lemma settings_change_only_on_six_finals_witness :
  let t := csi_entered (term_init 80 24) in
  same_settings t (term_process_char 80 24 t 75) /\
  cursor_on_grid 80 24 (term_process_char 80 24 t 75) /\
  outside_kept t (term_process_char 80 24 t 75).
Proof.
  cbv zeta.
  apply (settings_change_only_on_six_finals 80 24 default_cols_range default_rows_range
           (csi_entered (term_init 80 24)) 75).
  - unfold is_byte. lia.
  - unfold region_in_grid. lazy. repeat split; discriminate.
  - unfold index_ok. lazy. repeat split; discriminate.
  - unfold cursor_on_grid. lazy. repeat split; discriminate.
  - lazy. reflexivity.
  - intros _ H. unfold settings_finals in H. cbn [In] in H. lia.
Defined.

Lemma sgr_state_stays_rgb_witness :
  sgr_ok (term_feed 80 24 (term_init 80 24) [27; 91; 51; 49; 59; 49; 109; 65]).
Proof.
  apply (sgr_state_stays_rgb 80 24 default_cols_range default_rows_range).
  - repeat constructor; unfold is_byte; lia.
  - lazy. reflexivity.
Defined.

Lemma insert_delete_line_scroll_from_cursor_witness :
  let t := term_init 80 24 in
  let u := set_scroll_top (cursor_y t) t in
  term_handle_csi 80 24 83 u = set_scroll_top (cursor_y t) (term_handle_csi 80 24 77 t).
Proof.
  cbv zeta.
  apply (proj1 (insert_delete_line_scroll_from_cursor 80 24
                  default_cols_range default_rows_range (term_init 80 24)
                  ltac:(lazy; split; [discriminate|reflexivity])
                  ltac:(lazy; split; [discriminate|reflexivity]))).
Defined.

Lemma settings_finals_keep_grid_and_cursor_witness :
  grid_kept (term_init 80 24) (term_handle_csi 80 24 109 (term_init 80 24)).
Proof.
  apply (settings_finals_keep_grid_and_cursor 80 24 109 (term_init 80 24)).
  left. reflexivity.
Defined.

Lemma cursor_position_clamps_to_grid_witness :
  let t := term_init 80 24 in
  let t' := term_feed 80 24 t (csi_seq2 0 200 72) in
  cursor_y t' = Z.min (Z.max 0 1) 24 - 1 /\
  cursor_x t' = Z.min (Z.max 200 1) 80 - 1 /\
  cells t' = cells t /\ same_settings t t' /\ state t' = STATE_NORMAL.
Proof.
  cbv zeta.
  apply (cursor_position_clamps_to_grid 80 24 default_cols_range default_rows_range
           (term_init 80 24) 0 200 72
           ltac:(lazy; reflexivity) ltac:(lia) ltac:(lia)
           ltac:(left; reflexivity)).
Defined.

Lemma cursor_moves_stop_at_edges_witness :
  let t := term_init 80 24 in
  let k := Z.max 100 1 in
  let go final := term_feed 80 24 t (csi_seq1 100 final) in
  (cursor_y (go 65) = Z.max (cursor_y t - k) 0 /\ cursor_x (go 65) = cursor_x t) /\
  (cursor_y (go 66) = Z.min (cursor_y t + k) (24 - 1) /\
   cursor_x (go 66) = cursor_x t) /\
  (cursor_x (go 67) = Z.min (cursor_x t + k) (80 - 1) /\
   cursor_y (go 67) = cursor_y t) /\
  (cursor_x (go 68) = Z.max (cursor_x t - k) 0 /\ cursor_y (go 68) = cursor_y t).
Proof.
  apply (cursor_moves_stop_at_edges 80 24 default_cols_range default_rows_range
           (term_init 80 24) 100
           ltac:(lazy; reflexivity)
           ltac:(lazy; split; [discriminate|reflexivity])
           ltac:(lazy; split; discriminate)
           ltac:(lia)).
Defined.

Lemma erase_line_blanks_part_of_row_witness :
  let t := term_init 80 24 in
  let t' := term_feed 80 24 t (csi_seq1 2 75) in
  cell_at t' 0 5 =
    if (0 =? cursor_y t) && line_erased 80 2 (cursor_x t) 5
    then blanked t (cell_at t 0 5) else cell_at t 0 5.
Proof.
  cbv zeta.
  apply (proj1 (erase_line_blanks_part_of_row 80 24
                  default_cols_range default_rows_range
                  (term_init 80 24) 2 (csi_seq1 2 75)
                  ltac:(lazy; reflexivity)
                  ltac:(lazy; split; [discriminate|reflexivity])
                  ltac:(lazy; split; [discriminate|reflexivity])
                  ltac:(lia)
                  ltac:(left; reflexivity))).
  unfold MAX_TERM_COLS. lia.
Defined.

Lemma erase_display_blanks_part_of_grid_witness :
  let t := term_init 80 24 in
  let t' := term_feed 80 24 t (csi_seq1 0 74) in
  cell_at t' 3 5 =
    if display_erased 80 24 0 (cursor_y t) (cursor_x t) 3 5
    then blanked t (cell_at t 3 5) else cell_at t 3 5.
Proof.
  cbv zeta.
  apply (proj1 (erase_display_blanks_part_of_grid 80 24
                  default_cols_range default_rows_range
                  (term_init 80 24) 0 (csi_seq1 0 74)
                  ltac:(lazy; reflexivity)
                  ltac:(lazy; split; [discriminate|reflexivity])
                  ltac:(lazy; split; [discriminate|reflexivity])
                  ltac:(lia)
                  ltac:(left; reflexivity))).
  unfold MAX_TERM_COLS. lia.
Defined.

Lemma erase_chars_stays_in_row_witness :
  let t := term_init 80 24 in
  let t' := term_feed 80 24 t (csi_seq1 1000 88) in
  cell_at t' 0 5 =
    if (0 =? cursor_y t) && (cursor_x t <=? 5)
       && (5 <? cursor_x t + Z.max 1000 1) && (5 <? 80)
    then blanked t (cell_at t 0 5) else cell_at t 0 5.
Proof.
  cbv zeta.
  apply (proj1 (erase_chars_stays_in_row 80 24
                  default_cols_range default_rows_range
                  (term_init 80 24) 1000
                  ltac:(lazy; reflexivity)
                  ltac:(lazy; split; [discriminate|reflexivity])
                  ltac:(lazy; split; discriminate)
                  ltac:(lia))).
  unfold MAX_TERM_COLS. lia.
Defined.

Lemma unhandled_control_sequence_changes_nothing_witness :
  let t := term_init 80 24 in
  let t' := term_feed 80 24 t ([27; 91] ++ [49; 59; 63; 32] ++ [122]) in
  display_same t t' /\ state t' = STATE_NORMAL.
Proof.
  apply (unhandled_control_sequence_changes_nothing 80 24
           (term_init 80 24) [49; 59; 63; 32] 122).
  - lazy. reflexivity.
  - repeat constructor; unfold is_param_byte; lia.
  - right. right. split; [lia|].
    intros H. unfold handled_finals in H. cbn [In] in H. lia.
Defined.

Lemma osc_string_is_dropped_witness :
  let t := term_init 80 24 in
  let t' := term_feed 80 24 t ([27; 93] ++ [48; 59; 104; 105] ++ [7]) in
  t' = osc_done t /\ display_same t t' /\
  state t' = STATE_NORMAL /\ utf8_buf_len t' = 0.
Proof.
  apply (osc_string_is_dropped 80 24 (term_init 80 24) [48; 59; 104; 105] 7).
  - lazy. reflexivity.
  - repeat constructor; lia.
  - left. reflexivity.
Defined.

Lemma osc_string_terminator_prints_backslash_witness :
  let t := term_init 80 24 in
  let t' := term_feed 80 24 t ([27; 93] ++ [48; 59; 104; 105] ++ [27; 92]) in
  cell_at t' (cursor_y t) (cursor_x t)
    = cell.mk 92 (fg_color t) (bg_color t) (bold t).
Proof.
  cbv zeta.
  apply (proj1 (osc_string_terminator_prints_backslash 80 24 default_cols_range
                  (term_init 80 24) [48; 59; 104; 105]
                  ltac:(lazy; reflexivity)
                  ltac:(split; lazy; reflexivity)
                  ltac:(lazy; split; [discriminate|reflexivity])
                  ltac:(lazy; reflexivity)
                  ltac:(repeat constructor; lia))).
Defined.

Lemma device_reports_answer_on_pty_witness :
  let t := set_master_fd 3 (term_init 80 24) in
  pty_out (term_feed 80 24 t [27; 91; 99])
    = (if master_fd t >=? 0 then pty_out t ++ [27; 91; 63; 49; 59; 50; 99]
       else pty_out t).
Proof.
  cbv zeta.
  apply (proj1 (device_reports_answer_on_pty 80 24
                  (set_master_fd 3 (term_init 80 24))
                  ltac:(lazy; reflexivity))).
Defined.

Lemma line_feed_moves_or_scrolls_witness :
  let t := term_init 80 24 in
  let t' := term_process_char 80 24 t 10 in
  cursor_y t' = cursor_y t + 1 /\ cells t' = cells t.
Proof.
  cbv zeta.
  apply (proj1 (line_feed_moves_or_scrolls 80 24 default_cols_range
                  (term_init 80 24)
                  ltac:(lazy; reflexivity)
                  ltac:(lazy; split; [discriminate|reflexivity]))).
  lazy. reflexivity.
Defined.

Lemma tab_goes_to_next_multiple_of_8_witness :
  let t := term_init 80 24 in
  cursor_x t < 8 * (cursor_x t / 8 + 1) <= cursor_x t + 8.
Proof.
  cbv zeta.
  apply (proj1 (tab_goes_to_next_multiple_of_8 80 24 default_cols_range
                  (term_init 80 24)
                  ltac:(lazy; reflexivity)
                  ltac:(lazy; split; discriminate))).
Defined.

Lemma invalid_lead_byte_is_replacement_character_witness :
  let t := term_init 80 24 in
  let t' := term_process_char 80 24 t 0x80 in
  cell_at t' (cursor_y t) (cursor_x t)
    = cell.mk 0xFFFD (fg_color t) (bg_color t) (bold t).
Proof.
  cbv zeta.
  apply (proj1 (invalid_lead_byte_is_replacement_character 80 24 default_cols_range
                  (term_init 80 24) 0x80
                  ltac:(split; lazy; reflexivity)
                  ltac:(split; lazy; reflexivity)
                  ltac:(lazy; split; [discriminate|reflexivity])
                  ltac:(lazy; reflexivity)
                  ltac:(left; lia))).
Defined.

Lemma truncated_two_byte_sequence_swallows_next_byte_witness :
  let t := term_init 80 24 in
  let t' := term_feed 80 24 t [0xC3; 0x41] in
  cell_at t' (cursor_y t) (cursor_x t)
    = cell.mk (Z.shiftl (Z.land 0xC3 0x1F) 6) (fg_color t) (bg_color t) (bold t).
Proof.
  cbv zeta.
  apply (proj1 (truncated_two_byte_sequence_swallows_next_byte 80 24
                  default_cols_range (term_init 80 24) 0xC3 0x41
                  ltac:(split; lazy; reflexivity)
                  ltac:(split; lazy; reflexivity)
                  ltac:(lazy; split; [discriminate|reflexivity])
                  ltac:(lazy; reflexivity)
                  ltac:(lia) ltac:(left; lia))).
Defined.

Lemma delete_chars_shifts_row_left_witness :
  let t := term_init 80 24 in
  let k := Z.max 3 1 in
  let t' := term_feed 80 24 t (csi_seq1 3 80) in
  cell_at t' 0 5 =
    if (0 =? cursor_y t) && (cursor_x t <=? 5) && (5 <? 80 - k)
    then cell_at t 0 (5 + k)
    else if (0 =? cursor_y t) && (80 - k <=? 5) && (5 <? 80)
         then blanked t (cell_at t 0 5) else cell_at t 0 5.
Proof.
  cbv zeta.
  apply (proj1 (delete_chars_shifts_row_left 80 24
                  default_cols_range default_rows_range
                  (term_init 80 24) 3
                  ltac:(lazy; reflexivity)
                  ltac:(lazy; split; [discriminate|reflexivity])
                  ltac:(lazy; discriminate)
                  ltac:(lia)
                  ltac:(lazy; discriminate))).
  unfold MAX_TERM_COLS. lia.
Defined.

Lemma insert_chars_shifts_row_right_witness :
  let t := term_init 80 24 in
  let k := Z.max 3 1 in
  let t' := term_feed 80 24 t (csi_seq1 3 64) in
  cell_at t' 0 5 =
    if (0 =? cursor_y t) && (cursor_x t + k <=? 5) && (5 <? 80)
    then cell_at t 0 (5 - k)
    else if (0 =? cursor_y t) && (cursor_x t <=? 5)
            && (5 <? cursor_x t + k) && (5 <? 80)
         then blanked t (cell_at t 0 5) else cell_at t 0 5.
Proof.
  cbv zeta.
  apply (proj1 (insert_chars_shifts_row_right 80 24
                  default_cols_range default_rows_range
                  (term_init 80 24) 3
                  ltac:(lazy; reflexivity)
                  ltac:(lazy; split; [discriminate|reflexivity])
                  ltac:(lazy; split; discriminate)
                  ltac:(lia))).
  unfold MAX_TERM_COLS. lia.
Defined.

Lemma term_init_blank_screen_witness :
  cell_at (term_init 80 24) 23 79 =
    (if (0 <=? 23) && (23 <? 24) && (79 <? 80)
     then cell.mk 32 0x00FFFFFF 0 0 else cell.zero).
Proof.
  apply (proj1 (term_init_blank_screen 80 24 default_cols_range 23 79
                  ltac:(unfold MAX_TERM_COLS; lia))).
Defined.

Lemma escape_byte_swallows_fourteen_more_witness :
  let r := kbin.run (27 :: repeat 65 14) kbin.init in
  fst r = repeat (kb.ACTION_NONE, []) 15 /\
  kbin.escape_state (snd r) = 0 /\ kbin.escape_buf_len (snd r) = 0 /\
  kbin.mods (snd r) = kbin.mods kbin.init /\
  kbin.last_char (snd r) = kbin.last_char kbin.init.
Proof.
  apply (escape_byte_swallows_fourteen_more kbin.init (repeat 65 14)).
  - reflexivity.
  - reflexivity.
Defined.


Lemma letter_byte_is_offset_of_key_code_witness :
  fst (kb.kb_get_sequence input_event_codes.KEY_S (kb.mk false false false)) =
    [(if kb.shift_pressed (kb.mk false false false) then 65 else 97)
     + (input_event_codes.KEY_S - input_event_codes.KEY_A)].
Proof.
  apply (proj1 (letter_byte_is_offset_of_key_code (kb.mk false false false)
                  input_event_codes.KEY_S eq_refl)).
  - unfold input_event_codes.KEY_A, input_event_codes.KEY_S,
      input_event_codes.KEY_Z. lia.
  - unfold input_event_codes.KEY_S, input_event_codes.KEY_LEFTSHIFT. lia.
Defined.

Lemma drawing_stays_inside_mapping_witness :
  let f := fb.mk (fun _ => 0) 3145728 1024 768 32 4096 in
  fb.writes_inside f (fb.fb_put_pixel 1023 767 0x00FFFFFF f).
Proof.
  cbv zeta.
  apply (proj1 (drawing_stays_inside_mapping
                  (fb.mk (fun _ => 0) 3145728 1024 768 32 4096)
                  ltac:(unfold fb.surface_ok; cbn; lia))).
Defined.

Lemma blend_is_between_background_and_foreground_witness :
  0 <= fb.blend 0x00FFFFFF 0 128 < 2 ^ 24.
Proof.
  apply (proj2 (blend_is_between_background_and_foreground 0x00FFFFFF 0 128
                  ltac:(lia))).
Defined.

Lemma main_grid_size_within_bounds_witness :
  let qc := Z.quot (wrap_int (1024 - 4)) 8 in
  let qr := Z.quot (wrap_int (768 - 4)) 16 in
  let cols := main_term_cols 1024 8 in
  let rows := main_term_rows 768 16 in
  40 <= cols <= MAX_TERM_COLS /\ 10 <= rows <= MAX_TERM_ROWS /\
  cols = Z.max 40 (Z.min qc MAX_TERM_COLS) /\
  rows = Z.max 10 (Z.min qr MAX_TERM_ROWS) /\
  (- 2 ^ 31 + 4 <= 1024 -> qc = Z.quot (1024 - 4) 8) /\
  (- 2 ^ 31 + 4 <= 768 -> qr = Z.quot (768 - 4) 16).
Proof.
  apply (main_grid_size_within_bounds 1024 768 8 16); lia.
Defined.
